(** * Stock-Predictive-Model: analysis engine

    A shallow embedding of the analysis engine of the repository
    (src/analysis/technical_indicators.py, seasonality_analysis.py,
    predictive_model.py, analysis_orchestrator.py) together with the
    properties of its specification.

    Conventions of the embedding.
    - A Python float is an exact rational ([Q]) or one of the IEEE special
      values ([fval]); rounding is not modelled.
    - A pandas column is a list of cells, position-aligned with the rows.
    - A Python dict with string keys is a [gmap string _].
    - A Python exception of class [Exception] is the [Raise] constructor of
      [Result]; a [try/except Exception] is [catch]. *)

From Stdlib Require Import ZArith QArith Qabs List Ascii String Lia Lqa.
From stdpp Require Import base option list strings pretty gmap.

Local Open Scope Q_scope.

(** ** Numbers *)

Module Num.

(** Strict comparison on rationals, as a boolean. *)
Definition Qltb (x y : Q) : bool := negb (Qle_bool y x).
Definition Qgtb (x y : Q) : bool := Qltb y x.

(** A float: a finite value or one of the special values. *)
Inductive fval : Type :=
  | Fin (q : Q)
  | PInf
  | NInf
  | NaN.

Definition isnan (x : fval) : bool :=
  match x with NaN => true | _ => false end.

(** [np.isnan(X).any()] over one row of cells. *)
Definition any_isnan (X : list fval) : bool := existsb isnan X.

Definition Qsign (q : Q) : Z := Z.sgn (Qnum q).

Definition inf_of_sign (s : Z) : fval :=
  match s with
  | Zpos _ => PInf
  | Zneg _ => NInf
  | Z0 => NaN
  end.

Definition fsign (x : fval) : option Z :=
  match x with
  | Fin q => Some (Qsign q)
  | PInf => Some 1%Z
  | NInf => Some (-1)%Z
  | NaN => None
  end.

Definition fneg (x : fval) : fval :=
  match x with
  | Fin q => Fin (- q)
  | PInf => NInf
  | NInf => PInf
  | NaN => NaN
  end.

Definition fadd (x y : fval) : fval :=
  match x, y with
  | NaN, _ | _, NaN => NaN
  | Fin a, Fin b => Fin (a + b)
  | PInf, NInf | NInf, PInf => NaN
  | PInf, _ | _, PInf => PInf
  | NInf, _ | _, NInf => NInf
  end.

Definition fsub (x y : fval) : fval := fadd x (fneg y).

Definition fmul (x y : fval) : fval :=
  match x, y with
  | Fin a, Fin b => Fin (a * b)
  | _, _ =>
    match fsign x, fsign y with
    | Some sx, Some sy => inf_of_sign (sx * sy)
    | _, _ => NaN
    end
  end.

(** Division as numpy does it on floats: a finite non-zero value over zero
    is an infinity, zero over zero is NaN. Signed zeros are not modelled:
    a zero divisor counts as positive. *)
Definition fdiv (x y : fval) : fval :=
  match x, y with
  | NaN, _ | _, NaN => NaN
  | Fin a, Fin b =>
    if Qeq_bool b 0 then inf_of_sign (Qsign a) else Fin (a / b)
  | Fin _, _ => Fin 0
  | _, Fin b => if Qltb b 0 then fneg x else x
  | _, _ => NaN
  end.

(** [x > y] and [x < y]; false when either side is NaN. *)
Definition fgt (x y : fval) : bool :=
  match x, y with
  | NaN, _ | _, NaN => false
  | Fin a, Fin b => Qgtb a b
  | PInf, PInf => false
  | PInf, _ => true
  | _, NInf => negb (match x with NInf => true | _ => false end)
  | _, _ => false
  end.

Definition flt (x y : fval) : bool := fgt y x.

(** Equality of floats up to the equality of rationals. *)
Definition feq (x y : fval) : Prop :=
  match x, y with
  | Fin a, Fin b => a == b
  | PInf, PInf | NInf, NInf | NaN, NaN => True
  | _, _ => False
  end.

Definition of_nat (n : nat) : Q := inject_Z (Z.of_nat n).

End Num.
Export Num.

(** ** Exceptions *)

Inductive Result (A : Type) : Type :=
  | Ok (a : A)
  | Raise (msg : string).
Arguments Ok {A} a.
Arguments Raise {A} msg.

Definition bind {A B} (c : Result A) (k : A -> Result B) : Result B :=
  match c with
  | Ok a => k a
  | Raise e => Raise e
  end.

(** [try: c  except Exception as e: h(str(e))] *)
Definition catch {A} (c : Result A) (h : string -> A) : A :=
  match c with
  | Ok a => a
  | Raise e => h e
  end.

Notation "x <- c ;; k" := (bind c (fun x => k))
  (at level 100, c at next level, right associativity).

(** ** The pandas operations the engine uses *)

Module Pandas.

(** A column: one cell per row. *)
Abbreviation Series := (list fval).

Definition fsum (l : list fval) : fval := fold_left fadd l (Fin 0).

Definition fle (x y : fval) : bool :=
  match x, y with
  | NaN, _ | _, NaN => false
  | _, _ => negb (fgt x y)
  end.

Definition fge (x y : fval) : bool := fle y x.

(** [s.shift(n)] for [n >= 0] *)
Definition shift (n : nat) (s : Series) : Series :=
  take (length s) (replicate n NaN ++ s).

(** [s.diff()] *)
Definition diff (s : Series) : Series := zip_with fsub s (shift 1 s).

(** [s.pct_change(n)] on a series without missing values *)
Definition pct_change (n : nat) (s : Series) : Series :=
  map (fun x => fsub x (Fin 1)) (zip_with fdiv s (shift n s)).

(** [s.where(cond, other)] with a scalar [other] *)
Definition where_ (cond : fval -> bool) (other : fval) (s : Series) : Series :=
  map (fun x => if cond x then x else other) s.

(** [np.where(cond, a, b)] over two aligned series *)
Definition np_where (cond : fval -> fval -> bool) (a b : fval)
    (s t : Series) : Series :=
  zip_with (fun x y => if cond x y then a else b) s t.

(** The cells a trailing window of [w] rows ending at row [i] covers. *)
Definition window (w i : nat) (s : Series) : Series :=
  take w (drop (S i - w) s).

Definition fmean (l : list fval) : fval :=
  fdiv (fsum l) (Fin (of_nat (length l))).

(** [s.rolling(w).mean()]: missing until [w] rows are available, and
    wherever the window holds a missing cell. *)
Definition rolling_mean (w : nat) (s : Series) : Series :=
  map (fun i => if S i <? w then NaN else fmean (window w i s))
      (seq 0 (length s)).

Section Sqrt.

(** The square root of floats, which has no exact rational counterpart. *)
Variable sqrt : Q -> Q.

Definition fsqrt (x : fval) : fval :=
  match x with
  | Fin q => if Qltb q 0 then NaN else Fin (sqrt q)
  | PInf => PInf
  | _ => NaN
  end.

(** The sample standard deviation (ddof = 1). *)
Definition fstd (l : list fval) : fval :=
  let m := fmean l in
  fsqrt (fdiv (fsum (map (fun x => fmul (fsub x m) (fsub x m)) l))
              (Fin (of_nat (length l - 1)))).

(** [s.rolling(w).std()] *)
Definition rolling_std (w : nat) (s : Series) : Series :=
  map (fun i => if S i <? w then NaN else fstd (window w i s))
      (seq 0 (length s)).

End Sqrt.

(** [s.ewm(span=span).mean()] with the default [adjust=True], on a series
    without missing values: the weighted mean of all rows so far with
    weights [(1 - alpha)^k], [alpha = 2 / (span + 1)]. The numerator and the
    denominator are carried along the rows. *)
Fixpoint ewm_from (decay num den : Q) (s : list Q) : list Q :=
  match s with
  | [] => []
  | x :: s' =>
    let num' := x + decay * num in
    let den' := 1 + decay * den in
    (num' / den') :: ewm_from decay num' den' s'
  end.

Definition ewm_mean (span : nat) (s : list Q) : list Q :=
  ewm_from (1 - 2 / (of_nat span + 1)) 0 0 s.

(** [DataFrame.tail(n)] *)
Definition tail {A} (n : nat) (l : list A) : list A :=
  drop (length l - n) l.

(** [df.iloc[i]]: out of range raises. *)
Definition iloc {A} (l : list A) (i : nat) : Result A :=
  match l !! i with
  | Some x => Ok x
  | None => Raise "IndexError"
  end.

(** [s.iloc[-1]] *)
Definition iloc_last {A} (s : list A) : Result A :=
  match last s with
  | Some x => Ok x
  | None => Raise "IndexError"
  end.

End Pandas.
Export Pandas.

(** ** Price history *)

Record Date : Type := mkDate {
  year : Z;
  month : nat;
  day : nat
}.

(** One stored row of [get_stock_data]; the date is the index, the other
    fields are the columns Open, High, Low, Close, Adj Close, Volume. *)
Record PriceBar : Type := mkPriceBar {
  date : Date;
  open_price : Q;
  high : Q;
  low : Q;
  close : Q;
  adj_close : Q;
  volume : Q
}.

(** A frame over a price history: the stored rows and the columns the
    engine has added to them. The frame with no stored rows has no columns
    at all, as [pd.DataFrame([])] has none. The index holds the dates of
    the rows. *)
Record DataFrame : Type := mkDataFrame {
  records : list PriceBar;
  added : gmap string Series
}.

Module Frame.

(** [pd.DataFrame(data)] in [get_stock_data] *)
Definition of_records (bars : list PriceBar) : DataFrame :=
  mkDataFrame bars ∅.

Definition len (df : DataFrame) : nat := length (records df).

(** [df.empty] *)
Definition is_empty (df : DataFrame) : bool :=
  match records df with [] => true | _ => false end.

Definition stored (f : PriceBar -> Q) (df : DataFrame) : Series :=
  map (fun b => Fin (f b)) (records df).

(** [df[name]]; a missing column raises [KeyError]. The engine never
    assigns to a stored column, so a stored name always reads the stored
    values. *)
Definition col (df : DataFrame) (name : string) : Result Series :=
  if is_empty df then
    match added df !! name with
    | Some s => Ok s
    | None => Raise "KeyError"
    end
  else if String.eqb name "Open" then Ok (stored open_price df)
  else if String.eqb name "High" then Ok (stored high df)
  else if String.eqb name "Low" then Ok (stored low df)
  else if String.eqb name "Close" then Ok (stored close df)
  else if String.eqb name "Adj Close" then Ok (stored adj_close df)
  else if String.eqb name "Volume" then Ok (stored volume df)
  else
    match added df !! name with
    | Some s => Ok s
    | None => Raise "KeyError"
    end.

(** [df[name] = s] *)
Definition assign (name : string) (s : Series) (df : DataFrame) : DataFrame :=
  mkDataFrame (records df) (<[name := s]> (added df)).

(** [name in df.columns] *)
Definition has_column (df : DataFrame) (name : string) : bool :=
  match col df name with Ok _ => true | Raise _ => false end.

(** All columns by name. *)
Definition columns (df : DataFrame) : gmap string Series :=
  if is_empty df then added df
  else
    list_to_map
      [("Open", stored open_price df); ("High", stored high df);
       ("Low", stored low df); ("Close", stored close df);
       ("Adj Close", stored adj_close df); ("Volume", stored volume df)]
    ∪ added df.

(** [df.tail(n)] *)
Definition tail (n : nat) (df : DataFrame) : DataFrame :=
  mkDataFrame (Pandas.tail n (records df)) (Pandas.tail n <$> added df).

(** [df.to_dict('records')]: one dict per row *)
Definition to_dict_records (df : DataFrame) : list (gmap string fval) :=
  map (fun i => omap (fun s : Series => s !! i) (columns df))
      (seq 0 (len df)).

End Frame.

(** ** Indicator engine (src/analysis/technical_indicators.py) *)

Module TechnicalIndicators.

(** The calls into the [ta] package, whose code is not part of the
    repository. Each takes the series and window arguments the engine passes
    and may raise. *)
Record TaLibrary : Type := mkTaLibrary {
  (** [ta.momentum.RSIIndicator(close, window).rsi()] *)
  RSIIndicator : Series -> nat -> Result Series;
  (** [ta.trend.MACD(close, window_fast, window_slow, window_sign)]:
      [macd()], [macd_signal()], [macd_diff()] *)
  MACD : Series -> nat -> nat -> nat -> Result (Series * Series * Series);
  (** [ta.volatility.BollingerBands(close, window, window_dev)]:
      [bollinger_hband()], [bollinger_mavg()], [bollinger_lband()] *)
  BollingerBands : Series -> nat -> Q -> Result (Series * Series * Series);
  (** [ta.momentum.StochasticOscillator(high, low, close, window,
      smooth_window)]: [stoch()], [stoch_signal()] *)
  StochasticOscillator :
    Series -> Series -> Series -> nat -> nat -> Result (Series * Series);
  (** [ta.volume.OnBalanceVolumeIndicator(close, volume).on_balance_volume()] *)
  OnBalanceVolumeIndicator : Series -> Series -> Result Series;
  (** [ta.volume.VolumePriceTrendIndicator(close, volume).volume_price_trend()] *)
  VolumePriceTrendIndicator : Series -> Series -> Result Series
}.

Section Engine.

Variable sqrt : Q -> Q.
Variable ta : TaLibrary.

(** [calculate_basic_indicators], on [self.data] *)
Definition calculate_basic_indicators (data : DataFrame) : Result DataFrame :=
  if Frame.is_empty data then Ok data
  else
    Close <- Frame.col data "Close" ;;
    let data := Frame.assign "Daily_Return" (pct_change 1 Close) data in
    let data := Frame.assign "Price_Change" (diff Close) data in
    High <- Frame.col data "High" ;;
    Low <- Frame.col data "Low" ;;
    let data := Frame.assign "High_Low_Range" (zip_with fsub High Low) data in
    Open <- Frame.col data "Open" ;;
    let data := Frame.assign "Close_Open_Range" (zip_with fsub Close Open) data in
    Daily_Return <- Frame.col data "Daily_Return" ;;
    let data :=
      Frame.assign "Volatility_5d" (rolling_std sqrt 5 Daily_Return) data in
    let data :=
      Frame.assign "Volatility_20d" (rolling_std sqrt 20 Daily_Return) data in
    Ok data.

(** [TechnicalIndicators(data)]: the value of [self.data] *)
Definition init (data : DataFrame) : Result DataFrame :=
  calculate_basic_indicators data.

Definition default_periods : list Z := [5; 10; 20; 50; 200]%Z.

Definition MA_name (period : Z) : string := "MA_" +:+ pretty period.
Definition EMA_name (period : Z) : string := "EMA_" +:+ pretty period.

(** One iteration of the loop of [calculate_moving_averages]. Both pandas
    calls reject a period below 1: [rolling] a negative window, [ewm] a span
    below 1. *)
Definition moving_average_step (self_data : DataFrame)
    (result : DataFrame) (period : Z) : Result DataFrame :=
  if (period <=? Z.of_nat (Frame.len self_data))%Z then
    if (period <? 1)%Z then Raise "ValueError"
    else
      let Close := map close (records self_data) in
      let result :=
        Frame.assign (MA_name period)
          (rolling_mean (Z.to_nat period) (map Fin Close)) result in
      let result :=
        Frame.assign (EMA_name period)
          (map Fin (ewm_mean (Z.to_nat period) Close)) result in
      Ok result
  else Ok result.

Fixpoint moving_average_loop (self_data result : DataFrame)
    (periods : list Z) : Result DataFrame :=
  match periods with
  | [] => Ok result
  | period :: periods' =>
    result' <- moving_average_step self_data result period ;;
    moving_average_loop self_data result' periods'
  end.

(** [calculate_moving_averages] *)
Definition calculate_moving_averages (self_data : DataFrame)
    (periods : list Z) : Result DataFrame :=
  moving_average_loop self_data self_data periods.

(** [TechnicalIndicators(data).calculate_moving_averages(periods)] *)
Definition moving_averages_of (data : DataFrame) (periods : list Z)
    : Result DataFrame :=
  self_data <- init data ;;
  calculate_moving_averages self_data periods.

(** [calculate_rsi] *)
Definition calculate_rsi (self_data : DataFrame) (period : nat)
    : Result Series :=
  Close <- Frame.col self_data "Close" ;;
  RSIIndicator ta Close period.

(** [calculate_macd]: the entries macd, macd_signal, macd_histogram *)
Definition calculate_macd (self_data : DataFrame) (fast slow signal : nat)
    : Result (Series * Series * Series) :=
  Close <- Frame.col self_data "Close" ;;
  MACD ta Close fast slow signal.

(** [calculate_bollinger_bands]: the entries bb_upper, bb_middle, bb_lower *)
Definition calculate_bollinger_bands (self_data : DataFrame) (period : nat)
    (std_dev : Q) : Result (Series * Series * Series) :=
  Close <- Frame.col self_data "Close" ;;
  BollingerBands ta Close period std_dev.

(** [calculate_stochastic]: the entries stoch_k, stoch_d *)
Definition calculate_stochastic (self_data : DataFrame)
    (k_period d_period : nat) : Result (Series * Series) :=
  High <- Frame.col self_data "High" ;;
  Low <- Frame.col self_data "Low" ;;
  Close <- Frame.col self_data "Close" ;;
  StochasticOscillator ta High Low Close k_period d_period.

Record VolumeIndicators : Type := mkVolumeIndicators {
  obv : Series;
  volume_roc : Series;
  volume_ma : Series;
  pvt : Series
}.

(** [calculate_volume_indicators] *)
Definition calculate_volume_indicators (self_data : DataFrame)
    : Result VolumeIndicators :=
  Close <- Frame.col self_data "Close" ;;
  Volume <- Frame.col self_data "Volume" ;;
  obv <- OnBalanceVolumeIndicator ta Close Volume ;;
  let volume_roc := pct_change 10 Volume in
  let volume_ma := rolling_mean 20 Volume in
  pvt <- VolumePriceTrendIndicator ta Close Volume ;;
  Ok (mkVolumeIndicators obv volume_roc volume_ma pvt).

(** [np.where(cond(s), a, b)] against a scalar *)
Definition np_where1 (cond : fval -> bool) (a b : fval) (s : Series)
    : Series :=
  map (fun x => if cond x then a else b) s.

(** [pd.DataFrame(signals).mean(axis=1)] over the three trend columns *)
Fixpoint row_mean3 (a b c : Series) : Series :=
  match a, b, c with
  | x :: a', y :: b', z :: c' =>
    fdiv (fadd (fadd x y) z) (Fin 3) :: row_mean3 a' b' c'
  | _, _, _ => []
  end.

(** A value of the dict [signals] before its last loop: a numpy array, as
    [np.where] returns it, or a pandas Series with labels of its own, as
    [DataFrame.mean(axis=1)] returns it over a frame built from arrays (the
    labels are the positions 0 to n-1). *)
Inductive Signal : Type :=
  | Array (cells : list fval)
  | Labelled (cells : list fval).

(** [pd.Series(value, index=self.data.index)] (line 202): an array is taken
    by position; a Series is aligned by label, and none of the labels 0 to
    n-1 is a date of the index, so every row is missing. *)
Definition on_index (self_data : DataFrame) (value : Signal) : Series :=
  match value with
  | Array cells => cells
  | Labelled _ => replicate (Frame.len self_data) NaN
  end.

(** [calculate_trend_signals]: the dict [signals] *)
Definition calculate_trend_signals (self_data : DataFrame)
    : Result (gmap string Series) :=
  let signals : gmap string Signal := ∅ in
  Close <- Frame.col self_data "Close" ;;
  let ma_20 := rolling_mean 20 Close in
  let ma_50 := rolling_mean 50 Close in
  let ma_200 := rolling_mean 200 Close in
  let ma_trend_short := np_where fgt (Fin 1) (Fin (-1)) Close ma_20 in
  let ma_trend_medium := np_where fgt (Fin 1) (Fin (-1)) ma_20 ma_50 in
  let ma_trend_long := np_where fgt (Fin 1) (Fin (-1)) ma_50 ma_200 in
  let signals := <["ma_trend_short" := Array ma_trend_short]> signals in
  let signals := <["ma_trend_medium" := Array ma_trend_medium]> signals in
  let signals := <["ma_trend_long" := Array ma_trend_long]> signals in
  let signals :=
    <["overall_trend" :=
        Labelled (row_mean3 ma_trend_short ma_trend_medium ma_trend_long)]>
      signals in
  rsi <- calculate_rsi self_data 14 ;;
  let signals :=
    <["rsi_oversold" :=
        Array (np_where1 (fun x => flt x (Fin 30)) (Fin 1) (Fin 0) rsi)]>
      signals in
  let signals :=
    <["rsi_overbought" :=
        Array (np_where1 (fun x => fgt x (Fin 70)) (Fin 1) (Fin 0) rsi)]>
      signals in
  macd_data <- calculate_macd self_data 12 26 9 ;;
  let '(macd, macd_signal, _) := macd_data in
  let crossed (above : bool) :=
    zip_with (fun now before =>
                if (if above then fgt (fst now) (snd now)
                    else flt (fst now) (snd now))
                   && (if above then fle (fst before) (snd before)
                       else fge (fst before) (snd before))
                then Fin 1 else Fin 0)
      (zip macd macd_signal) (zip (shift 1 macd) (shift 1 macd_signal)) in
  let signals := <["macd_bullish" := Array (crossed true)]> signals in
  let signals := <["macd_bearish" := Array (crossed false)]> signals in
  (* lines 201-202: every value is put on the index of the frame *)
  Ok (on_index self_data <$> signals).

(** The value of one summary entry: a float or Python's [None]. *)
Definition last_or_None (s : Series) : option fval := last s.

(** [get_technical_summary] *)
Definition get_technical_summary (self_data : DataFrame)
    : Result (gmap string (option fval)) :=
  if Frame.is_empty self_data then Ok ∅
  else
    latest_Close <- (Close <- Frame.col self_data "Close" ;; iloc_last Close) ;;
    rsi <- calculate_rsi self_data 14 ;;
    macd_data <- calculate_macd self_data 12 26 9 ;;
    bb_data <- calculate_bollinger_bands self_data 20 2 ;;
    stoch_data <- calculate_stochastic self_data 14 3 ;;
    volume_data <- calculate_volume_indicators self_data ;;
    Close <- Frame.col self_data "Close" ;;
    ma_20 <- iloc_last (rolling_mean 20 Close) ;;
    ma_50 <- iloc_last (rolling_mean 50 Close) ;;
    ma_200 <- iloc_last (rolling_mean 200 Close) ;;
    (* [latest_data.get(name, 0)] *)
    let get name :=
      match Frame.col self_data name with
      | Ok s => default (Fin 0) (last s)
      | Raise _ => Fin 0
      end in
    let price_vs ma :=
      fmul (fdiv (fsub latest_Close ma) ma) (Fin 100) in
    latest_Volume <- (Volume <- Frame.col self_data "Volume" ;;
                      iloc_last Volume) ;;
    let '(macd, macd_signal, _) := macd_data in
    let '(bb_upper, _, bb_lower) := bb_data in
    let '(stoch_k, stoch_d) := stoch_data in
    Ok (list_to_map
          [("current_price", Some latest_Close);
           ("daily_return", Some (get "Daily_Return"));
           ("volatility_20d", Some (get "Volatility_20d"));
           ("ma_20", Some ma_20);
           ("ma_50", Some ma_50);
           ("ma_200", Some ma_200);
           ("price_vs_ma20", Some (price_vs ma_20));
           ("price_vs_ma50", Some (price_vs ma_50));
           ("price_vs_ma200", Some (price_vs ma_200));
           ("rsi", last_or_None rsi);
           ("macd", last_or_None macd);
           ("macd_signal", last_or_None macd_signal);
           ("bb_upper", last_or_None bb_upper);
           ("bb_lower", last_or_None bb_lower);
           ("stoch_k", last_or_None stoch_k);
           ("stoch_d", last_or_None stoch_d);
           ("volume", Some latest_Volume);
           ("volume_ma", last_or_None (volume_ma volume_data));
           ("obv", last_or_None (obv volume_data))]).

(** Python's [str.title]: a letter is upper case after a character that is
    not a letter and lower case after a letter. *)
Definition is_lower (c : ascii) : bool :=
  let n := nat_of_ascii c in (97 <=? n)%nat && (n <=? 122)%nat.
Definition is_upper (c : ascii) : bool :=
  let n := nat_of_ascii c in (65 <=? n)%nat && (n <=? 90)%nat.

Fixpoint title_from (after_letter : bool) (s : string) : string :=
  match s with
  | EmptyString => EmptyString
  | String c s' =>
    let n := nat_of_ascii c in
    let c' :=
      if is_lower c then (if after_letter then c else ascii_of_nat (n - 32))
      else if is_upper c then
        (if after_letter then ascii_of_nat (n + 32) else c)
      else c in
    String c' (title_from (is_lower c || is_upper c) s')
  end.

Definition title (s : string) : string := title_from false s.

(** [calculate_all_indicators] *)
Definition calculate_all_indicators (data : DataFrame) : Result DataFrame :=
  if Frame.is_empty data then Ok data
  else
    indicator_calc <- init data ;;
    result <- calculate_moving_averages indicator_calc default_periods ;;
    rsi <- calculate_rsi indicator_calc 14 ;;
    let result := Frame.assign "RSI" rsi result in
    macd_data <- calculate_macd indicator_calc 12 26 9 ;;
    let '(macd, macd_signal, macd_histogram) := macd_data in
    let result := Frame.assign "MACD" macd result in
    let result := Frame.assign "MACD_Signal" macd_signal result in
    let result := Frame.assign "MACD_Histogram" macd_histogram result in
    bb_data <- calculate_bollinger_bands indicator_calc 20 2 ;;
    let '(bb_upper, bb_middle, bb_lower) := bb_data in
    let result := Frame.assign "BB_Upper" bb_upper result in
    let result := Frame.assign "BB_Middle" bb_middle result in
    let result := Frame.assign "BB_Lower" bb_lower result in
    stoch_data <- calculate_stochastic indicator_calc 14 3 ;;
    let result := Frame.assign "Stoch_K" (fst stoch_data) result in
    let result := Frame.assign "Stoch_D" (snd stoch_data) result in
    volume_data <- calculate_volume_indicators indicator_calc ;;
    let result := Frame.assign "OBV" (obv volume_data) result in
    let result := Frame.assign "Volume_MA" (volume_ma volume_data) result in
    let result := Frame.assign "PVT" (pvt volume_data) result in
    trend_signals <- calculate_trend_signals indicator_calc ;;
    Ok (map_fold
          (fun signal_name signal_data result =>
             Frame.assign ("Trend_" +:+ title signal_name) signal_data result)
          result trend_signals).

End Engine.

End TechnicalIndicators.

(** ** Seasonality analyzer (src/analysis/seasonality_analysis.py) *)

Module SeasonalityAnalyzer.

(** [s.dropna()] *)
Definition dropna (s : Series) : Series :=
  filter (fun x => isnan x = false) s.

(** [(s > 0).sum()] *)
Definition count_gt0 (s : Series) : nat :=
  length (filter (fun x => fgt x (Fin 0) = true) s).

(** [(s > 0).mean()]: the mean of a boolean series, over all its rows *)
Definition mean_gt0 (s : Series) : fval :=
  fdiv (Fin (of_nat (count_gt0 s))) (Fin (of_nat (length s))).

(** [s.mean()], which skips the missing cells *)
Definition mean (s : Series) : fval := fmean (dropna s).

Fixpoint insert_sorted (x : fval) (l : list fval) : list fval :=
  match l with
  | [] => [x]
  | y :: l' => if fle x y then x :: l else y :: insert_sorted x l'
  end.

Definition sort (l : list fval) : list fval := foldr insert_sorted [] l.

(** [s.median()], which skips the missing cells *)
Definition median (s : Series) : fval :=
  let v := sort (dropna s) in
  let n := length v in
  if (n =? 0)%nat then NaN
  else if Nat.even n then
    fdiv (fadd (nth (n / 2 - 1) v NaN) (nth (n / 2) v NaN)) (Fin 2)
  else nth (n / 2) v NaN.

Definition month_names : list string :=
  [""; "January"; "February"; "March"; "April"; "May"; "June"; "July";
   "August"; "September"; "October"; "November"; "December"].

Definition is_leap (y : Z) : bool :=
  ((y mod 4 =? 0) && negb (y mod 100 =? 0) || (y mod 400 =? 0))%Z.

(** [calendar.monthrange(year, month)[1]] *)
Definition days_in_month (y : Z) (m : nat) : nat :=
  match m with
  | 2 => if is_leap y then 29 else 28
  | 4 | 6 | 9 | 11 => 30
  | _ => 31
  end%nat.

Record MonthlyStats : Type := mkMonthlyStats {
  month_name : string;
  avg_return : fval;
  median_return : fval;
  std_return : fval;
  positive_days : nat;
  total_days : nat;
  win_rate : fval;
  avg_volume : fval;
  avg_price_change : fval
}.

Record EffectStats : Type := mkEffectStats {
  e_avg_return : fval;
  e_median_return : fval;
  e_std_return : fval;
  e_positive_days : nat;
  e_total_days : nat;
  e_win_rate : fval
}.

(** One row of [self.data] after [prepare_data], with the columns the
    monthly and month-end analyses read. *)
Record Row : Type := mkRow {
  row_date : Date;
  Close : fval;
  Volume : fval;
  Daily_Return : fval
}.

(** [prepare_data]: the daily return is the percent change of the close;
    the calendar columns are read off the index. *)
Definition prepare_data (bars : list PriceBar) : list Row :=
  let Close := map (fun b => Fin (close b)) bars in
  let Daily_Return := pct_change 1 Close in
  zip_with (fun b r => mkRow (date b) (Fin (close b)) (Fin (volume b)) r)
    bars Daily_Return.

(** [SeasonalityAnalyzer(data)]: the value of [self.data] *)
Definition init (bars : list PriceBar) : list Row := prepare_data bars.

Section Sqrt.

Variable sqrt : Q -> Q.

(** [s.std()], which skips the missing cells *)
Definition std (s : Series) : fval := fstd sqrt (dropna s).

(** The dict built for one month (lines 67-77). *)
Definition month_stats (m : nat) (month_data : list Row) : MonthlyStats :=
  let returns := map Daily_Return month_data in
  mkMonthlyStats
    (nth m month_names EmptyString)
    (mean returns)
    (median returns)
    (std returns)
    (count_gt0 returns)
    (length month_data)
    (mean_gt0 returns)
    (mean (map Volume month_data))
    (mean (pct_change 1 (map Close month_data))).

(** [analyze_monthly_seasonality] *)
Definition analyze_monthly_seasonality (self_data : list Row)
    : gmap nat MonthlyStats :=
  match self_data with
  | [] => ∅
  | _ =>
    foldl
      (fun monthly_stats m =>
         let month_data :=
           filter (fun r => month (row_date r) = m) self_data in
         match month_data with
         | [] => monthly_stats
         | _ => <[m := month_stats m month_data]> monthly_stats
         end)
      ∅ (seq 1 12)
  end.

Definition effect_stats (returns : Series) : EffectStats :=
  mkEffectStats (mean returns) (median returns) (std returns)
    (count_gt0 returns) (length returns) (mean_gt0 returns).

(** [analyze_month_end_effect]: the entries month_end and other_days;
    [None] is the empty dict. *)
Definition analyze_month_end_effect (self_data : list Row)
    : option (EffectStats * EffectStats) :=
  match self_data with
  | [] => None
  | _ =>
    let is_month_end (r : Row) : bool :=
      let d := row_date r in
      (days_in_month (year d) (month d) - 2 <=? day d)%nat in
    let month_end_days :=
      map Daily_Return (filter (fun r => is_month_end r = true) self_data) in
    let other_days :=
      map Daily_Return (filter (fun r => is_month_end r = false) self_data) in
    let month_end_returns := dropna month_end_days in
    let other_returns := dropna other_days in
    Some (effect_stats month_end_returns, effect_stats other_returns)
  end.

End Sqrt.

End SeasonalityAnalyzer.

(** ** Predictive model (src/analysis/predictive_model.py) *)

Module StockPredictor.

(** The three classifier families of [train_models], in the order of the
    [models] dict. *)
Inductive family : Type :=
  | random_forest
  | gradient_boosting
  | logistic_regression.

Definition family_eqb (a b : family) : bool :=
  match a, b with
  | random_forest, random_forest
  | gradient_boosting, gradient_boosting
  | logistic_regression, logistic_regression => true
  | _, _ => false
  end.

(** One row of [self.data] after [prepare_features]: the close, the cells of
    the feature columns (in the order of [get_feature_columns]) and the
    label column. *)
Record Row : Type := mkRow {
  Close : Q;
  features : list fval;
  Next_Day_Direction : Z
}.

(** A fitted scikit-learn classifier, seen through the two calls the code
    makes. [predict_proba m X] is [m.predict_proba(X)[0, 1]], [predict m X]
    is [m.predict(X)[0]]; both may raise. *)
Record Model : Type := mkModel {
  predict_proba : list fval -> Result Q;
  predict : list fval -> Result Z
}.

Definition family_name (f : family) : string :=
  match f with
  | random_forest => "random_forest"
  | gradient_boosting => "gradient_boosting"
  | logistic_regression => "logistic_regression"
  end.

Record Predictor : Type := mkPredictor {
  data : list Row;
  (** [best_model_name] and [best_model]; [None] when the attribute is
      missing or [None]. *)
  best : option (family * Model);
  (** [self.scaler.transform] *)
  scaler_transform : list fval -> Result (list fval);
  (** [self.feature_importance], keyed by model name *)
  feature_importance : gmap string (gmap string fval)
}.

(** The RSI feature of [prepare_features] (lines 73-78), from the Close
    column. *)
Definition RSI (Close : Series) : Series :=
  let price_changes := diff Close in
  let gains :=
    rolling_mean 14
      (where_ (fun x => fgt x (Fin 0)) (Fin 0) price_changes) in
  let losses :=
    rolling_mean 14
      (map fneg (where_ (fun x => flt x (Fin 0)) (Fin 0) price_changes)) in
  let rs := zip_with fdiv gains losses in
  map (fun r => fsub (Fin 100) (fdiv (Fin 100) (fadd (Fin 1) r))) rs.

(** [get_feature_importance()] without a model name *)
Definition get_feature_importance (P : Predictor) : gmap string fval :=
  match best P with
  | Some (name, _) =>
    default ∅ (feature_importance P !! family_name name)
  | None => ∅
  end.

Definition get_feature_columns : list string :=
  ["Price_vs_MA5"; "Price_vs_MA20"; "Price_vs_MA50";
   "Volatility_Ratio"; "Volume_Ratio"; "High_Low_Range";
   "Close_Open_Range"; "Momentum_5d"; "Momentum_10d";
   "RSI"; "MACD"; "MACD_Signal"; "MACD_Histogram";
   "BB_Position"; "Month"; "Quarter"; "DayOfWeek"]
  ++ flat_map (fun lag => ["Return_Lag_" +:+ lag; "Volume_Lag_" +:+ lag])
       ["1"; "2"; "3"; "5"].

Inductive direction : Type := bullish | bearish | neutral.
Inductive confidence_level : Type := low | medium | high.

Record Prediction : Type := mkPrediction {
  prediction : direction;
  probability : Q;
  confidence : confidence_level;
  model_used : option family;
  features_analyzed : option nat
}.

(** [{'prediction': 'neutral', 'probability': 0.5, 'confidence': 'low'}] *)
Definition default_prediction : Prediction :=
  mkPrediction neutral (1 # 2) low None None.

(** The probability of class 1 for one row of features: the scaler is
    applied for the linear family only. *)
Definition class1_probability (P : Predictor) (name : family) (m : Model)
    (X : list fval) : Result Q :=
  if family_eqb name logistic_regression
  then (Xs <- scaler_transform P X ;; predict_proba m Xs)
  else predict_proba m X.

Definition predicted_class (P : Predictor) (name : family) (m : Model)
    (X : list fval) : Result Z :=
  if family_eqb name logistic_regression
  then (Xs <- scaler_transform P X ;; predict m Xs)
  else predict m X.

(** Lines 235-243: direction and confidence from the probability. *)
Definition determine (probability : Q) : direction * confidence_level :=
  if Qgtb probability (6 # 10) then
    (bullish, if Qgtb probability (75 # 100) then high else medium)
  else if Qltb probability (4 # 10) then
    (bearish, if Qltb probability (25 # 100) then high else medium)
  else
    (neutral,
     if Qgtb (Qabs (probability - (5 # 10))) (5 # 100) then medium else low).

Definition predict_next_day (P : Predictor) : Result Prediction :=
  match best P with
  | None => Ok default_prediction
  | Some (name, m) =>
    match last (data P) with
    | None =>
      (* [prepare_features] returned early on the empty frame, so the
         feature columns do not exist *)
      Raise "KeyError"
    | Some latest =>
      let X_latest := features latest in
      if any_isnan X_latest then Ok default_prediction
      else
        Ok (catch
              (probability <- class1_probability P name m X_latest ;;
               let '(prediction, confidence) := determine probability in
               Ok (mkPrediction prediction probability confidence
                     (Some name) (Some (length get_feature_columns))))
              (fun _ => default_prediction))
    end
  end.

(** *** Backtest *)

(** What one iteration of the first loop appends. *)
Record Step : Type := mkStep {
  step_pred : Z;
  step_actual : Z;
  step_prob : Q
}.

(** The body of the first loop (lines 281-306) at index [i]: [None] when
    nothing is appended (the row is skipped, or the [except] clause ran). *)
Definition backtest_iteration (P : Predictor) (name : family) (m : Model)
    (backtest_data : list Row) (i : nat) : option Step :=
  catch
    (prev <- iloc backtest_data (i - 1) ;;
     let X := features prev in
     if any_isnan X then Ok None
     else
       prob <- class1_probability P name m X ;;
       pred <- predicted_class P name m X ;;
       cur <- iloc backtest_data i ;;
       let actual := Next_Day_Direction cur in
       Ok (Some (mkStep pred actual prob)))
    (fun _ => None).

(** [for i in range(1, len(backtest_data))] *)
Definition backtest_steps (P : Predictor) (name : family) (m : Model)
    (backtest_data : list Row) : list Step :=
  omap (backtest_iteration P name m backtest_data)
       (seq 1 (length backtest_data - 1)).

(** Lines 320-325. *)
Definition strategy_return (pred : Z) (prob actual_return : Q) : Q :=
  if (pred =? 1)%Z && Qgtb prob (6 # 10) then actual_return
  else if (pred =? 0)%Z && Qltb prob (4 # 10) then - actual_return
  else 0.

(** The second loop (lines 315-325): [i] is the position in the list of
    predictions, [len_actuals] the length of the list of actuals. *)
Fixpoint strategy_loop (backtest_data : list Row) (len_actuals i : nat)
    (steps : list Step) : Result (list Q) :=
  match steps with
  | [] => Ok []
  | s :: steps' =>
    if (i <? len_actuals)%nat then
      next <- iloc backtest_data (i + 1) ;;
      this <- iloc backtest_data i ;;
      let actual_return := Close next / Close this - 1 in
      rest <- strategy_loop backtest_data len_actuals (S i) steps' ;;
      Ok (strategy_return (step_pred s) (step_prob s) actual_return :: rest)
    else strategy_loop backtest_data len_actuals (S i) steps'
  end.

(** Python's [sum]: left to right from 0. *)
Definition sum (l : list Q) : Q := fold_left Qplus l 0.

Definition count_positive (l : list Q) : nat :=
  length (filter (fun r => Qgtb r 0 = true) l).

(** [accuracy_score(actuals, predictions)] *)
Definition accuracy_score (steps : list Step) : Q :=
  of_nat (length (filter (fun s => step_actual s = step_pred s) steps))
  / of_nat (length steps).

Definition mean (l : list Q) : Q := sum l / of_nat (length l).

Record BacktestResult : Type := mkBacktestResult {
  accuracy : Q;
  total_return : Q;
  win_rate : Q;
  total_trades : nat;
  avg_probability : Q;
  strategy_returns : list Q
}.

(** [backtest_model]; [Ok None] is the empty dict. *)
Definition backtest_model (P : Predictor) (days_back : nat)
    : Result (option BacktestResult) :=
  match best P with
  | None => Ok None
  | Some (name, m) =>
    let backtest_data := tail days_back (data P) in
    let steps := backtest_steps P name m backtest_data in
    match steps with
    | [] => Ok None
    | _ =>
      strategy_returns <-
        strategy_loop backtest_data (length steps) 0 steps ;;
      let total_return := sum strategy_returns in
      let win_rate :=
        match strategy_returns with
        | [] => 0
        | _ => of_nat (count_positive strategy_returns)
               / of_nat (length strategy_returns)
        end in
      Ok (Some (mkBacktestResult (accuracy_score steps) total_return win_rate
                  (length steps) (mean (map step_prob steps))
                  strategy_returns))
    end
  end.

Definition default_days_back : nat := 252.

End StockPredictor.

(** ** Orchestrator (src/analysis/analysis_orchestrator.py) *)

Module AnalysisOrchestrator.

Import StockPredictor.

(** A section of a result: its payload, or the dict [{'error': msg}]. *)
Inductive Keyed (A : Type) : Type :=
  | Value (a : A)
  | Error (msg : string).
Arguments Value {A} a.
Arguments Error {A} msg.

Record TechnicalAnalysis : Type := mkTechnicalAnalysis {
  current_indicators : gmap string (option fval);
  trend_signals : gmap string fval;
  data_with_indicators : list (gmap string fval)
}.

Record PredictiveAnalysis : Type := mkPredictiveAnalysis {
  next_day_prediction : Prediction;
  feature_importance : gmap string fval;
  backtest_results : option BacktestResult;
  model_name : string;
  features_count : nat
}.

Record DataPeriod : Type := mkDataPeriod {
  start_date : string;
  end_date : string;
  total_days : nat
}.

Definition pad2 (n : nat) : string :=
  if (n <? 10)%nat then "0" +:+ pretty n else pretty n.

(** [str(d)] for a date: ISO-8601 *)
Definition isoformat (d : Date) : string :=
  pretty (year d) +:+ "-" +:+ pad2 (month d) +:+ "-" +:+ pad2 (day d).

Definition date_leb (a b : Date) : bool :=
  if (year a <? year b)%Z then true
  else if (year b <? year a)%Z then false
  else if (month a <? month b)%nat then true
  else if (month b <? month a)%nat then false
  else (day a <=? day b)%nat.

(** [index.min()] and [index.max()] of a non-empty index *)
Definition index_min (d : Date) (ds : list Date) : Date :=
  foldl (fun m x => if date_leb m x then m else x) d ds.
Definition index_max (d : Date) (ds : list Date) : Date :=
  foldl (fun m x => if date_leb m x then x else m) d ds.

Definition insufficient_data : string :=
  "Insufficient data for prediction (need at least 100 days)".

Definition no_data_found (ticker : string) : string :=
  "No data found for " +:+ ticker.

Section Orchestrator.

Variable sqrt : Q -> Q.
Variable ta : TechnicalIndicators.TaLibrary.

(** [SeasonalityAnalyzer(data).get_comprehensive_seasonality_report()] *)
Variable SeasonalityReport : Type.
Variable get_comprehensive_seasonality_report :
  DataFrame -> Result SeasonalityReport.

(** [create_predictive_model(data)]: the feature table of
    [StockPredictor(data)] and the scikit-learn fits of [train_models()] *)
Variable create_predictive_model : DataFrame -> Result Predictor.

(** [self.db_manager.get_stock_data(ticker, start_date, end_date)] *)
Variable get_stock_data :
  string -> option Date -> option Date -> Result DataFrame.

(** [datetime.now().isoformat()] *)
Variable analysis_date : string.

(** The [try] block of [_perform_technical_analysis] *)
Definition technical_analysis_try (data : DataFrame)
    : Result (Keyed TechnicalAnalysis) :=
  data_with_indicators <-
    TechnicalIndicators.calculate_all_indicators sqrt ta data ;;
  tech_calc <- TechnicalIndicators.init sqrt data_with_indicators ;;
  technical_summary <-
    TechnicalIndicators.get_technical_summary ta tech_calc ;;
  trend_signals <-
    TechnicalIndicators.calculate_trend_signals ta tech_calc ;;
  latest_trend <-
    (* [if not trend_signals:] is taken for the empty dict, and a dict has
       no [iloc] *)
    (if bool_decide (dom trend_signals = ∅)
     then Raise "'dict' object has no attribute 'iloc'"
     else Ok (∅ : gmap string fval)) ;;
  Ok (Value
        (mkTechnicalAnalysis technical_summary latest_trend
           (Frame.to_dict_records (Frame.tail 50 data_with_indicators)))).

(** [_perform_technical_analysis] *)
Definition _perform_technical_analysis (data : DataFrame)
    : Keyed TechnicalAnalysis :=
  catch (technical_analysis_try data) (fun e => Error e).

(** The [try] block of [_perform_seasonality_analysis] *)
Definition seasonality_analysis_try (data : DataFrame)
    : Result (Keyed SeasonalityReport) :=
  report <- get_comprehensive_seasonality_report data ;;
  Ok (Value report).

(** [_perform_seasonality_analysis] *)
Definition _perform_seasonality_analysis (data : DataFrame)
    : Keyed SeasonalityReport :=
  catch (seasonality_analysis_try data) (fun e => Error e).

(** What [_perform_predictive_analysis] does with the trained predictor
    (lines 131-148). *)
Definition analysis_of_predictor (predictor : Predictor)
    : Result PredictiveAnalysis :=
  next_day_prediction <- predict_next_day predictor ;;
  let feature_importance := get_feature_importance predictor in
  backtest_results <- backtest_model predictor default_days_back ;;
  Ok (mkPredictiveAnalysis next_day_prediction feature_importance
        backtest_results
        (from_option family_name "unknown" (model_used next_day_prediction))
        (default 0%nat (features_analyzed next_day_prediction))).

(** Lines 128-148: train, then analyse. *)
Definition train_and_analyse (data : DataFrame)
    : Result (Keyed PredictiveAnalysis) :=
  predictor <- create_predictive_model data ;;
  analysis <- analysis_of_predictor predictor ;;
  Ok (Value analysis).

(** The [try] block of [_perform_predictive_analysis] *)
Definition predictive_analysis_try (data : DataFrame)
    : Result (Keyed PredictiveAnalysis) :=
  if (Frame.len data <? 100)%nat then Ok (Error insufficient_data)
  else train_and_analyse data.

(** [_perform_predictive_analysis] *)
Definition _perform_predictive_analysis (data : DataFrame)
    : Keyed PredictiveAnalysis :=
  catch (predictive_analysis_try data) (fun e => Error e).

(** Lines 300-301: train, then predict. *)
Definition train_and_predict (stock_data : DataFrame)
    : Result (Keyed Prediction) :=
  predictor <- create_predictive_model stock_data ;;
  prediction <- predict_next_day predictor ;;
  Ok (Value prediction).

(** [get_prediction] *)
Definition get_prediction (ticker : string) : Keyed Prediction :=
  catch
    (stock_data <- get_stock_data ticker None None ;;
     if Frame.is_empty stock_data then Ok (Error (no_data_found ticker))
     else if (Frame.len stock_data <? 100)%nat
     then Ok (Error insufficient_data)
     else train_and_predict stock_data)
    (fun e => Error e).

(** [_generate_analysis_summary]: its whole body is inside a
    [try/except Exception], so it returns a value for every input. *)
Variable Summary : Type.
Variable _generate_analysis_summary :
  Keyed TechnicalAnalysis -> Keyed SeasonalityReport ->
  Keyed PredictiveAnalysis -> Summary.

Record ComprehensiveAnalysis : Type := mkComprehensiveAnalysis {
  ticker : string;
  analysis_date_ : string;
  data_period : DataPeriod;
  technical_analysis : Keyed TechnicalAnalysis;
  seasonality_analysis : Keyed SeasonalityReport;
  predictive_analysis : Keyed PredictiveAnalysis;
  summary : Summary
}.

(** [d.date()] on an entry of the index of a frame of the store. The store
    builds the index from [record.date], a [datetime.date]
    (database_manager.py, lines 127-141), and a [datetime.date] has no
    method [date]. *)
Definition date_of_index_entry (d : Date) : Result Date :=
  Raise "'datetime.date' object has no attribute 'date'".

(** [get_comprehensive_analysis] *)
Definition get_comprehensive_analysis (ticker : string)
    (start_date end_date : option Date) : Keyed ComprehensiveAnalysis :=
  catch
    (stock_data <- get_stock_data ticker start_date end_date ;;
     match map date (records stock_data) with
     | [] => Ok (Error (no_data_found ticker))
     | d :: ds =>
       let technical_analysis := _perform_technical_analysis stock_data in
       let seasonality_analysis := _perform_seasonality_analysis stock_data in
       let predictive_analysis := _perform_predictive_analysis stock_data in
       (* [stock_data.index.min().date()] and [stock_data.index.max().date()] *)
       first_date <- date_of_index_entry (index_min d ds) ;;
       last_date <- date_of_index_entry (index_max d ds) ;;
       Ok (Value
             (mkComprehensiveAnalysis ticker analysis_date
                (mkDataPeriod (isoformat first_date) (isoformat last_date)
                   (Frame.len stock_data))
                technical_analysis seasonality_analysis predictive_analysis
                (_generate_analysis_summary technical_analysis
                   seasonality_analysis predictive_analysis)))
     end)
    (fun e => Error e).

End Orchestrator.

End AnalysisOrchestrator.

(** ** The RSI of the indicator engine, as the specification describes it *)

Module IndicatorSpec.

Definition sumQ (l : list Q) : Q := fold_left Qplus l 0.

(** The price delta of every row but the first. *)
Definition deltas (closes : list Q) : list Q :=
  zip_with Qminus (drop 1 closes) closes.

Definition gain (d : Q) : Q := if Qgtb d 0 then d else 0.
Definition loss (d : Q) : Q := if Qltb d 0 then - d else 0.

(** Modelled from the spec: the RSI series of the Indicator Engine. The
    repository computes it by a call into the [ta] package
    ([ta.momentum.RSIIndicator(close, window).rsi()]), whose code is not
    among the sources. Section 4.1: "RSI(14): average gain / average loss
    over a 14-day rolling window of price deltas; 100 when losses are zero,
    missing when fewer than 14 prior deltas exist." Row [i] has [i] prior
    deltas; the index is RSI = 100 - 100 / (1 + average gain / average
    loss). *)
Definition rsi (period : nat) (closes : list Q) : Series :=
  map (fun i =>
         if (i <? period)%nat then NaN
         else
           let w := take period (drop (i - period) (deltas closes)) in
           let average_gain := sumQ (map gain w) / of_nat period in
           let average_loss := sumQ (map loss w) / of_nat period in
           if Qeq_bool average_loss 0 then Fin 100
           else Fin (100 - 100 / (1 + average_gain / average_loss)))
      (seq 0 (length closes)).

End IndicatorSpec.

(** ** Outcomes *)

Module Outcome.

(** Whether a computation returned. *)
Definition is_ok {A} (c : Result A) : bool :=
  match c with Ok _ => true | Raise _ => false end.

End Outcome.
Export Outcome.

(** ** Trend analysis of the orchestrator *)

Module TrendAnalysis.

Import AnalysisOrchestrator.

Record TrendReport : Type := mkTrendReport {
  trend_ticker : string;
  period_days : Z;
  price_change_percent : fval;
  volatility : fval;
  trend_strength : string;
  technical_indicators : gmap string (option fval);
  latest_signals : gmap string fval
}.

(** [abs(x)] *)
Definition fabs (x : fval) : fval :=
  match x with
  | Fin q => Fin (Qabs q)
  | NInf => PInf
  | _ => x
  end.

(** The value of the 'trend_signals' entry of the result,
    [trend_signals.iloc[-1].to_dict() if not trend_signals.empty else {}]:
    [trend_signals] is the dict of [calculate_trend_signals], and a dict
    has no attribute [empty]. *)
Definition latest_signals_entry (trend_signals : gmap string (list fval))
    : Result (gmap string fval) :=
  Raise "'dict' object has no attribute 'empty'".

Section TrendAnalysis.

Variable sqrt : Q -> Q.
Variable ta : TechnicalIndicators.TaLibrary.
Variable get_stock_data :
  string -> option Date -> option Date -> Result DataFrame.

(** [date.today()] and [end_date - timedelta(days=period_days)] *)
Variable today : Date.
Variable days_before : Date -> Z -> Date.

(** [get_trend_analysis] *)
Definition get_trend_analysis (ticker : string) (period_days : Z)
    : Keyed TrendReport :=
  catch
    (let end_date := today in
     let start_date := days_before end_date period_days in
     stock_data <-
       get_stock_data ticker (Some start_date) (Some end_date) ;;
     if Frame.is_empty stock_data then Ok (Error (no_data_found ticker))
     else
       tech_calc <- TechnicalIndicators.init sqrt stock_data ;;
       technical_summary <-
         TechnicalIndicators.get_technical_summary ta tech_calc ;;
       trend_signals <-
         TechnicalIndicators.calculate_trend_signals ta tech_calc ;;
       Close <- Frame.col stock_data "Close" ;;
       last_close <- iloc_last Close ;;
       first_close <- iloc Close 0 ;;
       let price_change :=
         fdiv (fsub last_close first_close) first_close in
       let volatility :=
         SeasonalityAnalyzer.std sqrt (pct_change 1 Close) in
       let trend_strength :=
         if fgt (fabs price_change) (Fin (2 # 10)) then "strong"
         else if fgt (fabs price_change) (Fin (1 # 10)) then "moderate"
         else "weak" in
       latest <- latest_signals_entry trend_signals ;;
       Ok (Value
             (mkTrendReport ticker period_days
                (fmul price_change (Fin 100)) volatility trend_strength
                technical_summary latest)))
    (fun e => Error e).

End TrendAnalysis.

End TrendAnalysis.

(** ** Training and model selection (train_models) *)

Module Training.

Import StockPredictor.

(** The keys of the [models] dict, in insertion order. *)
Definition families : list family :=
  [random_forest; gradient_boosting; logistic_regression].

(** [max(model_scores, key=model_scores.get)] over the items of the dict in
    insertion order: a later item replaces the best so far only when its
    score is strictly greater. *)
Fixpoint max_from (best : family * Q) (rest : list (family * Q))
    : family * Q :=
  match rest with
  | [] => best
  | item :: rest' =>
    if Qgtb (snd item) (snd best) then max_from item rest'
    else max_from best rest'
  end.

Definition best_model_name (model_scores : list (family * Q))
    : option family :=
  match model_scores with
  | [] => None
  | item :: rest => Some (fst (max_from item rest))
  end.

(** What the [try] block of the training loop yields for one family: the
    fitted classifier, its accuracy on the held-out rows, and its
    [feature_importances_] when it has the attribute. *)
Record Fitted : Type := mkFitted {
  fitted_model : Model;
  fitted_accuracy : Q;
  fitted_importances : option (gmap string fval)
}.

(** What the loop has built so far: [self.models], [model_scores] and
    [self.feature_importance]. *)
Record Trained : Type := mkTrained {
  models : list (family * Model);
  model_scores : list (family * Q);
  importance : gmap string (gmap string fval)
}.

Section Training.

(** The scikit-learn calls: the stratified split (which raises when a
    class has too few members), the fit of the scaler on the training rows,
    and the fit and scoring of one family. *)
Variable Split : Type.
Variable train_test_split :
  list (list fval) -> list Z -> Q -> Z -> Result Split.
Variable fit_scaler : Split -> Result (list fval -> Result (list fval)).
Variable fit_and_score : family -> Split -> Z -> Result Fitted.

(** One iteration of the training loop: a failure is logged and the loop
    goes on. *)
Definition train_one (split : Split) (random_state : Z) (acc : Trained)
    (name : family) : Trained :=
  match fit_and_score name split random_state with
  | Ok f =>
    mkTrained
      (models acc ++ [(name, fitted_model f)])
      (model_scores acc ++ [(name, fitted_accuracy f)])
      (match fitted_importances f with
       | Some imp => <[family_name name := imp]> (importance acc)
       | None => importance acc
       end)
  | Raise _ => acc
  end.

(** [models.get(name)] on the list of trained models *)
Fixpoint lookup_model (name : family) (l : list (family * Model))
    : option Model :=
  match l with
  | [] => None
  | (n, m) :: l' => if family_eqb n name then Some m else lookup_model name l'
  end.

(** [train_models], on the rows of [prepare_training_data]: the predictor
    after the call. *)
Definition train_models (self : Predictor) (X : list (list fval))
    (y : list Z) (test_size : Q) (random_state : Z) : Result Predictor :=
  match X with
  | [] => Ok self
  | _ =>
    split <- train_test_split X y test_size random_state ;;
    transform <- fit_scaler split ;;
    let trained :=
      foldl (train_one split random_state)
        (mkTrained [] [] (feature_importance self)) families in
    let best :=
      match best_model_name (model_scores trained) with
      | Some name =>
        match lookup_model name (models trained) with
        | Some m => Some (name, m)
        | None => best self
        end
      | None => best self
      end in
    Ok (mkPredictor (data self) best transform (importance trained))
  end.

End Training.

End Training.

(** ** Seasonal forecast and summary (seasonality_analysis.py) *)

Module SeasonalForecast.

Import SeasonalityAnalyzer.

(** The items of the dict of [analyze_monthly_seasonality], in the order in
    which the loop over [range(1, 13)] inserted them. *)
Definition month_items (monthly_stats : gmap nat MonthlyStats)
    : list (nat * MonthlyStats) :=
  omap (fun m => pair m <$> monthly_stats !! m) (seq 1 12).

(** The rows of one month: [self.data[self.data['Month'] == month]] *)
Definition month_rows (m : nat) (rows : list Row) : list Row :=
  filter (fun r => month (row_date r) = m) rows.

Inductive recommendation : Type := bullish | bearish | neutral.
Inductive confidence_level : Type := low | medium | high.

Record QuarterlyStats : Type := mkQuarterlyStats {
  quarter_name : string;
  q_avg_return : fval;
  q_median_return : fval;
  q_std_return : fval;
  q_positive_days : nat;
  q_total_days : nat;
  q_win_rate : fval;
  q_avg_volume : fval;
  q_total_return : fval
}.

Definition quarter_names : list string :=
  [""; "Q1 (Jan-Mar)"; "Q2 (Apr-Jun)"; "Q3 (Jul-Sep)"; "Q4 (Oct-Dec)"].

(** [index.quarter] *)
Definition quarter_of (d : Date) : nat := ((month d - 1) / 3 + 1)%nat.

(** The rows of one quarter: [self.data[self.data['Quarter'] == quarter]] *)
Definition quarter_rows (q : nat) (rows : list Row) : list Row :=
  filter (fun r => quarter_of (row_date r) = q) rows.

Section Quarterly.

Variable sqrt : Q -> Q.

(** The dict built for one quarter (lines 98-108). *)
Definition quarter_stats (q : nat) (quarter_data : list Row)
    : QuarterlyStats :=
  let returns := map Daily_Return quarter_data in
  mkQuarterlyStats
    (nth q quarter_names EmptyString)
    (mean returns)
    (median returns)
    (std sqrt returns)
    (count_gt0 returns)
    (length quarter_data)
    (mean_gt0 returns)
    (mean (map Volume quarter_data))
    (if (1 <? length quarter_data)%nat then
       fsub (fdiv (default NaN (last (map Close quarter_data)))
                  (default NaN (head (map Close quarter_data))))
            (Fin 1)
     else Fin 0).

(** [analyze_quarterly_seasonality] *)
Definition analyze_quarterly_seasonality (self_data : list Row)
    : gmap nat QuarterlyStats :=
  match self_data with
  | [] => ∅
  | _ =>
    foldl
      (fun quarterly_stats q =>
         let quarter_data :=
           filter (fun r => quarter_of (row_date r) = q) self_data in
         match quarter_data with
         | [] => quarterly_stats
         | _ => <[q := quarter_stats q quarter_data]> quarterly_stats
         end)
      ∅ (seq 1 4)
  end.

End Quarterly.

Record Forecast : Type := mkForecast {
  month_forecast : option MonthlyStats;
  quarter_forecast : option QuarterlyStats;
  forecast_recommendation : recommendation;
  forecast_confidence : confidence_level
}.

(** Lines 256-264 of [get_seasonal_forecast] *)
Definition recommend (avg_return win_rate : fval)
    : recommendation * confidence_level :=
  if fgt avg_return (Fin (1 # 1000)) && fgt win_rate (Fin (55 # 100)) then
    (bullish, if fgt win_rate (Fin (6 # 10)) then high else medium)
  else if flt avg_return (Fin (- (1 # 1000)))
          && flt win_rate (Fin (45 # 100)) then
    (bearish, if flt win_rate (Fin (4 # 10)) then high else medium)
  else
    (neutral,
     if fgt (TrendAnalysis.fabs avg_return) (Fin (5 # 10000)) then medium
     else low).

(** [get_seasonal_forecast(target_month, target_quarter)], from the monthly
    and quarterly statistics of a history that is not empty. A target
    quarter of [None] or 0 is not looked up. *)
Definition get_seasonal_forecast (monthly_stats : gmap nat MonthlyStats)
    (quarterly_stats : gmap nat QuarterlyStats)
    (target_month : nat) (target_quarter : option nat) : Forecast :=
  let quarter_forecast :=
    match target_quarter with
    | Some (S q) => quarterly_stats !! S q
    | _ => None
    end in
  match monthly_stats !! target_month with
  | Some month_data =>
    let '(r, c) := recommend (avg_return month_data) (win_rate month_data) in
    mkForecast (Some month_data) quarter_forecast r c
  | None => mkForecast None quarter_forecast neutral low
  end.

Inductive strength : Type := strong | moderate | weak | none.

(** [max(d, key=d.get)] and [min(d, key=d.get)] over the items of a dict in
    insertion order: a later item replaces the best so far only when its
    value is strictly greater (smaller); a comparison with NaN is false. *)
Fixpoint max_from (best : nat * fval) (rest : list (nat * fval))
    : nat * fval :=
  match rest with
  | [] => best
  | item :: rest' =>
    if fgt (snd item) (snd best) then max_from item rest'
    else max_from best rest'
  end.

Fixpoint min_from (best : nat * fval) (rest : list (nat * fval))
    : nat * fval :=
  match rest with
  | [] => best
  | item :: rest' =>
    if flt (snd item) (snd best) then min_from item rest'
    else min_from best rest'
  end.

(** [month_returns] of [_generate_seasonality_summary] *)
Definition month_returns (monthly_stats : gmap nat MonthlyStats)
    : list (nat * fval) :=
  map (fun item => (fst item, avg_return (snd item)))
      (month_items monthly_stats).

(** [best_month] and [worst_month] of [_generate_seasonality_summary];
    [None] without monthly statistics. *)
Definition best_month (monthly_stats : gmap nat MonthlyStats)
    : option (nat * fval) :=
  match month_returns monthly_stats with
  | [] => None
  | item :: rest => Some (max_from item rest)
  end.

Definition worst_month (monthly_stats : gmap nat MonthlyStats)
    : option (nat * fval) :=
  match month_returns monthly_stats with
  | [] => None
  | item :: rest => Some (min_from item rest)
  end.

Section Sqrt.

Variable sqrt : Q -> Q.

(** [np.std(returns)]: the population standard deviation, which does not
    skip NaN. *)
Definition np_std (l : list fval) : fval :=
  let m := fmean l in
  fsqrt sqrt (fmean (map (fun x => fmul (fsub x m) (fsub x m)) l)).

(** [_calculate_seasonality_strength] *)
Definition _calculate_seasonality_strength
    (monthly_stats : gmap nat MonthlyStats) : strength :=
  match month_items monthly_stats with
  | [] => none
  | items =>
    let returns := map (fun item => avg_return (snd item)) items in
    let std_dev := np_std returns in
    if fgt std_dev (Fin (5 # 1000)) then strong
    else if fgt std_dev (Fin (2 # 1000)) then moderate
    else if fgt std_dev (Fin (1 # 1000)) then weak
    else none
  end.

End Sqrt.

End SeasonalForecast.

(** ** The overall summary of the orchestrator *)

Module AnalysisSummary.

Import StockPredictor AnalysisOrchestrator.

(** The entry 'summary' of the seasonality report when it is not the empty
    dict (lines 306-328 of seasonality_analysis.py), with the fields the
    orchestrator reads: [best_month['month']], [best_month['month_name']]
    and [seasonality_strength]. *)
Record SeasonalitySummary : Type := mkSeasonalitySummary {
  best_month : nat;
  best_month_name : string;
  seasonality_strength : SeasonalForecast.strength
}.

(** The seasonality section as the summary reads it: an error dict, or a
    report whose entry 'summary' is empty or absent ([None]) or filled. *)
Definition SeasonalitySection : Type := Keyed (option SeasonalitySummary).

Record Summary : Type := mkSummary {
  overall_sentiment : direction;
  summary_confidence : confidence_level;
  key_insights : list string;
  recommendations : list string;
  disclaimer : option string
}.

Definition add_insight (text : string) (s : Summary) : Summary :=
  mkSummary (overall_sentiment s) (summary_confidence s)
    (key_insights s ++ [text]) (recommendations s) (disclaimer s).

Definition add_recommendation (text : string) (s : Summary) : Summary :=
  mkSummary (overall_sentiment s) (summary_confidence s)
    (key_insights s) (recommendations s ++ [text]) (disclaimer s).

Definition set_sentiment (d : direction) (s : Summary) : Summary :=
  mkSummary d (summary_confidence s) (key_insights s) (recommendations s)
    (disclaimer s).

Definition set_confidence (c : confidence_level) (s : Summary) : Summary :=
  mkSummary (overall_sentiment s) c (key_insights s) (recommendations s)
    (disclaimer s).

Definition set_disclaimer (text : string) (s : Summary) : Summary :=
  mkSummary (overall_sentiment s) (summary_confidence s) (key_insights s)
    (recommendations s) (Some text).

Definition is_neutral (d : direction) : bool :=
  match d with neutral => true | _ => false end.

Definition direction_name (d : direction) : string :=
  match d with
  | bullish => "bullish"
  | bearish => "bearish"
  | neutral => "neutral"
  end.

(** The truth value of a float: zero is false, everything else, NaN
    included, is true. *)
Definition truthy (x : fval) : bool :=
  match x with
  | Fin q => negb (Qeq_bool q 0)
  | _ => true
  end.

(** Lines 158-163 *)
Definition initial_summary : Summary :=
  mkSummary neutral medium [] [] None.

(** Lines 169-176: the RSI of the technical summary *)
Definition rsi_step (tech_indicators : gmap string (option fval))
    (s : Summary) : Summary :=
  match tech_indicators !! "rsi" with
  | Some (Some rsi) =>
    if truthy rsi then
      if fgt rsi (Fin 70) then
        add_recommendation "Consider taking profits"
          (add_insight "RSI indicates overbought conditions" s)
      else if flt rsi (Fin 30) then
        add_recommendation "Potential buying opportunity"
          (add_insight "RSI indicates oversold conditions" s)
      else s
    else s
  | _ => s
  end.

(** Lines 179-185: the price against its 20-day average. A stored [None]
    cannot be compared with a float. *)
Definition moving_average_step (tech_indicators : gmap string (option fval))
    (s : Summary) : Result Summary :=
  price_vs_ma20 <-
    match tech_indicators !! "price_vs_ma20" with
    | None => Ok (Fin 0)
    | Some (Some v) => Ok v
    | Some None =>
      Raise "'>' not supported between instances of 'NoneType' and 'float'"
    end ;;
  if fgt price_vs_ma20 (Fin (5 # 100)) then
    Ok (set_sentiment bullish
          (add_insight "Price is significantly above 20-day moving average"
             s))
  else if flt price_vs_ma20 (Fin (- (5 # 100))) then
    Ok (set_sentiment bearish
          (add_insight "Price is significantly below 20-day moving average"
             s))
  else Ok s.

(** Lines 166-185 *)
Definition technical_step (technical_analysis : Keyed TechnicalAnalysis)
    (s : Summary) : Result Summary :=
  let tech_indicators :=
    match technical_analysis with
    | Value t => current_indicators t
    | Error _ => ∅
    end in
  if bool_decide (dom tech_indicators = ∅) then Ok s
  else moving_average_step tech_indicators (rsi_step tech_indicators s).

(** Lines 188-200; [current_month] is [datetime.now().month]. *)
Definition seasonality_step (current_month : nat)
    (seasonality_analysis : SeasonalitySection) (s : Summary) : Summary :=
  match seasonality_analysis with
  | Value (Some seasonality_summary) =>
    let s1 :=
      if (current_month =? best_month seasonality_summary)%nat then
        let s' :=
          add_insight
            ("Currently in historically best performing month (" +:+
             best_month_name seasonality_summary +:+ ")") s in
        if is_neutral (overall_sentiment s') then set_sentiment bullish s'
        else s'
      else s in
    match seasonality_strength seasonality_summary with
    | SeasonalForecast.strong =>
      add_insight "Strong seasonal patterns detected" s1
    | _ => s1
    end
  | _ => s
  end.

(** Lines 203-217: a prediction never holds the key 'error' and is never
    empty, so every predictive section that is not an error is read. *)
Definition prediction_step (predictive_analysis : Keyed PredictiveAnalysis)
    (s : Summary) : Summary :=
  match predictive_analysis with
  | Value p =>
    let pred_value := prediction (next_day_prediction p) in
    let confidence := confidence (next_day_prediction p) in
    let s1 :=
      match pred_value with
      | bullish =>
        if is_neutral (overall_sentiment s) then set_sentiment bullish s
        else s
      | bearish =>
        if is_neutral (overall_sentiment s) then set_sentiment bearish s
        else s
      | neutral => s
      end in
    match confidence with
    | high =>
      add_insight
        ("High confidence " +:+ direction_name pred_value +:+
         " prediction for next day")
        (set_confidence high s1)
    | low => set_confidence low s1
    | medium => s1
    end
  | Error _ => s
  end.

(** Lines 220-231: the closing recommendation *)
Definition final_recommendation (sentiment : direction)
    (confidence : confidence_level) : string :=
  match sentiment, confidence with
  | bullish, high => "Strong buy signal - consider long position"
  | bullish, _ => "Moderate buy signal - consider small long position"
  | bearish, high => "Strong sell signal - consider reducing position"
  | bearish, _ => "Moderate sell signal - consider hedging"
  | neutral, _ => "Neutral outlook - hold current position"
  end.

Definition disclaimer_text : string :=
  "This analysis is for educational purposes only and should not be considered financial advice".

(** [_generate_analysis_summary] *)
Definition _generate_analysis_summary (current_month : nat)
    (technical_analysis : Keyed TechnicalAnalysis)
    (seasonality_analysis : SeasonalitySection)
    (predictive_analysis : Keyed PredictiveAnalysis) : Keyed Summary :=
  catch
    (s1 <- technical_step technical_analysis initial_summary ;;
     let s2 := seasonality_step current_month seasonality_analysis s1 in
     let s3 := prediction_step predictive_analysis s2 in
     let s4 :=
       add_recommendation
         (final_recommendation (overall_sentiment s3) (summary_confidence s3))
         s3 in
     Ok (Value (set_disclaimer disclaimer_text s4)))
    (fun e => Error e).

End AnalysisSummary.

(** ** The feature table of the predictor (predictive_model.py)

    The history is a frame with a DatetimeIndex, whose [month], [quarter]
    and [dayofweek] the seasonal features read. *)

Module Features.

(** [s.shift(-n)] for [n >= 0] *)
Definition shift_back (n : nat) (s : Series) : Series :=
  drop n s ++ replicate (Nat.min n (length s)) NaN.

(** Arithmetic on aligned columns *)
Definition sadd (a b : Series) : Series := zip_with fadd a b.
Definition ssub (a b : Series) : Series := zip_with fsub a b.
Definition sdiv (a b : Series) : Series := zip_with fdiv a b.
Definition minus_one (a : Series) : Series := map (fun x => fsub x (Fin 1)) a.
Definition times (k : fval) (a : Series) : Series := map (fun x => fmul x k) a.

(** A stored column of the history *)
Definition column (f : PriceBar -> Q) (bars : list PriceBar) : Series :=
  map (fun b => Fin (f b)) bars.

(** Line 42 *)
Definition Next_Day_Return (Close : Series) : Series :=
  minus_one (sdiv (shift_back 1 Close) Close).

(** Line 43: [(... > 0).astype(int)] *)
Definition Next_Day_Direction (Close : Series) : list Z :=
  map (fun r => if fgt r (Fin 0) then 1%Z else 0%Z) (Next_Day_Return Close).

(** Lines 46-54: the distance of the close from its [w]-day average *)
Definition Price_vs_MA (w : nat) (Close : Series) : Series :=
  let MA := rolling_mean w Close in
  sdiv (ssub Close MA) MA.

(** Lines 62-63 *)
Definition Volume_MA (Volume : Series) : Series := rolling_mean 20 Volume.
Definition Volume_Ratio (Volume : Series) : Series :=
  sdiv Volume (Volume_MA Volume).

(** Lines 66-67 *)
Definition High_Low_Range (High Low Close : Series) : Series :=
  sdiv (ssub High Low) Close.
Definition Close_Open_Range (Close Open : Series) : Series :=
  sdiv (ssub Close Open) Open.

(** Lines 70-71 *)
Definition Momentum (n : nat) (Close : Series) : Series :=
  minus_one (sdiv Close (shift n Close)).

(** Lines 81-85 *)
Definition MACD (closes : list Q) : list Q :=
  zip_with Qminus (ewm_mean 12 closes) (ewm_mean 26 closes).
Definition MACD_Signal (closes : list Q) : list Q :=
  ewm_mean 9 (MACD closes).
Definition MACD_Histogram (closes : list Q) : list Q :=
  zip_with Qminus (MACD closes) (MACD_Signal closes).

(** Lines 101-102 *)
Definition Return_Lag (lag : nat) (Close : Series) : Series :=
  pct_change lag Close.
Definition Volume_Lag (lag : nat) (Volume : Series) : Series :=
  sdiv (shift lag Volume) (Volume_MA Volume).

Section Features.

Variable sqrt : Q -> Q.

(** [index.dayofweek]: Monday is 0 *)
Variable dayofweek : Date -> nat.

(** Lines 57-59 *)
Definition Volatility_Ratio (Close : Series) : Series :=
  sdiv (rolling_std sqrt 5 Close) (rolling_std sqrt 20 Close).

(** Lines 88-92 *)
Definition BB_Position (Close : Series) : Series :=
  let bb_middle := rolling_mean 20 Close in
  let bb_std := rolling_std sqrt 20 Close in
  let BB_Upper := sadd bb_middle (times (Fin 2) bb_std) in
  let BB_Lower := ssub bb_middle (times (Fin 2) bb_std) in
  sdiv (ssub Close BB_Lower) (ssub BB_Upper BB_Lower).

(** The feature columns that [prepare_features] adds, under their names and
    in the order of [get_feature_columns]. *)
Definition feature_table (bars : list PriceBar) : list (string * Series) :=
  let Open := column open_price bars in
  let High := column high bars in
  let Low := column low bars in
  let Close := column close bars in
  let Volume := column volume bars in
  let of_index (f : Date -> nat) : Series :=
    map (fun b => Fin (of_nat (f (date b)))) bars in
  [("Price_vs_MA5", Price_vs_MA 5 Close);
   ("Price_vs_MA20", Price_vs_MA 20 Close);
   ("Price_vs_MA50", Price_vs_MA 50 Close);
   ("Volatility_Ratio", Volatility_Ratio Close);
   ("Volume_Ratio", Volume_Ratio Volume);
   ("High_Low_Range", High_Low_Range High Low Close);
   ("Close_Open_Range", Close_Open_Range Close Open);
   ("Momentum_5d", Momentum 5 Close);
   ("Momentum_10d", Momentum 10 Close);
   ("RSI", StockPredictor.RSI Close);
   ("MACD", map Fin (MACD (map close bars)));
   ("MACD_Signal", map Fin (MACD_Signal (map close bars)));
   ("MACD_Histogram", map Fin (MACD_Histogram (map close bars)));
   ("BB_Position", BB_Position Close);
   ("Month", of_index month);
   ("Quarter", of_index SeasonalForecast.quarter_of);
   ("DayOfWeek", of_index dayofweek)]
  ++ flat_map
       (fun lag =>
          [("Return_Lag_" +:+ pretty lag, Return_Lag lag Close);
           ("Volume_Lag_" +:+ pretty lag, Volume_Lag lag Volume)])
       [1; 2; 3; 5]%nat.

(** [prepare_features]: the rows of [self.data] afterwards, each with its
    close, its cells under the feature columns and its label. *)
Definition prepare_features (bars : list PriceBar) : list StockPredictor.Row :=
  let table := feature_table bars in
  let labels := Next_Day_Direction (column close bars) in
  map (fun i =>
         StockPredictor.mkRow (nth i (map close bars) 0)
           (map (fun col => nth i (snd col) NaN) table)
           (nth i labels 0%Z))
      (seq 0 (length bars)).

(** [StockPredictor(data)]: no model yet, and a scaler that is not fitted. *)
Definition init (bars : list PriceBar) : StockPredictor.Predictor :=
  StockPredictor.mkPredictor (prepare_features bars) None
    (fun _ => Raise "This StandardScaler instance is not fitted yet.") ∅.

(** [prepare_training_data]: the rows without a missing cell, as the feature
    matrix and the labels. On the empty frame [prepare_features] has
    returned before adding a column, and the selection of the feature
    columns (line 125) raises [KeyError]. *)
Definition prepare_training_data (self : StockPredictor.Predictor)
    : Result (list (list fval) * list Z) :=
  match StockPredictor.data self with
  | [] => Raise "KeyError"
  | _ =>
    let clean_data :=
      filter (fun r => any_isnan (StockPredictor.features r) = false)
        (StockPredictor.data self) in
    Ok (map StockPredictor.features clean_data,
        map StockPredictor.Next_Day_Direction clean_data)
  end.

Variable Split : Type.
Variable train_test_split :
  list (list fval) -> list Z -> Q -> Z -> Result Split.
Variable fit_scaler : Split -> Result (list fval -> Result (list fval)).
Variable fit_and_score : StockPredictor.family -> Split -> Z -> Result Training.Fitted.

(** [create_predictive_model(data)], with the defaults of [train_models];
    a failure of [prepare_training_data] leaves [train_models] and the
    call. *)
Definition create_predictive_model (bars : list PriceBar)
    : Result StockPredictor.Predictor :=
  let predictor := init bars in
  training_data <- prepare_training_data predictor ;;
  let '(X, y) := training_data in
  Training.train_models Split train_test_split fit_scaler fit_and_score
    predictor X y (2 # 10) 42.

End Features.

End Features.

(** * Example inputs *)

Module Examples.

Import StockPredictor.

(** A constant classifier: every row gets class [c] with probability [p]. *)
Definition constant_model (c : Z) (p : Q) : Model :=
  mkModel (fun _ => Ok p) (fun _ => Ok c).

Definition example_predictor (rows : list Row) (c : Z) (p : Q) : Predictor :=
  mkPredictor rows (Some (random_forest, constant_model c p))
    (fun X => Ok X) ∅.

(** A window whose first row lacks a feature (as the first 49 rows of any
    history do, before the 50-day average exists) and whose later rows are
    complete; the closes are 100, 110, 99. *)
Definition window_with_gap : list Row :=
  [mkRow 100 [NaN; Fin 1] 1; mkRow 110 [Fin 1; Fin 1] 0; mkRow 99 [Fin 2; Fin 1] 0].

(** A window of complete rows with the same closes. *)
Definition window_complete : list Row :=
  [mkRow 100 [Fin 3; Fin 1] 1; mkRow 110 [Fin 1; Fin 1] 0; mkRow 99 [Fin 2; Fin 1] 0].

(** A square root for running the examples: ten Newton steps from 1. *)
Definition newton_sqrt (q : Q) : Q :=
  Nat.iter 10 (fun x => Qred ((x + q / x) / 2)) 1.

(** Three trading days. *)
Definition three_bars : list PriceBar :=
  [mkPriceBar (mkDate 2024 1 2) 99 101 98 100 100 1000;
   mkPriceBar (mkDate 2024 1 3) 100 111 100 110 110 1200;
   mkPriceBar (mkDate 2024 1 4) 110 112 98 99 99 900].

(** Two consecutive trading days of one January. *)
Definition two_january_bars : list PriceBar :=
  [mkPriceBar (mkDate 2024 1 2) 99 101 98 100 100 1000;
   mkPriceBar (mkDate 2024 1 3) 100 111 100 110 110 1200].

(** Sixteen closes that rise and fall. *)
Definition sixteen_closes : list Q :=
  [100; 102; 101; 105; 104; 107; 106; 110; 108; 111; 109; 113; 112; 115;
   114; 118].

(** A stand-in for the [ta] package: every series it returns is as long
    as the closes and missing on every row. *)
Definition blank (s : Series) : Series := map (fun _ => NaN) s.

Definition blank_ta : TechnicalIndicators.TaLibrary :=
  TechnicalIndicators.mkTaLibrary
    (fun close _ => Ok (blank close))
    (fun close _ _ _ => Ok (blank close, blank close, blank close))
    (fun close _ _ => Ok (blank close, blank close, blank close))
    (fun _ _ close _ _ => Ok (blank close, blank close))
    (fun close _ => Ok (blank close))
    (fun close _ => Ok (blank close)).

(** A stand-in whose RSI call raises. *)
Definition failing_ta : TechnicalIndicators.TaLibrary :=
  TechnicalIndicators.mkTaLibrary
    (fun _ _ => Raise "rsi failed")
    (fun close _ _ _ => Ok (blank close, blank close, blank close))
    (fun close _ _ => Ok (blank close, blank close, blank close))
    (fun _ _ close _ _ => Ok (blank close, blank close))
    (fun close _ => Ok (blank close))
    (fun close _ => Ok (blank close)).

(** A store with the three example rows for every ticker, and one with no
    rows at all. *)
Definition three_bar_store (_ : string) (_ _ : option Date)
    : Result DataFrame :=
  Ok (Frame.of_records three_bars).

Definition empty_store (_ : string) (_ _ : option Date) : Result DataFrame :=
  Ok (Frame.of_records []).

(** A trainer that is never reached in the examples. *)
Definition no_trainer (_ : DataFrame) : Result Predictor :=
  Raise "no training data".

(** Three fits: the two boosted and linear families tie at 0.60, ahead of
    the bagged one. *)
Definition example_fit (name : family) (_ : unit) (_ : Z)
    : Result Training.Fitted :=
  match name with
  | random_forest =>
    Ok (Training.mkFitted (constant_model 1 (7 # 10)) (55 # 100) (Some ∅))
  | gradient_boosting =>
    Ok (Training.mkFitted (constant_model 1 (6 # 10)) (60 # 100) (Some ∅))
  | logistic_regression =>
    Ok (Training.mkFitted (constant_model 0 (3 # 10)) (60 # 100) None)
  end.

(** A predictor before training. *)
Definition fresh_predictor (rows : list Row) : Predictor :=
  mkPredictor rows None (fun _ => Raise "scaler is not fitted") ∅.

(** A history that starts on the last trading day of a January and goes on
    in February. *)
Definition january_then_february : list PriceBar :=
  [mkPriceBar (mkDate 2024 1 31) 99 101 98 100 100 1000;
   mkPriceBar (mkDate 2024 2 1) 100 111 100 110 110 1200;
   mkPriceBar (mkDate 2024 2 2) 110 112 98 99 99 900].

(** A technical section whose price is 6 above its 20-day average with an
    RSI of 75, and a predictive section with a bearish call of high
    confidence. *)
Definition stretched_technicals : AnalysisOrchestrator.TechnicalAnalysis :=
  AnalysisOrchestrator.mkTechnicalAnalysis
    (list_to_map [("rsi", Some (Fin 75)); ("price_vs_ma20", Some (Fin 6))])
    ∅ [].

Definition bearish_call : AnalysisOrchestrator.PredictiveAnalysis :=
  AnalysisOrchestrator.mkPredictiveAnalysis
    (mkPrediction bearish (2 # 10) high (Some random_forest) (Some 25%nat))
    ∅ None "random_forest" 25.

End Examples.

(** * Properties *)

Module NumFacts.

Lemma Qltb_lt (x y : Q) : Qltb x y = true <-> x < y.
Proof.
  unfold Qltb. rewrite negb_true_iff.
  split; intros H.
  - apply Qnot_le_lt. intros Hle. apply Qle_bool_iff in Hle. congruence.
  - destruct (Qle_bool y x) eqn:E; [|reflexivity].
    apply Qle_bool_iff in E. exfalso. exact (Qlt_not_le _ _ H E).
Qed.

Lemma Qltb_ge (x y : Q) : Qltb x y = false <-> y <= x.
Proof.
  unfold Qltb. rewrite negb_false_iff. apply Qle_bool_iff.
Qed.

Lemma Qgtb_gt (x y : Q) : Qgtb x y = true <-> y < x.
Proof. apply Qltb_lt. Qed.

Lemma Qgtb_le (x y : Q) : Qgtb x y = false <-> x <= y.
Proof. apply Qltb_ge. Qed.

End NumFacts.

Module PredictorFacts.

Import StockPredictor NumFacts Examples.

(** The thresholds of [determine], case by case. *)
Lemma determine_cases (p : Q) :
  ((75 # 100) < p -> determine p = (bullish, high)) /\
  ((6 # 10) < p -> p <= (75 # 100) -> determine p = (bullish, medium)) /\
  (p < (25 # 100) -> determine p = (bearish, high)) /\
  ((25 # 100) <= p -> p < (4 # 10) -> determine p = (bearish, medium)) /\
  ((4 # 10) <= p -> p <= (6 # 10) ->
     ((5 # 100) < Qabs (p - (5 # 10)) -> determine p = (neutral, medium)) /\
     (Qabs (p - (5 # 10)) <= (5 # 100) -> determine p = (neutral, low))).
Proof.
  unfold determine.
  repeat split; intros.
  - assert (H6 : (6 # 10) < p) by (eapply Qlt_trans; [|eassumption]; reflexivity).
    apply Qgtb_gt in H6. apply Qgtb_gt in H. now rewrite H6, H.
  - apply Qgtb_gt in H. apply Qgtb_le in H0. now rewrite H, H0.
  - assert (H6 : p <= (6 # 10)).
    { apply Qlt_le_weak. eapply Qlt_trans; [eassumption|reflexivity]. }
    assert (H4 : p < (4 # 10)) by (eapply Qlt_trans; [eassumption|reflexivity]).
    apply Qgtb_le in H6. apply Qltb_lt in H4. apply Qltb_lt in H.
    now rewrite H6, H4, H.
  - assert (H6 : p <= (6 # 10)).
    { apply Qlt_le_weak. eapply Qlt_trans; [eassumption|reflexivity]. }
    apply Qgtb_le in H6. apply Qltb_lt in H0. apply Qltb_ge in H.
    now rewrite H6, H0, H.
  - apply Qgtb_le in H0. apply Qltb_ge in H. apply Qgtb_gt in H1.
    now rewrite H0, H, H1.
  - apply Qgtb_le in H0. apply Qltb_ge in H. apply Qgtb_le in H1.
    now rewrite H0, H, H1.
Qed.

(** C4. With a trained selected model and a most recent row whose features
    are all defined, [predict_next_day] reports the class-1 probability [p]
    the model produced for that row, with direction bullish and confidence
    high if p > 0.75, medium if 0.6 < p <= 0.75; bearish with confidence
    high if p < 0.25, medium if 0.25 <= p < 0.4; and otherwise neutral with
    confidence medium if |p - 0.5| > 0.05 and low otherwise. *)
Theorem predict_next_day_thresholds (P : Predictor) (name : family)
    (m : Model) (latest : Row) (p : Q) :
  best P = Some (name, m) ->
  last (data P) = Some latest ->
  any_isnan (features latest) = false ->
  class1_probability P name m (features latest) = Ok p ->
  exists r,
    predict_next_day P = Ok r /\
    probability r = p /\
    model_used r = Some name /\
    ((75 # 100) < p -> prediction r = bullish /\ confidence r = high) /\
    ((6 # 10) < p -> p <= (75 # 100) ->
       prediction r = bullish /\ confidence r = medium) /\
    (p < (25 # 100) -> prediction r = bearish /\ confidence r = high) /\
    ((25 # 100) <= p -> p < (4 # 10) ->
       prediction r = bearish /\ confidence r = medium) /\
    ((4 # 10) <= p -> p <= (6 # 10) ->
       prediction r = neutral /\
       ((5 # 100) < Qabs (p - (5 # 10)) -> confidence r = medium) /\
       (Qabs (p - (5 # 10)) <= (5 # 100) -> confidence r = low)).
Proof.
  intros Hbest Hlast Hnan Hp.
  unfold predict_next_day. rewrite Hbest, Hlast, Hnan, Hp. cbn [bind catch].
  destruct (determine_cases p) as (Hh & Hm & Hbh & Hbm & Hn).
  destruct (determine p) as [d c] eqn:Hd.
  eexists. split; [reflexivity|]. cbn.
  repeat split; intros.
  - specialize (Hh H). congruence.
  - specialize (Hh H). congruence.
  - specialize (Hm H H0). congruence.
  - specialize (Hm H H0). congruence.
  - specialize (Hbh H). congruence.
  - specialize (Hbh H). congruence.
  - specialize (Hbm H H0). congruence.
  - specialize (Hbm H H0). congruence.
  - destruct (Hn H H0) as [Hn1 Hn2].
    destruct (Qlt_le_dec (5 # 100) (Qabs (p - (5 # 10)))) as [Hlt|Hle].
    + specialize (Hn1 Hlt). congruence.
    + specialize (Hn2 Hle). congruence.
  - destruct (Hn H H0) as [Hn1 _]. specialize (Hn1 H1). congruence.
  - destruct (Hn H H0) as [_ Hn2]. specialize (Hn2 H1). congruence.
Qed.

Lemma predict_next_day_thresholds_witness :
  exists r,
    predict_next_day
      (example_predictor [mkRow 100 [Fin 1; Fin 2] 1] 1 (8 # 10)) = Ok r /\
    prediction r = bullish /\ confidence r = high.
Proof.
  destruct (predict_next_day_thresholds
              (example_predictor [mkRow 100 [Fin 1; Fin 2] 1] 1 (8 # 10))
              random_forest (constant_model 1 (8 # 10))
              (mkRow 100 [Fin 1; Fin 2] 1) (8 # 10)
              eq_refl eq_refl eq_refl eq_refl)
    as (r & Hr & _ & _ & Hhigh & _).
  exists r. split; [exact Hr|]. apply Hhigh. reflexivity.
Defined.

(** *** Backtest *)

(** The positive entries the backtest counts are the entries above zero. *)
Lemma count_positive_above_zero (l : list Q) :
  count_positive l
  = length (List.filter (fun x => if Qlt_le_dec 0 x then true else false) l).
Proof.
  unfold count_positive. induction l as [|x l IH]; [reflexivity|].
  rewrite filter_cons. cbn [List.filter].
  destruct (Qlt_le_dec 0 x) as [Hpos|Hle].
  - rewrite decide_True by now apply Qgtb_gt. cbn [length]. now rewrite IH.
  - rewrite decide_False; [exact IH|].
    intros H. apply Qgtb_gt in H. exact (Qlt_not_le _ _ H Hle).
Qed.

(** C5. When [backtest_model] returns a result whose per-step return
    sequence is not empty, the reported win rate is the number of entries
    of that sequence above zero over its length, and the reported total
    return is the sum of the sequence, added up from the left starting at
    0. Both are stated with the list functions of the standard library,
    not with the helpers of the backtest. *)
Theorem backtest_aggregates_recomputable (P : Predictor) (days_back : nat)
    (r : BacktestResult) :
  backtest_model P days_back = Ok (Some r) ->
  strategy_returns r <> [] ->
  win_rate r =
    inject_Z (Z.of_nat
                (length (List.filter
                           (fun x => if Qlt_le_dec 0 x then true else false)
                           (strategy_returns r))))
    / inject_Z (Z.of_nat (length (strategy_returns r))) /\
  total_return r = fold_left Qplus (strategy_returns r) 0.
Proof.
  unfold backtest_model. intros H Hne.
  destruct (best P) as [[name m]|]; [|discriminate].
  destruct (backtest_steps P name m (tail days_back (data P))) as [|s steps];
    [discriminate|].
  destruct (strategy_loop (tail days_back (data P)) (length (s :: steps)) 0
              (s :: steps)) as [rs|e]; cbn [bind] in H; [|discriminate].
  injection H as <-. cbn [strategy_returns win_rate total_return] in Hne |- *.
  destruct rs as [|x rs]; [contradiction|]. split; [|reflexivity].
  rewrite count_positive_above_zero. reflexivity.
Qed.

Lemma backtest_aggregates_recomputable_witness :
  exists r,
    backtest_model (example_predictor window_complete 1 (7 # 10))
      default_days_back = Ok (Some r) /\
    length (strategy_returns r) = 2%nat /\
    win_rate r == 1 # 2 /\
    total_return r == 0.
Proof.
  remember (backtest_model (example_predictor window_complete 1 (7 # 10))
              default_days_back) as c eqn:Hr.
  assert (Hsome : match c with Ok (Some _) => true | _ => false end = true)
    by (subst c; vm_compute; reflexivity).
  symmetry in Hr. destruct c as [[r|]|]; try discriminate Hsome.
  pose proof Hr as Hv.
  apply (f_equal (fun c => match c with
                           | Ok (Some x) => x
                           | _ => mkBacktestResult 0 0 0 0 0 []
                           end)) in Hv.
  subst r.
  destruct (backtest_aggregates_recomputable _ _ _ Hr) as [Hw Ht];
    [vm_compute; discriminate|].
  eexists. split; [reflexivity|]. split; [vm_compute; reflexivity|].
  split.
  - refine (eq_ind _ (fun w => w == 1 # 2) _ _ (eq_sym Hw)).
    vm_compute. reflexivity.
  - refine (eq_ind _ (fun w => w == 0) _ _ (eq_sym Ht)).
    vm_compute. reflexivity.
Defined.

(** The simulated position of a step: long when the predicted class is 1
    and p > 0.6, short when it is 0 and p < 0.4, flat otherwise; the return
    of the step is the realized return, negated for a short position. *)
Lemma strategy_return_position (pred : Z) (prob actual_return : Q) :
  (pred = 1%Z -> (6 # 10) < prob ->
     strategy_return pred prob actual_return = actual_return) /\
  (pred = 0%Z -> prob < (4 # 10) ->
     strategy_return pred prob actual_return = - actual_return) /\
  (~ (pred = 1%Z /\ (6 # 10) < prob) -> ~ (pred = 0%Z /\ prob < (4 # 10)) ->
     strategy_return pred prob actual_return = 0).
Proof.
  unfold strategy_return. repeat split.
  - intros -> H. apply Qgtb_gt in H. now rewrite H.
  - intros -> H. apply Qltb_lt in H. now rewrite H.
  - intros Hl Hs.
    destruct (Z.eqb_spec pred 1) as [E1|E1]; cbn.
    + destruct (Qgtb prob (6 # 10)) eqn:G.
      * apply Qgtb_gt in G. tauto.
      * subst pred. reflexivity.
    + destruct (Z.eqb_spec pred 0) as [E0|E0]; cbn; [|reflexivity].
      destruct (Qltb prob (4 # 10)) eqn:G; [|reflexivity].
      apply Qltb_lt in G. tauto.
Qed.

Lemma iloc_nth {A} (l : list A) (i : nat) (d : A) :
  (i < length l)%nat -> iloc l i = Ok (nth i l d).
Proof.
  intros H. unfold iloc.
  destruct (l !! i) eqn:E.
  - f_equal. symmetry. now apply nth_lookup_Some with (d := d) in E.
  - apply lookup_ge_None in E. lia.
Qed.

Lemma omap_seq_shift {A} (f : nat -> option A) (g : nat -> A) (n a : nat) :
  (forall i, (a < i <= a + n)%nat -> f i = Some (g (i - 1)%nat)) ->
  omap f (seq (S a) n) = map g (seq a n).
Proof.
  revert a. induction n as [|n IH]; intros a H; [reflexivity|].
  simpl. rewrite H by lia.
  f_equal; [f_equal; lia|]. apply IH. intros i Hi. apply H. lia.
Qed.

(** The second loop pairs the k-th recorded prediction with rows [k] and
    [k + 1] of the window. *)
Lemma strategy_loop_rows (bt : list Row) (d : Row) (g : nat -> Step)
    (len_actuals n i : nat) :
  (i + n < length bt \/ n = 0)%nat ->
  (i + n <= len_actuals)%nat ->
  strategy_loop bt len_actuals i (map g (seq i n)) =
  Ok (map (fun k =>
             strategy_return (step_pred (g k)) (step_prob (g k))
               (Close (nth (k + 1) bt d) / Close (nth k bt d) - 1))
          (seq i n)).
Proof.
  revert i. induction n as [|n IH]; intros i H Hact; [reflexivity|].
  cbn [seq map strategy_loop].
  destruct (Nat.ltb_spec i len_actuals); [|lia].
  rewrite (iloc_nth bt (i + 1) d) by lia.
  rewrite (iloc_nth bt i d) by lia.
  cbn [bind]. rewrite IH by lia. reflexivity.
Qed.

(** X7. When no row of the window is skipped, every step is attributed the
    close-to-close return of the row after the one whose features produced
    its prediction. *)
Lemma backtest_attribution_without_gaps (P : Predictor) (name : family)
    (m : Model) (days_back : nat) (d : Row)
    (prob : nat -> Q) (pred : nat -> Z) :
  let bt := tail days_back (data P) in
  best P = Some (name, m) ->
  (2 <= length bt)%nat ->
  (forall k, (S k < length bt)%nat ->
     any_isnan (features (nth k bt d)) = false /\
     class1_probability P name m (features (nth k bt d)) = Ok (prob k) /\
     predicted_class P name m (features (nth k bt d)) = Ok (pred k)) ->
  exists r,
    backtest_model P days_back = Ok (Some r) /\
    total_trades r = (length bt - 1)%nat /\
    strategy_returns r =
      map (fun k =>
             strategy_return (pred k) (prob k)
               (Close (nth (k + 1) bt d) / Close (nth k bt d) - 1))
          (seq 0 (length bt - 1)).
Proof.
  intros bt Hbest Hlen Hrows.
  set (g := fun k => mkStep (pred k) (Next_Day_Direction (nth (k + 1) bt d))
                       (prob k)).
  assert (Hsteps : backtest_steps P name m bt = map g (seq 0 (length bt - 1))).
  { unfold backtest_steps. apply omap_seq_shift. intros i Hi.
    unfold backtest_iteration.
    rewrite (iloc_nth bt (i - 1) d) by lia. cbn [bind].
    destruct (Hrows (i - 1)%nat) as (Hn & Hp & Hc); [lia|].
    rewrite Hn, Hp. cbn [bind]. rewrite Hc. cbn [bind].
    rewrite (iloc_nth bt i d) by lia. cbn [bind catch].
    unfold g. replace (i - 1 + 1)%nat with i by lia. reflexivity. }
  unfold backtest_model. rewrite Hbest. fold bt. rewrite Hsteps.
  destruct (length bt - 1)%nat as [|n] eqn:En; [lia|].
  rewrite <- En.
  destruct (map g (seq 0 (length bt - 1))) as [|s0 ss] eqn:Emap.
  { rewrite En in Emap. discriminate. }
  rewrite <- Emap.
  assert (Hn : length (map g (seq 0 (length bt - 1))) = (length bt - 1)%nat)
    by now rewrite length_map, length_seq.
  rewrite Hn.
  rewrite (strategy_loop_rows bt d g (length bt - 1) (length bt - 1) 0) by lia.
  cbn [bind]. eexists. split; [reflexivity|]. cbn.
  split; reflexivity.
Qed.

(** C1. On a trailing window whose first row lacks a feature and whose
    second row is complete, [backtest_model] records one step, predicted
    from the second row (close 110, next close 99): its position is long,
    and the return recorded for it is 110/100 - 1 = 0.1, the return of the
    second row itself, where the return of the row after it is
    99/110 - 1 = -0.1. The skipped row is not counted in the number of
    trades. *)
Theorem backtest_attribution_after_skipped_row :
  exists r,
    backtest_model (example_predictor window_with_gap 1 (7 # 10))
      default_days_back = Ok (Some r) /\
    total_trades r = 1%nat /\
    Forall2 Qeq (strategy_returns r) [1 # 10] /\
    ~ Forall2 Qeq (strategy_returns r) [99 / 110 - 1].
Proof.
  eexists. split; [vm_compute; reflexivity|]. cbn.
  split; [reflexivity|]. split.
  - repeat constructor.
  - intros H. apply Forall2_cons_1 in H as [H _]. vm_compute in H. discriminate.
Qed.

End PredictorFacts.

Module PandasFacts.

(** The Standard Library's [map] is stdpp's [fmap] on lists. *)
Lemma map_fmap {A B} (f : A -> B) (l : list A) : map f l = f <$> l.
Proof. reflexivity. Qed.

Lemma fsum_from_finite (l : list Q) (a : Q) :
  fold_left fadd (map Fin l) (Fin a) = Fin (fold_left Qplus l a).
Proof.
  revert a. induction l as [|x l IH]; intros a; [reflexivity|].
  cbn. apply IH.
Qed.

Lemma fsum_finite (l : list Q) : fsum (map Fin l) = Fin (fold_left Qplus l 0).
Proof. apply fsum_from_finite. Qed.

Lemma of_nat_nonzero (n : nat) : (0 < n)%nat -> Qeq_bool (of_nat n) 0 = false.
Proof.
  intros H. destruct (Qeq_bool (of_nat n) 0) eqn:E; [|reflexivity].
  apply Qeq_bool_iff in E. unfold of_nat, Qeq in E. cbn in E. lia.
Qed.

(** The mean of a non-empty list of finite cells is finite. *)
Lemma fmean_finite (l : list Q) :
  (0 < length l)%nat ->
  fmean (map Fin l) = Fin (fold_left Qplus l 0 / of_nat (length l)).
Proof.
  intros H. unfold fmean. rewrite fsum_finite, length_map. cbn.
  now rewrite of_nat_nonzero.
Qed.

Lemma window_finite (w i : nat) (l : list Q) :
  window w i (map Fin l) = map Fin (take w (drop (S i - w) l)).
Proof. unfold window. now rewrite !map_fmap, <- fmap_drop, <- fmap_take. Qed.

Lemma length_window (w i : nat) {A} (l : list A) :
  (w <= S i)%nat -> (i < length l)%nat ->
  length (take w (drop (S i - w) l)) = w.
Proof. intros. rewrite length_take, length_drop. lia. Qed.

Lemma length_rolling_mean (w : nat) (s : Series) :
  length (rolling_mean w s) = length s.
Proof. unfold rolling_mean. now rewrite length_map, length_seq. Qed.

Lemma lookup_rolling_mean (w i : nat) (s : Series) :
  (i < length s)%nat ->
  rolling_mean w s !! i =
  Some (if (S i <? w)%nat then NaN else fmean (window w i s)).
Proof.
  intros H. unfold rolling_mean.
  rewrite map_fmap, list_lookup_fmap, lookup_seq_lt by assumption. reflexivity.
Qed.

(** The rolling mean of a column of finite cells is missing on the first
    [w - 1] rows and finite from then on. *)
Lemma rolling_mean_finite (w i : nat) (l : list Q) :
  (0 < w)%nat -> (i < length l)%nat ->
  rolling_mean w (map Fin l) !! i =
  Some (if (S i <? w)%nat then NaN
        else Fin (fold_left Qplus (take w (drop (S i - w) l)) 0 / of_nat w)).
Proof.
  intros Hw Hi. rewrite lookup_rolling_mean by now rewrite length_map.
  destruct (Nat.ltb_spec (S i) w) as [Hlt|Hge]; [reflexivity|].
  rewrite window_finite, fmean_finite; rewrite length_window; auto.
Qed.

Lemma length_ewm_from (decay num den : Q) (s : list Q) :
  length (ewm_from decay num den s) = length s.
Proof.
  revert num den. induction s as [|x s IH]; intros; cbn; [|rewrite IH]; reflexivity.
Qed.

Lemma length_ewm_mean (span : nat) (s : list Q) :
  length (ewm_mean span s) = length s.
Proof. apply length_ewm_from. Qed.

End PandasFacts.

Module IndicatorFacts.

Import TechnicalIndicators PandasFacts Examples.

Lemma MA_name_unfold (p : Z) :
  MA_name p = String "M" (String "A" (String "_" (pretty p))).
Proof. reflexivity. Qed.

Lemma EMA_name_unfold (p : Z) :
  EMA_name p = String "E" (String "M" (String "A" (String "_" (pretty p)))).
Proof. reflexivity. Qed.

Lemma MA_name_inj (p q : Z) : MA_name p = MA_name q -> p = q.
Proof.
  rewrite !MA_name_unfold. intros H. injection H as H.
  now apply pretty_Z_inj in H.
Qed.

Lemma EMA_name_inj (p q : Z) : EMA_name p = EMA_name q -> p = q.
Proof.
  rewrite !EMA_name_unfold. intros H. injection H as H.
  now apply pretty_Z_inj in H.
Qed.

Lemma MA_name_not_EMA (p q : Z) : MA_name p <> EMA_name q.
Proof. rewrite MA_name_unfold, EMA_name_unfold. discriminate. Qed.

(** The names of the moving-average columns are not names of stored
    columns, so reading one reads the added columns. *)
Lemma col_MA_name (df : DataFrame) (p : Z) :
  Frame.col df (MA_name p) =
  match added df !! MA_name p with
  | Some s => Ok s
  | None => Raise "KeyError"
  end.
Proof.
  unfold Frame.col. destruct (Frame.is_empty df); [reflexivity|].
  generalize (added df !! MA_name p). intros o.
  rewrite MA_name_unfold. reflexivity.
Qed.

Lemma col_EMA_name (df : DataFrame) (p : Z) :
  Frame.col df (EMA_name p) =
  match added df !! EMA_name p with
  | Some s => Ok s
  | None => Raise "KeyError"
  end.
Proof.
  unfold Frame.col. destruct (Frame.is_empty df); [reflexivity|].
  generalize (added df !! EMA_name p). intros o.
  rewrite EMA_name_unfold. reflexivity.
Qed.

Section Engine.

Variable sqrt : Q -> Q.

(** The constructor succeeds on a stored price history, keeps its rows and
    adds no moving-average column. *)
Lemma init_of_records (bars : list PriceBar) :
  exists self_data,
    init sqrt (Frame.of_records bars) = Ok self_data /\
    records self_data = bars /\
    forall p, added self_data !! MA_name p = None /\
              added self_data !! EMA_name p = None.
Proof.
  unfold init, calculate_basic_indicators.
  destruct bars as [|b bars].
  - eexists. split; [reflexivity|]. split; [reflexivity|].
    intros p. split; apply lookup_empty.
  - cbn [Frame.is_empty Frame.of_records records].
    eexists. split; [reflexivity|]. split; [reflexivity|].
    intros p. unfold Frame.assign. cbn [added].
    rewrite MA_name_unfold, EMA_name_unfold.
    split; rewrite !lookup_insert_ne by discriminate; apply lookup_empty.
Qed.

(** The loop of [calculate_moving_averages]: it keeps the rows, writes the
    two columns of every period within the history, and leaves every other
    column as it was. *)
Lemma moving_average_loop_spec (self_data : DataFrame) (periods : list Z) :
  forall result,
    Forall (fun p => 1 <= p)%Z periods ->
    exists r,
      moving_average_loop self_data result periods = Ok r /\
      records r = records result /\
      (forall name,
         (forall p, p ∈ periods -> (p <= Z.of_nat (Frame.len self_data))%Z ->
                    name <> MA_name p /\ name <> EMA_name p) ->
         added r !! name = added result !! name) /\
      (forall p, p ∈ periods -> (p <= Z.of_nat (Frame.len self_data))%Z ->
         added r !! MA_name p =
           Some (rolling_mean (Z.to_nat p)
                   (map Fin (map close (records self_data)))) /\
         added r !! EMA_name p =
           Some (map Fin (ewm_mean (Z.to_nat p)
                            (map close (records self_data))))).
Proof.
  induction periods as [|p periods IH]; intros result Hpos.
  - exists result. split; [reflexivity|]. split; [reflexivity|]. split.
    + intros name _. reflexivity.
    + intros p Hp. now apply elem_of_nil in Hp.
  - apply Forall_cons in Hpos as [Hp Hpos].
    cbn [moving_average_loop]. unfold moving_average_step.
    destruct (Z.leb_spec p (Z.of_nat (Frame.len self_data))) as [Hle|Hgt].
    + destruct (Z.ltb_spec p 1) as [?|_]; [lia|]. cbn [bind].
      set (result' := Frame.assign (EMA_name p) _ (Frame.assign (MA_name p) _ result)).
      destruct (IH result' Hpos) as (r & Hr & Hrec & Hother & Hcols).
      exists r. split; [exact Hr|]. split; [now rewrite Hrec|]. split.
      * intros name Hname. rewrite Hother.
        -- destruct (Hname p) as [H1 H2]; [left|assumption|].
           unfold result', Frame.assign. cbn [added].
           now rewrite !lookup_insert_ne by congruence.
        -- intros q Hq. apply Hname. now right.
      * intros q Hq Hqle.
        destruct (decide (q ∈ periods)) as [Hin|Hnin]; [now apply Hcols|].
        apply elem_of_cons in Hq as [->|?]; [|contradiction].
        rewrite !Hother.
        -- unfold result', Frame.assign. cbn [added]. split.
           ++ rewrite lookup_insert_ne by (intros E; symmetry in E; now apply MA_name_not_EMA in E).
              now rewrite lookup_insert_eq.
           ++ now rewrite lookup_insert_eq.
        -- intros q Hq _. split.
           ++ intros E. symmetry in E. now apply MA_name_not_EMA in E.
           ++ intros E. apply EMA_name_inj in E. congruence.
        -- intros q Hq _. split.
           ++ intros E. apply MA_name_inj in E. congruence.
           ++ apply MA_name_not_EMA.
    + cbn [bind].
      destruct (IH result Hpos) as (r & Hr & Hrec & Hother & Hcols).
      exists r. split; [exact Hr|]. split; [exact Hrec|]. split.
      * intros name Hname. apply Hother. intros q Hq. apply Hname. now right.
      * intros q Hq Hqle. apply elem_of_cons in Hq as [->|Hq]; [lia|].
        now apply Hcols.
Qed.

(** C3, as the code has it. For every price history and every list of
    periods (each at least 1), [calculate_moving_averages] raises no error
    and returns a frame with as many rows as the history. A period longer
    than the history adds no column: neither [MA_p] nor [EMA_p] exists in
    the result. A period within the history adds both columns, as long as
    the history; the simple average is missing on its first [p - 1] rows and
    a number on every later row, the exponential average a number on every
    row. *)
Theorem moving_averages_columns (bars : list PriceBar) (periods : list Z) :
  Forall (fun p => 1 <= p)%Z periods ->
  exists result,
    moving_averages_of sqrt (Frame.of_records bars) periods = Ok result /\
    Frame.len result = length bars /\
    forall p, p ∈ periods ->
      ((Z.of_nat (length bars) < p)%Z ->
         Frame.has_column result (MA_name p) = false /\
         Frame.has_column result (EMA_name p) = false) /\
      ((p <= Z.of_nat (length bars))%Z ->
         exists ma ema,
           Frame.col result (MA_name p) = Ok ma /\
           Frame.col result (EMA_name p) = Ok ema /\
           length ma = length bars /\
           length ema = length bars /\
           (forall i, (Z.of_nat i < p - 1)%Z -> (i < length bars)%nat ->
                      ma !! i = Some NaN) /\
           (forall i, (p - 1 <= Z.of_nat i)%Z -> (i < length bars)%nat ->
                      exists q, ma !! i = Some (Fin q)) /\
           (forall i, (i < length bars)%nat ->
                      exists q, ema !! i = Some (Fin q))).
Proof.
  intros Hpos.
  destruct (init_of_records bars) as (self & Hinit & Hrec & Hnone).
  destruct (moving_average_loop_spec self periods self Hpos)
    as (r & Hr & Hrecs & Hother & Hcols).
  assert (Hlen : Frame.len self = length bars)
    by (unfold Frame.len; now rewrite Hrec).
  rewrite Hlen in Hother, Hcols.
  exists r. split.
  { unfold moving_averages_of. rewrite Hinit. exact Hr. }
  split.
  { unfold Frame.len. now rewrite Hrecs, Hrec. }
  intros p Hp. split.
  - intros Hlong.
    assert (Hfresh : forall q, q ∈ periods -> (q <= Z.of_nat (length bars))%Z ->
                               p <> q) by (intros q _ Hq; lia).
    unfold Frame.has_column. rewrite col_MA_name, col_EMA_name.
    rewrite !Hother.
    + destruct (Hnone p) as [-> ->]. split; reflexivity.
    + intros q Hq Hle. split.
      * intros E. symmetry in E. now apply MA_name_not_EMA in E.
      * intros E. apply EMA_name_inj in E. now apply (Hfresh q).
    + intros q Hq Hle. split.
      * intros E. apply MA_name_inj in E. now apply (Hfresh q).
      * apply MA_name_not_EMA.
  - intros Hle. destruct (Hcols p Hp Hle) as [Hma Hema].
    rewrite Hrec in Hma, Hema.
    assert (Hp1 : (1 <= p)%Z).
    { rewrite Forall_forall in Hpos. now apply Hpos. }
    eexists _, _. rewrite col_MA_name, col_EMA_name, Hma, Hema.
    split; [reflexivity|]. split; [reflexivity|].
    split; [now rewrite length_rolling_mean, !length_map|].
    split; [now rewrite length_map, length_ewm_mean, length_map|].
    split; [|split].
    + intros i Hi Hin.
      rewrite rolling_mean_finite by (rewrite ?length_map; lia).
      destruct (Nat.ltb_spec (S i) (Z.to_nat p)); [reflexivity|lia].
    + intros i Hi Hin.
      rewrite rolling_mean_finite by (rewrite ?length_map; lia).
      destruct (Nat.ltb_spec (S i) (Z.to_nat p)); [lia|]. eauto.
    + intros i Hin.
      destruct (lookup_lt_is_Some_2 (ewm_mean (Z.to_nat p) (map close bars)) i)
        as [q Hq]; [now rewrite length_ewm_mean, length_map|].
      exists q. now rewrite map_fmap, list_lookup_fmap, Hq.
Qed.

End Engine.

Lemma moving_averages_columns_witness :
  Forall (fun p => 1 <= p)%Z [2; 5]%Z /\
  exists result,
    moving_averages_of newton_sqrt (Frame.of_records three_bars) [2; 5]%Z
      = Ok result /\
    Frame.len result = 3%nat.
Proof.
  assert (H : Forall (fun p => 1 <= p)%Z [2; 5]%Z) by (repeat constructor; lia).
  split; [exact H|].
  destruct (moving_averages_columns newton_sqrt three_bars [2; 5]%Z H)
    as (result & Hres & Hlen & _).
  exists result. split; [exact Hres|exact Hlen].
Defined.

(** C3, as stated, fails: with three rows of history and the period 5 the
    call returns a frame in which the columns [MA_5] and [EMA_5] do not
    exist, where the claim has them present and missing at every row. *)
Lemma moving_average_column_absent :
  exists result,
    moving_averages_of newton_sqrt (Frame.of_records three_bars) [5%Z]
      = Ok result /\
    Frame.len result = 3%nat /\
    Frame.col result (MA_name 5) = Raise "KeyError" /\
    Frame.col result (EMA_name 5) = Raise "KeyError".
Proof.
  eexists. split; [vm_compute; reflexivity|].
  repeat split; vm_compute; reflexivity.
Qed.

End IndicatorFacts.

Module SeasonalityFacts.

Import SeasonalityAnalyzer Examples.

Lemma shift1_cons (x : fval) (s : Series) :
  shift 1 (x :: s) = NaN :: take (length s) (x :: s).
Proof. reflexivity. Qed.

(** The daily return of the first row is missing. *)
Lemma first_daily_return_undefined (bars : list PriceBar) (first : Row) :
  head (init bars) = Some first -> Daily_Return first = NaN.
Proof.
  unfold init, prepare_data. destruct bars as [|b bars]; [discriminate|].
  cbn [map]. unfold pct_change. rewrite shift1_cons.
  cbn. intros H. injection H as <-. reflexivity.
Qed.

(** The mean, the median and the standard deviation of a month leave a
    missing return out, and so does the count of positive days. *)
Lemma month_stats_skip_missing (sqrt : Q -> Q) (m : nat) (r : Row)
    (month_data : list Row) :
  Daily_Return r = NaN ->
  let st := month_stats sqrt m (r :: month_data) in
  let returns := map Daily_Return month_data in
  avg_return st = fmean (dropna returns) /\
  median_return st = median returns /\
  std_return st = fstd sqrt (dropna returns) /\
  positive_days st = count_gt0 returns.
Proof.
  intros Hnan st returns. subst st returns. unfold month_stats.
  cbn [avg_return median_return std_return positive_days map].
  unfold mean, median, std, count_gt0, dropna. rewrite Hnan.
  rewrite !filter_cons_False by (cbn; congruence).
  repeat split; reflexivity.
Qed.

(** The number of days and the win rate of a month count every row of the
    month, a row with a missing return included. *)
Lemma month_stats_count_missing (sqrt : Q -> Q) (m : nat) (r : Row)
    (month_data : list Row) :
  Daily_Return r = NaN ->
  let st := month_stats sqrt m (r :: month_data) in
  let returns := map Daily_Return month_data in
  total_days st = S (length month_data) /\
  win_rate st =
    fdiv (Fin (of_nat (count_gt0 returns)))
         (Fin (of_nat (S (length returns)))).
Proof.
  intros Hnan st returns. subst st returns. unfold month_stats.
  cbn [total_days win_rate map]. split; [reflexivity|].
  unfold mean_gt0, count_gt0. cbn [length]. rewrite Hnan.
  now rewrite filter_cons_False by (cbn; congruence).
Qed.

(** C6. On a history of two January days with closes 100 and 110 the daily
    return of the first row is missing; the January bucket leaves it out of
    the mean (0.1, the one defined return) and out of the count of positive
    days (1), and counts it in the total days (2) and in the denominator of
    the win rate (1/2). The month-end analysis of the same rows drops the
    missing return first and reports 1 day and a win rate of 1. *)
Theorem first_row_counted_in_month_bucket (sqrt : Q -> Q) :
  exists first st month_end other_days,
    head (init two_january_bars) = Some first /\
    Daily_Return first = NaN /\
    analyze_monthly_seasonality sqrt (init two_january_bars) !! 1%nat
      = Some st /\
    feq (avg_return st) (Fin (1 # 10)) /\
    positive_days st = 1%nat /\
    total_days st = 2%nat /\
    feq (win_rate st) (Fin (1 # 2)) /\
    analyze_month_end_effect sqrt (init two_january_bars)
      = Some (month_end, other_days) /\
    e_total_days other_days = 1%nat /\
    feq (e_win_rate other_days) (Fin 1).
Proof.
  eexists _, _, _, _.
  split; [reflexivity|]. split; [reflexivity|].
  split; [vm_compute; reflexivity|].
  split; [reflexivity|]. split; [reflexivity|]. split; [reflexivity|].
  split; [reflexivity|].
  split; [vm_compute; reflexivity|].
  split; reflexivity.
Qed.

End SeasonalityFacts.

Module RsiFacts.

Import StockPredictor IndicatorSpec PandasFacts NumFacts Examples.

Lemma zip_fsub_finite (a b : list Q) (k : nat) :
  (length a <= k)%nat ->
  zip_with fsub (map Fin a) (take k (map Fin b)) =
  map Fin (zip_with Qminus a b).
Proof.
  revert b k. induction a as [|x a IH]; intros b k Hk; [reflexivity|].
  destruct b as [|y b]; [now destruct k|].
  destruct k as [|k]; [cbn in Hk; lia|].
  cbn. f_equal. apply IH. cbn in Hk. lia.
Qed.

(** The price changes of a column of closes: missing on the first row, the
    delta on every other row. *)
Lemma diff_finite (c : Q) (rest : list Q) :
  diff (map Fin (c :: rest)) = NaN :: map Fin (deltas (c :: rest)).
Proof.
  unfold diff, shift, deltas. cbn. rewrite drop_0. f_equal.
  change (Fin c :: map Fin rest) with (map Fin (c :: rest)).
  apply zip_fsub_finite. now rewrite length_map.
Qed.

Lemma gains_finite (ds : list Q) :
  where_ (fun x => fgt x (Fin 0)) (Fin 0) (NaN :: map Fin ds) =
  map Fin (0 :: map gain ds).
Proof.
  unfold where_. cbn. f_equal. rewrite !map_fmap, <- !list_fmap_compose.
  apply list_fmap_ext. intros _ d _. cbn. unfold gain.
  now destruct (Qgtb d 0).
Qed.

Lemma losses_finite (ds : list Q) :
  map fneg (where_ (fun x => flt x (Fin 0)) (Fin 0) (NaN :: map Fin ds)) =
  map Fin (0 :: map loss ds).
Proof.
  unfold where_. cbn. f_equal. rewrite !map_fmap, <- !list_fmap_compose.
  apply list_fmap_ext. intros _ d _. cbn. unfold loss, Qgtb.
  now destruct (Qltb d 0).
Qed.

Lemma length_deltas (c : Q) (rest : list Q) :
  length (deltas (c :: rest)) = length rest.
Proof. unfold deltas. cbn [drop]. rewrite drop_0, length_zip_with. cbn. lia. Qed.

(** The 14-row mean of a column that starts with a cell for the first row
    and goes on with one cell per delta, from row 14 on: the mean over the
    14 deltas up to the row. *)
Lemma rolling_mean_deltas (f : Q -> Q) (ds : list Q) (i : nat) :
  (14 <= i)%nat -> (i <= length ds)%nat ->
  rolling_mean 14 (map Fin (0 :: map f ds)) !! i =
  Some (Fin (sumQ (map f (take 14 (drop (i - 14) ds))) / of_nat 14)).
Proof.
  intros H14 Hi.
  rewrite rolling_mean_finite by (cbn; rewrite ?length_map; lia).
  destruct (Nat.ltb_spec (S i) 14); [lia|].
  replace (S i - 14)%nat with (S (i - 14)) by lia.
  cbn [drop]. unfold sumQ. rewrite !map_fmap.
  now rewrite <- fmap_drop, <- fmap_take.
Qed.

Lemma sumQ_nonneg_from (l : list Q) (a : Q) :
  0 <= a -> Forall (fun x => 0 <= x) l -> 0 <= fold_left Qplus l a.
Proof.
  revert a. induction l as [|x l IH]; intros a Ha Hl; [exact Ha|].
  apply Forall_cons in Hl as [Hx Hl]. cbn. apply IH; [|exact Hl].
  replace 0 with (0 + 0) by reflexivity. now apply Qplus_le_compat.
Qed.

Lemma gain_nonneg (d : Q) : 0 <= gain d.
Proof.
  unfold gain. destruct (Qgtb d 0) eqn:E; [|apply Qle_refl].
  apply Qgtb_gt in E. now apply Qlt_le_weak.
Qed.

Lemma loss_nonneg (d : Q) : 0 <= loss d.
Proof.
  unfold loss. destruct (Qltb d 0) eqn:E; [|apply Qle_refl].
  apply Qltb_lt in E. apply Qlt_le_weak in E.
  apply Qopp_le_compat in E. exact E.
Qed.

Lemma average_nonneg (f : Q -> Q) (l : list Q) :
  (forall d, 0 <= f d) -> 0 <= sumQ (map f l) / of_nat 14.
Proof.
  intros Hf. apply Qle_shift_div_l; [reflexivity|].
  rewrite Qmult_0_l. apply sumQ_nonneg_from; [apply Qle_refl|].
  rewrite map_fmap. apply Forall_fmap, Forall_true. intros d. apply Hf.
Qed.

(** The RSI feature from row 14 on, in terms of the two averages. *)
Lemma RSI_lookup (c : Q) (rest : list Q) (i : nat) :
  (14 <= i)%nat -> (i <= length rest)%nat ->
  let w := take 14 (drop (i - 14) (deltas (c :: rest))) in
  RSI (map Fin (c :: rest)) !! i =
  Some (fsub (Fin 100)
          (fdiv (Fin 100)
             (fadd (Fin 1)
                (fdiv (Fin (sumQ (map gain w) / of_nat 14))
                      (Fin (sumQ (map loss w) / of_nat 14)))))).
Proof.
  intros H14 Hi w. unfold RSI.
  rewrite diff_finite, gains_finite, losses_finite.
  rewrite map_fmap, list_lookup_fmap, lookup_zip_with.
  rewrite !rolling_mean_deltas by (rewrite ?length_deltas; lia).
  reflexivity.
Qed.

(** C2. At every row where the RSI feature of the predictive model and the
    RSI of the indicator engine (14-day window, as the specification
    describes it) are both defined, the two are the same number. *)
Theorem rsi_feature_matches_indicator (closes : list Q) (i : nat)
    (x y : fval) :
  RSI (map Fin closes) !! i = Some x ->
  rsi 14 closes !! i = Some y ->
  isnan x = false ->
  isnan y = false ->
  x = y.
Proof.
  intros Hx Hy Hnx Hny.
  assert (Hi : (i < length closes)%nat).
  { apply lookup_lt_Some in Hy. unfold rsi in Hy.
    now rewrite length_map, length_seq in Hy. }
  unfold rsi in Hy.
  rewrite map_fmap, list_lookup_fmap, lookup_seq_lt in Hy by exact Hi.
  cbn [fmap option_fmap option_map] in Hy. injection Hy as Hy.
  destruct (Nat.ltb_spec i 14) as [Hlt|H14].
  { subst y. discriminate. }
  destruct closes as [|c rest]; [cbn in Hi; lia|]. cbn in Hi.
  rewrite RSI_lookup in Hx by lia. injection Hx as Hx.
  set (w := take 14 (drop (i - 14) (deltas (c :: rest)))) in *.
  set (ag := sumQ (map gain w) / of_nat 14) in *.
  set (al := sumQ (map loss w) / of_nat 14) in *.
  assert (Hag : 0 <= ag) by (apply average_nonneg, gain_nonneg).
  assert (Hal : 0 <= al) by (apply average_nonneg, loss_nonneg).
  cbn [fdiv] in Hx.
  destruct (Qeq_bool al 0) eqn:Ez.
  - (* no losses in the window *)
    subst y. unfold inf_of_sign in Hx.
    destruct (Qsign ag); subst x; cbn in *; try reflexivity; discriminate.
  - subst y. cbn [fadd fdiv] in Hx.
    assert (Hpos : 0 < 1 + ag / al).
    { apply Qlt_le_trans with 1; [reflexivity|].
      rewrite <- (Qplus_0_r 1) at 1. apply Qplus_le_compat; [apply Qle_refl|].
      apply Qle_shift_div_l.
      - apply Qle_lteq in Hal as [Hal|Hal]; [exact Hal|].
        symmetry in Hal. apply Qeq_bool_iff in Hal. congruence.
      - now rewrite Qmult_0_l. }
    destruct (Qeq_bool (1 + ag / al) 0) eqn:E1.
    + apply Qeq_bool_iff in E1. rewrite E1 in Hpos.
      now apply Qlt_irrefl in Hpos.
    + subst x. reflexivity.
Qed.

Lemma rsi_feature_matches_indicator_witness :
  exists x,
    RSI (map Fin sixteen_closes) !! 15%nat = Some x /\
    rsi 14 sixteen_closes !! 15%nat = Some x /\
    isnan x = false.
Proof.
  pose proof (rsi_feature_matches_indicator sixteen_closes 15
                _ _ eq_refl eq_refl eq_refl eq_refl) as H.
  eexists. split; [reflexivity|]. split; [rewrite H; reflexivity|reflexivity].
Defined.

End RsiFacts.

Module OrchestratorFacts.

Import StockPredictor AnalysisOrchestrator Examples.

(** Case analysis on the first call of a sequence in a hypothesis. *)
Ltac first_call H :=
  match type of H with
  | context [bind ?c _] =>
    let E := fresh "Ecall" in
    destruct c eqn:E; cbn [bind] in H; [|discriminate]
  end.

(** The dict of [calculate_trend_signals] always holds its eight entries. *)
Lemma calculate_trend_signals_nonempty (ta : TechnicalIndicators.TaLibrary)
    (self_data : DataFrame) (signals : gmap string (list fval)) :
  TechnicalIndicators.calculate_trend_signals ta self_data = Ok signals ->
  dom signals <> ∅.
Proof.
  unfold TechnicalIndicators.calculate_trend_signals. intros H.
  first_call H. first_call H. first_call H.
  destruct a1 as [[macd macd_signal] hist]. injection H as <-.
  rewrite dom_fmap_L, dom_insert_L. set_solver.
Qed.

Section Orchestrator.

Variable sqrt : Q -> Q.
Variable ta : TechnicalIndicators.TaLibrary.

(** The guard before the read of the latest trend row never takes its
    branch. *)
Lemma technical_analysis_try_trend (data : DataFrame)
    (r : Keyed TechnicalAnalysis) :
  technical_analysis_try sqrt ta data = Ok r ->
  exists t, r = Value t /\ trend_signals t = ∅.
Proof.
  unfold technical_analysis_try. intros H.
  do 4 first_call H.
  apply calculate_trend_signals_nonempty in Ecall2.
  rewrite bool_decide_eq_false_2 in H by exact Ecall2.
  cbn [bind] in H. injection H as <-. eauto.
Qed.

(** C10. Whenever the technical-analysis step of the orchestrator returns
    without error, the trend_signals entry of its result is the empty
    mapping: the guard in front of the read of the latest row asks for an
    empty signals dict, and the signals dict is never empty. *)
Theorem trend_signals_never_populated (data : DataFrame)
    (r : TechnicalAnalysis) :
  records data <> [] ->
  _perform_technical_analysis sqrt ta data = Value r ->
  trend_signals r = ∅.
Proof.
  intros _. unfold _perform_technical_analysis.
  destruct (technical_analysis_try sqrt ta data) as [k|e] eqn:E;
    cbn [catch]; [|discriminate].
  apply technical_analysis_try_trend in E as (t & -> & Ht).
  intros H. injection H as <-. exact Ht.
Qed.

End Orchestrator.

Lemma trend_signals_never_populated_witness :
  exists r,
    _perform_technical_analysis newton_sqrt blank_ta
      (Frame.of_records three_bars) = Value r /\
    trend_signals r = ∅.
Proof.
  destruct (_perform_technical_analysis newton_sqrt blank_ta
              (Frame.of_records three_bars)) as [r|e] eqn:E.
  - exists r. split; [reflexivity|].
    apply (trend_signals_never_populated newton_sqrt blank_ta
             (Frame.of_records three_bars) r); [discriminate|exact E].
  - vm_compute in E. discriminate.
Defined.

(** C8. On a stored history of three rows whose RSI call fails, each
    analysis step keeps its outcome to itself: the technical step returns
    the keyed error of the failure, the seasonality step its report, and the
    predictive step the insufficient-data error. The comprehensive analysis
    returns none of them: building the data period calls [date()] on the
    first date of the index, a [datetime.date], the outer handler catches
    the failure, and the whole result is the error dict of that failure. *)
Theorem merged_result_is_lost :
  _perform_technical_analysis newton_sqrt failing_ta
    (Frame.of_records three_bars) = Error "rsi failed" /\
  _perform_seasonality_analysis unit (fun _ => Ok tt)
    (Frame.of_records three_bars) = Value tt /\
  _perform_predictive_analysis no_trainer (Frame.of_records three_bars)
    = Error insufficient_data /\
  get_comprehensive_analysis newton_sqrt failing_ta unit
    (fun _ => Ok tt) no_trainer three_bar_store "2024-01-05T00:00:00"
    unit (fun _ _ _ => tt) "AAPL" None None
  = Error "'datetime.date' object has no attribute 'date'".
Proof.
  split; [vm_compute; reflexivity|].
  split; [reflexivity|]. split; [reflexivity|].
  unfold get_comprehensive_analysis, three_bar_store. cbn [bind].
  reflexivity.
Qed.

Section MinimumData.

Variable create_predictive_model : DataFrame -> Result Predictor.
Variable get_stock_data :
  string -> option Date -> option Date -> Result DataFrame.

(** C7, as the code has it. On a history of fewer than 100 rows
    [_perform_predictive_analysis] returns the insufficient-data error
    without calling the trainer, and so does [get_prediction] when the
    history is not empty; on an empty history [get_prediction] returns the
    no-data error instead. From 100 rows on both go on to train. *)
Theorem insufficient_history_is_refused (ticker : string)
    (stock_data : DataFrame) :
  get_stock_data ticker None None = Ok stock_data ->
  ((Frame.len stock_data < 100)%nat ->
     _perform_predictive_analysis create_predictive_model stock_data
       = Error insufficient_data /\
     ((0 < Frame.len stock_data)%nat ->
        get_prediction create_predictive_model get_stock_data ticker
          = Error insufficient_data) /\
     (Frame.len stock_data = 0%nat ->
        get_prediction create_predictive_model get_stock_data ticker
          = Error (no_data_found ticker))) /\
  ((100 <= Frame.len stock_data)%nat ->
     _perform_predictive_analysis create_predictive_model stock_data
       = catch (train_and_analyse create_predictive_model stock_data)
               (fun e => Error e) /\
     get_prediction create_predictive_model get_stock_data ticker
       = catch (train_and_predict create_predictive_model stock_data)
               (fun e => Error e)).
Proof.
  intros Hdata.
  unfold _perform_predictive_analysis, predictive_analysis_try,
    get_prediction, Frame.len, Frame.is_empty.
  rewrite Hdata. cbn [bind].
  split.
  - intros Hlt. apply Nat.ltb_lt in Hlt. rewrite Hlt. cbn [catch].
    split; [reflexivity|]. split.
    + intros Hpos. destruct (records stock_data); [cbn in Hpos; lia|].
      reflexivity.
    + intros Hzero. destruct (records stock_data); [reflexivity|].
      discriminate.
  - intros Hge. apply Nat.ltb_ge in Hge. rewrite Hge.
    split; [reflexivity|].
    destruct (records stock_data); [cbn in Hge; lia|]. reflexivity.
Qed.

End MinimumData.

Lemma insufficient_history_is_refused_witness :
  _perform_predictive_analysis no_trainer (Frame.of_records three_bars)
    = Error insufficient_data /\
  get_prediction no_trainer three_bar_store "AAPL" = Error insufficient_data.
Proof.
  destruct (insufficient_history_is_refused no_trainer three_bar_store
              "AAPL" (Frame.of_records three_bars) eq_refl) as [Hlt _].
  destruct Hlt as (H1 & H2 & _); [cbn; lia|].
  split; [exact H1|]. apply H2. cbn. lia.
Defined.

(** C7, as stated, fails: the empty history has fewer than 100 rows, and
    [get_prediction] answers it with the no-data error, not with the
    insufficient-data error. *)
Lemma empty_history_is_no_data :
  (Frame.len (Frame.of_records []) < 100)%nat /\
  get_prediction no_trainer empty_store "AAPL"
    = Error "No data found for AAPL" /\
  get_prediction no_trainer empty_store "AAPL" <> Error insufficient_data.
Proof.
  split; [cbn; lia|]. split; [reflexivity|]. discriminate.
Qed.

End OrchestratorFacts.

Module PredictionFacts.

Import StockPredictor NumFacts Examples.

(** What [determine] returns, read back: the direction and the confidence
    fix the range of the probability. *)
Lemma determine_sound (p : Q) (d : direction) (c : confidence_level) :
  determine p = (d, c) ->
  (d = bullish -> (6 # 10) < p) /\
  (d = bearish -> p < (4 # 10)) /\
  (d = neutral -> (4 # 10) <= p /\ p <= (6 # 10)) /\
  (c = high -> (75 # 100) < p \/ p < (25 # 100)) /\
  (c = low -> d = neutral /\ Qabs (p - (5 # 10)) <= (5 # 100)).
Proof.
  unfold determine.
  destruct (Qgtb p (6 # 10)) eqn:E6.
  - apply Qgtb_gt in E6.
    destruct (Qgtb p (75 # 100)) eqn:E75; intros H; injection H as <- <-;
      repeat split; try discriminate; auto.
    apply Qgtb_gt in E75. now left.
  - apply Qgtb_le in E6.
    destruct (Qltb p (4 # 10)) eqn:E4.
    + apply Qltb_lt in E4.
      destruct (Qltb p (25 # 100)) eqn:E25; intros H; injection H as <- <-;
        repeat split; try discriminate; auto.
      apply Qltb_lt in E25. now right.
    + apply Qltb_ge in E4.
      destruct (Qgtb (Qabs (p - (5 # 10))) (5 # 100)) eqn:E5;
        intros H; injection H as <- <-;
        repeat split; try discriminate; auto.
      now apply Qgtb_le in E5.
Qed.

(** X1. [predict_next_day] answers every predictor that has data: it raises
    nothing. Without a trained model, with an undefined feature in the
    latest row, or when the model call fails, the answer is the neutral
    default with probability 0.5 and confidence low. *)
Theorem predict_next_day_safe_default (P : Predictor) :
  data P <> [] ->
  exists r,
    predict_next_day P = Ok r /\
    (best P = None -> r = default_prediction) /\
    (forall latest, last (data P) = Some latest ->
       any_isnan (features latest) = true -> r = default_prediction) /\
    (forall latest name m e, last (data P) = Some latest ->
       best P = Some (name, m) ->
       class1_probability P name m (features latest) = Raise e ->
       r = default_prediction).
Proof.
  intros Hdata. unfold predict_next_day.
  destruct (best P) as [[name m]|] eqn:Hbest.
  - destruct (last (data P)) as [latest|] eqn:Hlast.
    + destruct (any_isnan (features latest)) eqn:Hnan.
      * eexists. split; [reflexivity|]. repeat split; auto; discriminate.
      * eexists. split; [reflexivity|]. split; [discriminate|]. split.
        -- intros l Hl. injection Hl as <-. congruence.
        -- intros l n m' e Hl Hb Hp. injection Hl as <-. injection Hb as <- <-.
           now rewrite Hp.
    + apply last_None in Hlast. contradiction.
  - eexists. split; [reflexivity|]. repeat split; auto.
Qed.

Lemma predict_next_day_safe_default_witness :
  exists r,
    predict_next_day
      (mkPredictor [mkRow 100 [NaN; Fin 2] 1] None (fun X => Ok X) ∅) = Ok r /\
    r = default_prediction.
Proof.
  destruct (predict_next_day_safe_default
              (mkPredictor [mkRow 100 [NaN; Fin 2] 1] None (fun X => Ok X) ∅))
    as (r & Hr & Hnone & _); [discriminate|].
  exists r. split; [exact Hr|]. now apply Hnone.
Defined.

(** X2. Whatever [predict_next_day] returns is consistent with its reported
    probability: bullish only above 0.6, bearish only below 0.4, neutral
    only between them; high confidence only above 0.75 or below 0.25, low
    confidence only for a neutral answer within 0.05 of 0.5. *)
Theorem predict_next_day_consistent (P : Predictor) (r : Prediction) :
  predict_next_day P = Ok r ->
  (prediction r = bullish -> (6 # 10) < probability r) /\
  (prediction r = bearish -> probability r < (4 # 10)) /\
  (prediction r = neutral ->
     (4 # 10) <= probability r /\ probability r <= (6 # 10)) /\
  (confidence r = high ->
     (75 # 100) < probability r \/ probability r < (25 # 100)) /\
  (confidence r = low ->
     prediction r = neutral /\
     Qabs (probability r - (5 # 10)) <= (5 # 100)).
Proof.
  assert (Hdefault :
    (prediction default_prediction = bullish ->
       (6 # 10) < probability default_prediction) /\
    (prediction default_prediction = bearish ->
       probability default_prediction < (4 # 10)) /\
    (prediction default_prediction = neutral ->
       (4 # 10) <= probability default_prediction /\
       probability default_prediction <= (6 # 10)) /\
    (confidence default_prediction = high ->
       (75 # 100) < probability default_prediction \/
       probability default_prediction < (25 # 100)) /\
    (confidence default_prediction = low ->
       prediction default_prediction = neutral /\
       Qabs (probability default_prediction - (5 # 10)) <= (5 # 100))).
  { cbn. repeat split; try discriminate; auto. }
  unfold predict_next_day.
  destruct (best P) as [[name m]|]; [|intros H; injection H as <-; exact Hdefault].
  destruct (last (data P)) as [latest|]; [|discriminate].
  destruct (any_isnan (features latest));
    [intros H; injection H as <-; exact Hdefault|].
  destruct (class1_probability P name m (features latest)) as [p|e];
    cbn [bind catch]; [|intros H; injection H as <-; exact Hdefault].
  destruct (determine p) as [d c] eqn:Hd. cbn [catch].
  intros H. injection H as <-. cbn.
  exact (determine_sound p d c Hd).
Qed.

Lemma predict_next_day_consistent_witness :
  (6 # 10) < (8 # 10).
Proof.
  destruct (predict_next_day_consistent
              (example_predictor [mkRow 100 [Fin 1; Fin 2] 1] 1 (8 # 10))
              (mkPrediction bullish (8 # 10) high (Some random_forest)
                 (Some 25%nat)) eq_refl) as [Hb _].
  exact (Hb eq_refl).
Defined.

End PredictionFacts.

Module BacktestFacts.

Import StockPredictor NumFacts PredictorFacts Examples.

Lemma length_omap_le {A B} (f : A -> option B) (l : list A) :
  (length (omap f l) <= length l)%nat.
Proof.
  induction l as [|x l IH]; [reflexivity|].
  simpl. destruct (f x); simpl.
  - apply le_n_S. exact IH.
  - apply Nat.le_le_succ_r. exact IH.
Qed.

(** The first loop records at most one step per row of the window after the
    first. *)
Lemma length_backtest_steps (P : Predictor) (name : family) (m : Model)
    (bt : list Row) :
  (length (backtest_steps P name m bt) <= length bt - 1)%nat.
Proof.
  unfold backtest_steps.
  etransitivity; [apply length_omap_le|]. now rewrite length_seq.
Qed.

Lemma length_tail {A} (n : nat) (l : list A) :
  length (tail n l) = Nat.min n (length l).
Proof. unfold tail. rewrite length_drop. lia. Qed.

(** The second loop finds every row it reads, and records one return per
    step. *)
Lemma strategy_loop_total (bt : list Row) (len_actuals : nat)
    (steps : list Step) :
  forall i,
    (i + length steps < length bt \/ steps = [])%nat ->
    (i + length steps <= len_actuals)%nat ->
    exists rs,
      strategy_loop bt len_actuals i steps = Ok rs /\
      length rs = length steps.
Proof.
  induction steps as [|s steps IH]; intros i Hrows Hact.
  - exists []. split; reflexivity.
  - destruct Hrows as [Hrows|?]; [|discriminate]. cbn [length] in *.
    cbn [strategy_loop].
    destruct (Nat.ltb_spec i len_actuals); [|lia].
    destruct bt as [|d bt']; [cbn in Hrows; lia|].
    rewrite (iloc_nth (d :: bt') (i + 1) d) by lia.
    rewrite (iloc_nth (d :: bt') i d) by lia.
    cbn [bind].
    destruct (IH (S i)) as (rs & Hrs & Hlen); [left; lia|lia|].
    rewrite Hrs. cbn [bind]. eexists. split; [reflexivity|].
    cbn. now rewrite Hlen.
Qed.

(** X3. [backtest_model] raises nothing: every row the loops index is inside
    the window. *)
Theorem backtest_model_never_raises (P : Predictor) (days_back : nat) :
  exists result, backtest_model P days_back = Ok result.
Proof.
  unfold backtest_model.
  destruct (best P) as [[name m]|]; [|eauto].
  set (bt := tail days_back (data P)).
  pose proof (length_backtest_steps P name m bt) as Hlen.
  destruct (backtest_steps P name m bt) as [|s steps] eqn:E; [eauto|].
  destruct (strategy_loop_total bt (length (s :: steps)) (s :: steps) 0)
    as (rs & Hrs & _); [left; cbn in *; lia|cbn; lia|].
  rewrite Hrs. cbn [bind]. eauto.
Qed.

(** X4. A result of [backtest_model] holds one return per trade, at least one
    trade, and fewer trades than the window has rows: fewer than
    [days_back] and fewer than the history. *)
Theorem backtest_trade_count (P : Predictor) (days_back : nat)
    (r : BacktestResult) :
  backtest_model P days_back = Ok (Some r) ->
  length (strategy_returns r) = total_trades r /\
  (1 <= total_trades r)%nat /\
  (total_trades r < days_back)%nat /\
  (total_trades r < length (data P))%nat.
Proof.
  unfold backtest_model.
  destruct (best P) as [[name m]|]; [|discriminate].
  set (bt := tail days_back (data P)).
  pose proof (length_backtest_steps P name m bt) as Hlen.
  pose proof (length_tail days_back (data P)) as Htail. fold bt in Htail.
  destruct (backtest_steps P name m bt) as [|s steps] eqn:E; [discriminate|].
  destruct (strategy_loop_total bt (length (s :: steps)) (s :: steps) 0)
    as (rs & Hrs & Hl); [left; cbn in *; lia|cbn; lia|].
  rewrite Hrs. cbn [bind]. intros H. injection H as <-.
  cbn [strategy_returns total_trades]. cbn [length] in *. lia.
Qed.

Lemma backtest_trade_count_witness :
  exists r,
    backtest_model (example_predictor window_complete 1 (7 # 10))
      default_days_back = Ok (Some r) /\
    length (strategy_returns r) = total_trades r /\
    (total_trades r < 3)%nat.
Proof.
  remember (backtest_model (example_predictor window_complete 1 (7 # 10))
              default_days_back) as c eqn:Hr.
  assert (Hsome : match c with Ok (Some _) => true | _ => false end = true)
    by (subst c; vm_compute; reflexivity).
  symmetry in Hr. destruct c as [[r|]|]; try discriminate Hsome.
  destruct (backtest_trade_count _ _ r Hr) as (H1 & _ & _ & H4).
  exists r. split; [reflexivity|]. split; [exact H1|exact H4].
Defined.

Lemma ratio_in_unit_interval (a b : nat) :
  (a <= b)%nat -> (0 < b)%nat ->
  0 <= of_nat a / of_nat b /\ of_nat a / of_nat b <= 1.
Proof.
  intros Hab Hb.
  assert (Hb' : 0 < of_nat b).
  { unfold of_nat, Qlt. cbn. lia. }
  split.
  - apply Qle_shift_div_l; [exact Hb'|]. rewrite Qmult_0_l.
    unfold of_nat, Qle. cbn. lia.
  - apply Qle_shift_div_r; [exact Hb'|]. rewrite Qmult_1_l.
    unfold of_nat, Qle. cbn. lia.
Qed.

(** X5. The accuracy and the win rate of a backtest result lie between 0
    and 1. *)
Theorem backtest_rates_in_unit_interval (P : Predictor) (days_back : nat)
    (r : BacktestResult) :
  backtest_model P days_back = Ok (Some r) ->
  0 <= accuracy r /\ accuracy r <= 1 /\
  0 <= win_rate r /\ win_rate r <= 1.
Proof.
  unfold backtest_model.
  destruct (best P) as [[name m]|]; [|discriminate].
  set (bt := tail days_back (data P)).
  destruct (backtest_steps P name m bt) as [|s steps] eqn:E; [discriminate|].
  destruct (strategy_loop bt (length (s :: steps)) 0 (s :: steps)) as [rs|e];
    cbn [bind]; [|discriminate].
  intros H. injection H as <-. cbn [accuracy win_rate].
  destruct (ratio_in_unit_interval
              (length (filter (fun s => step_actual s = step_pred s)
                         (s :: steps)))
              (length (s :: steps))) as [Ha0 Ha1];
    [apply length_filter|cbn; lia|].
  split; [exact Ha0|]. split; [exact Ha1|].
  destruct rs as [|x rs]; [split; discriminate|].
  apply ratio_in_unit_interval; [apply length_filter|cbn; lia].
Qed.

Lemma backtest_rates_in_unit_interval_witness :
  exists r,
    backtest_model (example_predictor window_complete 1 (7 # 10))
      default_days_back = Ok (Some r) /\
    0 <= win_rate r /\ win_rate r <= 1.
Proof.
  remember (backtest_model (example_predictor window_complete 1 (7 # 10))
              default_days_back) as c eqn:Hr.
  assert (Hsome : match c with Ok (Some _) => true | _ => false end = true)
    by (subst c; vm_compute; reflexivity).
  symmetry in Hr. destruct c as [[r|]|]; try discriminate Hsome.
  destruct (backtest_rates_in_unit_interval _ _ r Hr) as (_ & _ & H3 & H4).
  exists r. split; [reflexivity|]. split; [exact H3|exact H4].
Defined.

(** X6. Without a trained model, and on a window of fewer than two rows, the
    backtest returns the empty dict. *)
Theorem backtest_model_empty_result (P : Predictor) (days_back : nat) :
  best P = None \/ (days_back < 2)%nat \/ (length (data P) < 2)%nat ->
  backtest_model P days_back = Ok None.
Proof.
  intros H. unfold backtest_model.
  destruct (best P) as [[name m]|]; [|reflexivity].
  destruct H as [H|H]; [discriminate|].
  pose proof (length_backtest_steps P name m (tail days_back (data P))) as Hl.
  rewrite length_tail in Hl.
  destruct (backtest_steps P name m (tail days_back (data P))); [reflexivity|].
  cbn in Hl. lia.
Qed.

Lemma backtest_model_empty_result_witness :
  backtest_model (example_predictor window_complete 1 (7 # 10)) 1 = Ok None.
Proof.
  apply backtest_model_empty_result. right. left. lia.
Defined.

End BacktestFacts.

Module TrendFacts.

Import TechnicalIndicators PandasFacts NumFacts Examples.

Lemma backtest_attribution_without_gaps_witness :
  exists r,
    StockPredictor.backtest_model
      (example_predictor window_complete 1 (7 # 10))
      StockPredictor.default_days_back = Ok (Some r) /\
    StockPredictor.total_trades r = 2%nat.
Proof.
  destruct (PredictorFacts.backtest_attribution_without_gaps
              (example_predictor window_complete 1 (7 # 10))
              StockPredictor.random_forest (constant_model 1 (7 # 10))
              StockPredictor.default_days_back
              (StockPredictor.mkRow 0 [] 0)
              (fun _ => 7 # 10) (fun _ => 1%Z) eq_refl)
    as (r & Hr & Hn & _).
  - cbn. lia.
  - intros k Hk. cbn in Hk.
    destruct k as [|[|k]]; [repeat split; reflexivity..|lia].
  - exists r. split; [exact Hr|exact Hn].
Defined.

Lemma fgt_NaN_r (x : fval) : fgt x NaN = false.
Proof. now destruct x. Qed.

Lemma fgt_asym (x y : fval) : fgt x y = true -> fgt y x = false.
Proof.
  destruct x as [a| | |], y as [b| | |]; cbn; try congruence.
  intros H. apply Qgtb_gt in H. apply Qgtb_le. now apply Qlt_le_weak.
Qed.

(** The columns of the dict that [calculate_trend_signals] returns. *)
Lemma calculate_trend_signals_columns (ta : TaLibrary) (self_data : DataFrame)
    (signals : gmap string (list fval)) :
  calculate_trend_signals ta self_data = Ok signals ->
  exists Close rsi macd macd_signal,
    let ma_20 := rolling_mean 20 Close in
    let ma_50 := rolling_mean 50 Close in
    let ma_200 := rolling_mean 200 Close in
    let short := np_where fgt (Fin 1) (Fin (-1)) Close ma_20 in
    let medium := np_where fgt (Fin 1) (Fin (-1)) ma_20 ma_50 in
    let long := np_where fgt (Fin 1) (Fin (-1)) ma_50 ma_200 in
    Frame.col self_data "Close" = Ok Close /\
    signals !! "ma_trend_short" = Some short /\
    signals !! "ma_trend_medium" = Some medium /\
    signals !! "ma_trend_long" = Some long /\
    signals !! "overall_trend"
      = Some (replicate (Frame.len self_data) NaN) /\
    signals !! "rsi_oversold" =
      Some (np_where1 (fun x => flt x (Fin 30)) (Fin 1) (Fin 0) rsi) /\
    signals !! "rsi_overbought" =
      Some (np_where1 (fun x => fgt x (Fin 70)) (Fin 1) (Fin 0) rsi) /\
    signals !! "macd_bullish" =
      Some (zip_with
              (fun now before =>
                 if fgt (fst now) (snd now) && fle (fst before) (snd before)
                 then Fin 1 else Fin 0)
              (zip macd macd_signal)
              (zip (shift 1 macd) (shift 1 macd_signal))) /\
    signals !! "macd_bearish" =
      Some (zip_with
              (fun now before =>
                 if flt (fst now) (snd now) && fge (fst before) (snd before)
                 then Fin 1 else Fin 0)
              (zip macd macd_signal)
              (zip (shift 1 macd) (shift 1 macd_signal))).
Proof.
  unfold calculate_trend_signals. intros H.
  destruct (Frame.col self_data "Close") as [Close|] eqn:EC;
    cbn [bind] in H; [|discriminate].
  destruct (calculate_rsi ta self_data 14) as [rsi|] eqn:ER;
    cbn [bind] in H; [|discriminate].
  destruct (calculate_macd ta self_data 12 26 9) as [[[macd sig] hist]|] eqn:EM;
    cbn [bind] in H; [|discriminate].
  injection H as <-. rewrite !fmap_insert, fmap_empty. cbn [on_index].
  exists Close, rsi, macd, sig. cbn zeta.
  split; [reflexivity|].
  repeat split;
    repeat (rewrite lookup_insert_ne by discriminate);
    now rewrite lookup_insert_eq.
Qed.

Lemma lookup_np_where (cond : fval -> fval -> bool) (a b : fval)
    (s t : list fval) (i : nat) (x : fval) :
  np_where cond a b s t !! i = Some x ->
  exists u v, s !! i = Some u /\ t !! i = Some v /\
              x = if cond u v then a else b.
Proof.
  unfold np_where. rewrite lookup_zip_with.
  destruct (s !! i) as [u|]; [|discriminate].
  destruct (t !! i) as [v|]; [|discriminate].
  cbn. intros H. injection H as <-. eauto.
Qed.

(** A vote against a moving average is -1 on every row where the average
    on the right is not yet defined. *)
Lemma vote_during_warm_up (w i : nat) (s t : list fval) (x : fval) :
  (S i < w)%nat -> (i < length t)%nat ->
  np_where fgt (Fin 1) (Fin (-1)) s (rolling_mean w t) !! i = Some x ->
  x = Fin (-1).
Proof.
  intros Hw Hi H. apply lookup_np_where in H as (u & v & _ & Hv & ->).
  rewrite lookup_rolling_mean in Hv by exact Hi.
  destruct (Nat.ltb_spec (S i) w); [|lia].
  injection Hv as <-. now rewrite fgt_NaN_r.
Qed.

Lemma lookup_row_mean3 (a b c : list fval) (i : nat) (x : fval) :
  row_mean3 a b c !! i = Some x ->
  exists u v w, a !! i = Some u /\ b !! i = Some v /\ c !! i = Some w /\
                x = fdiv (fadd (fadd u v) w) (Fin 3).
Proof.
  revert b c i. induction a as [|u a IH]; intros b c i H; [discriminate|].
  destruct b as [|v b]; [discriminate|]. destruct c as [|w c]; [discriminate|].
  destruct i as [|i]; cbn in H.
  - injection H as <-. exists u, v, w. repeat split; reflexivity.
  - apply IH in H. exact H.
Qed.

(** X8. Every trend vote is 1 or -1. A vote that compares against a moving
    average is -1 while that average is still missing: the short-term vote
    on the first 19 rows, the medium-term vote on the first 49 and the
    long-term vote on the first 199. The overall trend of the returned dict
    has one cell per row of the frame and is missing on every row: the mean
    of the votes is a Series labelled by position, and the last loop aligns
    it with the dates of the index. *)
Theorem trend_votes_warm_up (ta : TaLibrary) (self_data : DataFrame)
    (signals : gmap string (list fval)) (vote : string) (column : list fval)
    (warm_up : nat) :
  calculate_trend_signals ta self_data = Ok signals ->
  (vote, warm_up) ∈ [("ma_trend_short", 19%nat); ("ma_trend_medium", 49%nat);
                     ("ma_trend_long", 199%nat)] ->
  signals !! vote = Some column ->
  (forall i x, column !! i = Some x -> x = Fin 1 \/ x = Fin (-1)) /\
  (forall i x, (i < warm_up)%nat -> column !! i = Some x -> x = Fin (-1)) /\
  (exists overall,
     signals !! "overall_trend" = Some overall /\
     length overall = Frame.len self_data /\
     forall i x, overall !! i = Some x -> x = NaN).
Proof.
  intros Hs Hvote Hcol.
  destruct (calculate_trend_signals_columns ta self_data signals Hs)
    as (Close & rsi & macd & sig & _ & Hshort & Hmedium & Hlong & Hoverall & _).
  assert (Hwarm : forall w i s t x, (S i < w)%nat ->
            np_where fgt (Fin 1) (Fin (-1)) s (rolling_mean w t) !! i = Some x ->
            x = Fin (-1)).
  { intros w i s t x Hw H. eapply vote_during_warm_up; [exact Hw| |exact H].
    apply lookup_np_where in H as (_ & v & _ & Hv & _).
    apply lookup_lt_Some in Hv. now rewrite length_rolling_mean in Hv. }
  split; [|split].
  - intros i x Hx.
    repeat (apply elem_of_cons in Hvote as [Hvote|Hvote];
            [injection Hvote as -> ->|]); [| | |now apply elem_of_nil in Hvote];
      rewrite ?Hshort, ?Hmedium, ?Hlong in Hcol; injection Hcol as <-;
      apply lookup_np_where in Hx as (u & v & _ & _ & ->);
      destruct (fgt u v); auto.
  - intros i x Hi Hx.
    repeat (apply elem_of_cons in Hvote as [Hvote|Hvote];
            [injection Hvote as -> ->|]); [| | |now apply elem_of_nil in Hvote];
      rewrite ?Hshort, ?Hmedium, ?Hlong in Hcol; injection Hcol as <-;
      (eapply Hwarm; [|exact Hx]; lia).
  - eexists. split; [exact Hoverall|]. split; [apply length_replicate|].
    intros i x Hx. now apply lookup_replicate in Hx as [-> _].
Qed.

Lemma trend_votes_warm_up_witness :
  exists signals column,
    calculate_trend_signals blank_ta (Frame.of_records three_bars)
      = Ok signals /\
    signals !! "ma_trend_long" = Some column /\
    column !! 2%nat = Some (Fin (-1)) /\
    signals !! "overall_trend" = Some [NaN; NaN; NaN].
Proof.
  assert (Hok : is_ok (calculate_trend_signals blank_ta (Frame.of_records three_bars)) = true)
    by (vm_compute; reflexivity).
  remember (calculate_trend_signals blank_ta (Frame.of_records three_bars)) as c eqn:Hs.
  symmetry in Hs. destruct c as [signals|]; [|discriminate Hok].
  destruct (signals !! "ma_trend_long") as [column|] eqn:Hc;
    [|injection Hs as <-; vm_compute in Hc; discriminate].
  destruct (column !! 2%nat) as [x|] eqn:Hx;
    [|injection Hs as <-; vm_compute in Hc; injection Hc as <-;
      vm_compute in Hx; discriminate].
  destruct (trend_votes_warm_up blank_ta (Frame.of_records three_bars)
              signals "ma_trend_long" column 199 Hs)
    as (_ & Hw & overall & Ho & Hlen & Hnan).
  - apply elem_of_cons. right. apply elem_of_cons. right.
    apply elem_of_cons. now left.
  - exact Hc.
  - exists signals, column. split; [reflexivity|]. split; [exact Hc|].
    split; [rewrite Hx; f_equal; apply (Hw 2%nat); [lia|exact Hx]|].
    rewrite Ho. f_equal. cbn in Hlen.
    destruct overall as [|a [|b [|c [|d overall]]]]; try discriminate Hlen.
    now rewrite (Hnan 0%nat a eq_refl), (Hnan 1%nat b eq_refl),
      (Hnan 2%nat c eq_refl).
Defined.

End TrendFacts.

Module SignalFacts.

Import TechnicalIndicators PandasFacts NumFacts TrendFacts Examples.

Lemma lookup_np_where1 (cond : fval -> bool) (a b : fval) (s : list fval)
    (i : nat) (x : fval) :
  np_where1 cond a b s !! i = Some x ->
  exists u, s !! i = Some u /\ x = if cond u then a else b.
Proof.
  unfold np_where1. rewrite map_fmap, list_lookup_fmap.
  destruct (s !! i) as [u|]; [|discriminate].
  cbn. intros H. injection H as <-. eauto.
Qed.

Lemma overbought_not_oversold (x : fval) :
  fgt x (Fin 70) = true -> flt x (Fin 30) = false.
Proof.
  destruct x as [q| | |]; cbn; try congruence.
  intros H. apply Qgtb_gt in H. apply Qgtb_le.
  apply Qlt_le_weak. eapply Qlt_trans; [|exact H]. reflexivity.
Qed.

(** X9. The two RSI flags are 0 or 1, never both 1 on one row, and both 0 on
    every row where the RSI is missing. *)
Theorem rsi_flags_exclusive (ta : TaLibrary) (self_data : DataFrame)
    (signals : gmap string (list fval)) (oversold overbought : list fval) :
  calculate_trend_signals ta self_data = Ok signals ->
  signals !! "rsi_oversold" = Some oversold ->
  signals !! "rsi_overbought" = Some overbought ->
  (forall i, ~ (oversold !! i = Some (Fin 1) /\
                overbought !! i = Some (Fin 1))) /\
  (forall i rsi, calculate_rsi ta self_data 14 = Ok rsi ->
     rsi !! i = Some NaN ->
     oversold !! i = Some (Fin 0) /\ overbought !! i = Some (Fin 0)).
Proof.
  intros Hs Hunder Hover.
  pose proof Hs as Hs'. unfold calculate_trend_signals in Hs'.
  destruct (Frame.col self_data "Close") as [Close|]; cbn [bind] in Hs';
    [|discriminate].
  destruct (calculate_rsi ta self_data 14) as [rsi|] eqn:ER;
    cbn [bind] in Hs'; [|discriminate].
  destruct (calculate_macd ta self_data 12 26 9) as [[[macd sig] hist]|];
    cbn [bind] in Hs'; [|discriminate].
  injection Hs' as <-.
  rewrite !fmap_insert, fmap_empty in Hunder, Hover.
  cbn [on_index] in Hunder, Hover.
  repeat (rewrite lookup_insert_ne in Hunder by discriminate).
  rewrite lookup_insert_eq in Hunder. injection Hunder as <-.
  repeat (rewrite lookup_insert_ne in Hover by discriminate).
  rewrite lookup_insert_eq in Hover. injection Hover as <-.
  split.
  - intros i [Hu Ho].
    apply lookup_np_where1 in Hu as (u & Hu & Eu).
    apply lookup_np_where1 in Ho as (v & Hv & Ev).
    rewrite Hu in Hv. injection Hv as <-.
    change (Fin 1 = if flt u (Fin 30) then Fin 1 else Fin 0) in Eu.
    change (Fin 1 = if fgt u (Fin 70) then Fin 1 else Fin 0) in Ev.
    destruct (fgt u (Fin 70)) eqn:E70; [|discriminate].
    apply overbought_not_oversold in E70. rewrite E70 in Eu. discriminate.
  - intros i r Hr Hnan. injection Hr as <-.
    unfold np_where1. rewrite !map_fmap, !list_lookup_fmap, Hnan.
    split; reflexivity.
Qed.

Lemma rsi_flags_exclusive_witness :
  exists signals oversold overbought,
    calculate_trend_signals blank_ta (Frame.of_records three_bars)
      = Ok signals /\
    signals !! "rsi_oversold" = Some oversold /\
    signals !! "rsi_overbought" = Some overbought /\
    ~ (oversold !! 0%nat = Some (Fin 1) /\ overbought !! 0%nat = Some (Fin 1)).
Proof.
  assert (Hok : is_ok (calculate_trend_signals blank_ta (Frame.of_records three_bars)) = true)
    by (vm_compute; reflexivity).
  remember (calculate_trend_signals blank_ta (Frame.of_records three_bars)) as c eqn:Hs.
  symmetry in Hs. destruct c as [signals|]; [|discriminate Hok].
  destruct (signals !! "rsi_oversold") as [oversold|] eqn:Hu;
    [|injection Hs as <-; vm_compute in Hu; discriminate].
  destruct (signals !! "rsi_overbought") as [overbought|] eqn:Ho;
    [|injection Hs as <-; vm_compute in Ho; discriminate].
  destruct (rsi_flags_exclusive blank_ta (Frame.of_records three_bars)
              signals oversold overbought Hs Hu Ho) as [Hex _].
  exists signals, oversold, overbought.
  split; [reflexivity|]. split; [exact Hu|]. split; [exact Ho|].
  apply Hex.
Defined.

Lemma lookup_shift1_0 (s : list fval) (x : fval) :
  shift 1 s !! 0%nat = Some x -> x = NaN.
Proof.
  unfold shift. destruct s as [|y s]; [discriminate|].
  cbn. intros H. now injection H as <-.
Qed.

(** X10. The two MACD crossover flags are never both 1 on one row, and both are
    0 on the first row, which has no row before it to cross from. *)
Theorem macd_crossovers_exclusive (ta : TaLibrary) (self_data : DataFrame)
    (signals : gmap string (list fval)) (bullish bearish : list fval) :
  calculate_trend_signals ta self_data = Ok signals ->
  signals !! "macd_bullish" = Some bullish ->
  signals !! "macd_bearish" = Some bearish ->
  (forall i, ~ (bullish !! i = Some (Fin 1) /\
                bearish !! i = Some (Fin 1))) /\
  (forall x, bullish !! 0%nat = Some x -> x = Fin 0) /\
  (forall x, bearish !! 0%nat = Some x -> x = Fin 0).
Proof.
  intros Hs Hbull Hbear.
  destruct (calculate_trend_signals_columns ta self_data signals Hs)
    as (Close & rsi & macd & sig & _ & _ & _ & _ & _ & _ & _ & Hb1 & Hb2).
  rewrite Hb1 in Hbull. injection Hbull as <-.
  rewrite Hb2 in Hbear. injection Hbear as <-.
  assert (Hrow : forall i (f : fval * fval -> fval * fval -> fval) x,
            zip_with f (zip macd sig) (zip (shift 1 macd) (shift 1 sig)) !! i
              = Some x ->
            exists m s m' s',
              macd !! i = Some m /\ sig !! i = Some s /\
              shift 1 macd !! i = Some m' /\ shift 1 sig !! i = Some s' /\
              x = f (m, s) (m', s')).
  { intros i f x H. rewrite lookup_zip_with in H.
    destruct (zip macd sig !! i) as [[m s]|] eqn:E1; [|discriminate].
    destruct (zip (shift 1 macd) (shift 1 sig) !! i) as [[m' s']|] eqn:E2;
      [|discriminate].
    cbn in H. injection H as <-.
    rewrite lookup_zip_with in E1. rewrite lookup_zip_with in E2.
    destruct (macd !! i) as [a|]; [|discriminate].
    destruct (sig !! i) as [b|]; [|discriminate].
    destruct (shift 1 macd !! i) as [c|]; [|discriminate].
    destruct (shift 1 sig !! i) as [d|]; [|discriminate].
    cbn in E1, E2. injection E1 as <- <-. injection E2 as <- <-.
    exists a, b, c, d. repeat split; reflexivity. }
  split; [|split].
  - intros i [H1 H2].
    apply Hrow in H1 as (m & s & m' & s' & Hm & Hsg & _ & _ & E1).
    apply Hrow in H2 as (n & t & n' & t' & Hn & Ht & _ & _ & E2).
    rewrite Hm in Hn. injection Hn as <-. rewrite Hsg in Ht. injection Ht as <-.
    cbn [fst snd] in E1, E2.
    destruct (fgt m s) eqn:G; [|cbn in E1; discriminate].
    unfold flt in E2. apply fgt_asym in G. rewrite G in E2. discriminate.
  - intros x H.
    apply Hrow in H as (m & s & m' & s' & _ & _ & Hm' & _ & ->).
    apply lookup_shift1_0 in Hm' as ->. cbn [fst snd].
    now rewrite andb_false_r.
  - intros x H.
    apply Hrow in H as (m & s & m' & s' & _ & _ & _ & Hs' & ->).
    apply lookup_shift1_0 in Hs' as ->. cbn [fst snd].
    unfold fge, fle. destruct m'; now rewrite andb_false_r.
Qed.

Lemma macd_crossovers_exclusive_witness :
  exists signals bullish bearish,
    calculate_trend_signals blank_ta (Frame.of_records three_bars)
      = Ok signals /\
    signals !! "macd_bullish" = Some bullish /\
    signals !! "macd_bearish" = Some bearish /\
    ~ (bullish !! 1%nat = Some (Fin 1) /\ bearish !! 1%nat = Some (Fin 1)).
Proof.
  assert (Hok : is_ok (calculate_trend_signals blank_ta (Frame.of_records three_bars)) = true)
    by (vm_compute; reflexivity).
  remember (calculate_trend_signals blank_ta (Frame.of_records three_bars)) as c eqn:Hs.
  symmetry in Hs. destruct c as [signals|]; [|discriminate Hok].
  destruct (signals !! "macd_bullish") as [bullish|] eqn:Hu;
    [|injection Hs as <-; vm_compute in Hu; discriminate].
  destruct (signals !! "macd_bearish") as [bearish|] eqn:Ho;
    [|injection Hs as <-; vm_compute in Ho; discriminate].
  destruct (macd_crossovers_exclusive blank_ta (Frame.of_records three_bars)
              signals bullish bearish Hs Hu Ho) as [Hex _].
  exists signals, bullish, bearish.
  split; [reflexivity|]. split; [exact Hu|]. split; [exact Ho|].
  apply Hex.
Defined.

End SignalFacts.

Module SummaryFacts.

Import TechnicalIndicators PandasFacts NumFacts Examples.

Lemma last_rolling_mean (w : nat) (s : list fval) :
  (0 < length s)%nat -> (length s < w)%nat ->
  iloc_last (rolling_mean w s) = Ok NaN.
Proof.
  intros Hpos Hshort. unfold iloc_last.
  rewrite last_lookup, length_rolling_mean.
  rewrite lookup_rolling_mean by lia.
  destruct (Nat.ltb_spec (S (Nat.pred (length s))) w); [reflexivity|lia].
Qed.

Lemma price_vs_NaN (c : fval) : fmul (fdiv (fsub c NaN) NaN) (Fin 100) = NaN.
Proof. now destruct c. Qed.

(** X11. On a history shorter than a moving-average window the technical
    summary still has the entries of that average, and they hold NaN: the
    average itself and the distance of the price from it. This is so for the
    20-, 50- and 200-day averages. *)
Theorem technical_summary_short_history (ta : TaLibrary)
    (self_data : DataFrame) (summary : gmap string (option fval))
    (average distance : string) (w : nat) :
  get_technical_summary ta self_data = Ok summary ->
  (average, distance, w) ∈
    [("ma_20", "price_vs_ma20", 20%nat); ("ma_50", "price_vs_ma50", 50%nat);
     ("ma_200", "price_vs_ma200", 200%nat)] ->
  (0 < Frame.len self_data)%nat ->
  (Frame.len self_data < w)%nat ->
  summary !! average = Some (Some NaN) /\
  summary !! distance = Some (Some NaN).
Proof.
  intros Hs Hkey Hpos Hshort. unfold get_technical_summary in Hs.
  assert (Hne : Frame.is_empty self_data = false).
  { unfold Frame.is_empty, Frame.len in *.
    destruct (records self_data); [cbn in Hpos; lia|reflexivity]. }
  assert (HClose : Frame.col self_data "Close"
                   = Ok (Frame.stored close self_data)).
  { unfold Frame.col. now rewrite Hne. }
  assert (Hlen : length (Frame.stored close self_data) = Frame.len self_data).
  { unfold Frame.stored, Frame.len. now rewrite length_map. }
  rewrite Hne, HClose in Hs. cbn [bind] in Hs.
  destruct (iloc_last (Frame.stored close self_data)) as [c|];
    cbn [bind] in Hs; [|discriminate].
  destruct (calculate_rsi ta self_data 14) as [rsi|];
    cbn [bind] in Hs; [|discriminate].
  destruct (calculate_macd ta self_data 12 26 9) as [[[macd sig] hist]|];
    cbn [bind] in Hs; [|discriminate].
  destruct (calculate_bollinger_bands ta self_data 20 2) as [[[bu bm] bl]|];
    cbn [bind] in Hs; [|discriminate].
  destruct (calculate_stochastic ta self_data 14 3) as [[sk sd]|];
    cbn [bind] in Hs; [|discriminate].
  destruct (calculate_volume_indicators ta self_data) as [vol|];
    cbn [bind] in Hs; [|discriminate].
  destruct (iloc_last (rolling_mean 20 (Frame.stored close self_data)))
    as [m20|] eqn:E20; cbn [bind] in Hs; [|discriminate].
  destruct (iloc_last (rolling_mean 50 (Frame.stored close self_data)))
    as [m50|] eqn:E50; cbn [bind] in Hs; [|discriminate].
  destruct (iloc_last (rolling_mean 200 (Frame.stored close self_data)))
    as [m200|] eqn:E200; cbn [bind] in Hs; [|discriminate].
  destruct (Volume <- Frame.col self_data "Volume";; iloc_last Volume)
    as [v|]; cbn [bind] in Hs; [|discriminate].
  apply (f_equal (fun c => match c with Ok x => x | Raise _ => summary end))
    in Hs. subst summary. cbn [list_to_map foldr fst snd].
  repeat (apply elem_of_cons in Hkey as [Hkey|Hkey];
          [injection Hkey as -> -> ->|]);
    [| | |now apply elem_of_nil in Hkey].
  - rewrite last_rolling_mean in E20 by lia. injection E20 as <-.
    rewrite price_vs_NaN.
    split; repeat (rewrite lookup_insert_ne by discriminate);
      now rewrite lookup_insert_eq.
  - rewrite last_rolling_mean in E50 by lia. injection E50 as <-.
    rewrite price_vs_NaN.
    split; repeat (rewrite lookup_insert_ne by discriminate);
      now rewrite lookup_insert_eq.
  - rewrite last_rolling_mean in E200 by lia. injection E200 as <-.
    rewrite price_vs_NaN.
    split; repeat (rewrite lookup_insert_ne by discriminate);
      now rewrite lookup_insert_eq.
Qed.

Lemma technical_summary_short_history_witness :
  exists summary,
    get_technical_summary blank_ta (Frame.of_records three_bars)
      = Ok summary /\
    summary !! "ma_200" = Some (Some NaN) /\
    summary !! "price_vs_ma200" = Some (Some NaN).
Proof.
  assert (Hok : is_ok (get_technical_summary blank_ta (Frame.of_records three_bars)) = true)
    by (vm_compute; reflexivity).
  remember (get_technical_summary blank_ta (Frame.of_records three_bars)) as c eqn:Hs.
  symmetry in Hs. destruct c as [summary|]; [|discriminate Hok].
  exists summary. split; [reflexivity|].
  apply (technical_summary_short_history blank_ta
           (Frame.of_records three_bars) summary "ma_200" "price_vs_ma200"
           200 Hs).
  - apply elem_of_cons. right. apply elem_of_cons. right.
    apply elem_of_cons. now left.
  - cbn. lia.
  - cbn. lia.
Defined.

End SummaryFacts.

Module EndpointFacts.

Import StockPredictor AnalysisOrchestrator TrendAnalysis Examples.

Section Endpoints.

Variable sqrt : Q -> Q.
Variable ta : TechnicalIndicators.TaLibrary.
Variable get_stock_data :
  string -> option Date -> option Date -> Result DataFrame.
Variable today : Date.
Variable days_before : Date -> Z -> Date.

(** X12. [get_trend_analysis] returns an error dict for every ticker and every
    period: the read of [trend_signals.empty] on the signals dict fails once
    everything before it has succeeded, and the [except] clause turns the
    failure into the error entry. *)
Theorem get_trend_analysis_always_error (ticker : string) (period_days : Z) :
  (exists msg,
     get_trend_analysis sqrt ta get_stock_data today days_before ticker
       period_days = Error msg) /\
  (forall stock_data tech_calc summary signals,
     get_stock_data ticker (Some (days_before today period_days)) (Some today)
       = Ok stock_data ->
     records stock_data <> [] ->
     TechnicalIndicators.init sqrt stock_data = Ok tech_calc ->
     TechnicalIndicators.get_technical_summary ta tech_calc = Ok summary ->
     TechnicalIndicators.calculate_trend_signals ta tech_calc = Ok signals ->
     get_trend_analysis sqrt ta get_stock_data today days_before ticker
       period_days = Error "'dict' object has no attribute 'empty'").
Proof.
  unfold get_trend_analysis. cbn zeta. split.
  - destruct (get_stock_data ticker _ _) as [stock_data|e];
      cbn [bind catch]; [|eauto].
    destruct (Frame.is_empty stock_data); cbn [catch]; [eauto|].
    destruct (TechnicalIndicators.init sqrt stock_data);
      cbn [bind catch]; [|eauto].
    destruct (TechnicalIndicators.get_technical_summary ta a);
      cbn [bind catch]; [|eauto].
    destruct (TechnicalIndicators.calculate_trend_signals ta a);
      cbn [bind catch]; [|eauto].
    destruct (Frame.col stock_data "Close"); cbn [bind catch]; [|eauto].
    destruct (iloc_last a2); cbn [bind catch]; [|eauto].
    destruct (iloc a2 0); cbn [bind catch]; eauto.
  - intros stock_data tech_calc summary signals Hd Hne Hinit Hsum Hsig.
    rewrite Hd. cbn [bind].
    unfold Frame.is_empty, Frame.col, Frame.is_empty.
    destruct (records stock_data) as [|b bars] eqn:Hrec; [contradiction|].
    rewrite Hinit. cbn [bind]. rewrite Hsum. cbn [bind]. rewrite Hsig.
    cbn [bind String.eqb Ascii.eqb Bool.eqb]. cbn.
    unfold Frame.stored. rewrite Hrec. unfold iloc_last.
    destruct (last (map (fun b : PriceBar => Fin (close b)) (b :: bars)))
      as [c|] eqn:Elast; [reflexivity|].
    apply last_None in Elast. discriminate.
Qed.

End Endpoints.

Lemma get_trend_analysis_always_error_witness :
  get_trend_analysis newton_sqrt blank_ta three_bar_store
    (mkDate 2024 1 5) (fun d _ => d) "AAPL" 252
  = Error "'dict' object has no attribute 'empty'".
Proof.
  destruct (get_trend_analysis_always_error newton_sqrt blank_ta
              three_bar_store (mkDate 2024 1 5) (fun d _ => d) "AAPL" 252)
    as [_ H].
  remember (TechnicalIndicators.init newton_sqrt (Frame.of_records three_bars))
    as tc eqn:Htc.
  destruct tc as [tech_calc|]; [|vm_compute in Htc; discriminate].
  assert (Hok1 : is_ok (TechnicalIndicators.get_technical_summary blank_ta
                          tech_calc) = true).
  { apply (f_equal (fun c => match c with
                             | Ok x => x
                             | Raise _ => Frame.of_records []
                             end))
      in Htc. subst tech_calc. vm_compute. reflexivity. }
  assert (Hok2 : is_ok (TechnicalIndicators.calculate_trend_signals blank_ta
                          tech_calc) = true).
  { apply (f_equal (fun c => match c with
                             | Ok x => x
                             | Raise _ => Frame.of_records []
                             end))
      in Htc. subst tech_calc. vm_compute. reflexivity. }
  destruct (TechnicalIndicators.get_technical_summary blank_ta tech_calc)
    as [summary|] eqn:Hsum; [|discriminate Hok1].
  destruct (TechnicalIndicators.calculate_trend_signals blank_ta tech_calc)
    as [signals|] eqn:Hsig; [|discriminate Hok2].
  apply (H (Frame.of_records three_bars) tech_calc summary signals);
    [reflexivity|discriminate|now symmetry|exact Hsum|exact Hsig].
Defined.

End EndpointFacts.

Module TrainingFacts.

Import StockPredictor Training NumFacts Examples.

(** The best item found from [best] on: it is in the list, nothing in the
    list scores higher, and everything before it scores strictly lower. *)
Lemma max_from_spec (rest : list (family * Q)) :
  forall best,
    exists pre post,
      best :: rest = pre ++ max_from best rest :: post /\
      Forall (fun item => snd item < snd (max_from best rest)) pre /\
      Forall (fun item => snd item <= snd (max_from best rest)) post.
Proof.
  induction rest as [|item rest IH]; intros best.
  - exists [], []. repeat split; constructor.
  - cbn [max_from]. destruct (Qgtb (snd item) (snd best)) eqn:E.
    + apply Qgtb_gt in E.
      destruct (IH item) as (pre & post & Heq & Hpre & Hpost).
      exists (best :: pre), post. split; [cbn; now rewrite <- Heq|].
      split; [|exact Hpost]. constructor; [|exact Hpre].
      destruct pre as [|p pre].
      * cbn in Heq. injection Heq as Hi _. now rewrite <- Hi.
      * cbn in Heq. injection Heq as Hi _. subst p.
        apply Forall_cons in Hpre as [Hp _]. now apply Qlt_trans with (snd item).
    + apply Qgtb_le in E.
      destruct (IH best) as (pre & post & Heq & Hpre & Hpost).
      destruct pre as [|p pre].
      * cbn in Heq. injection Heq as Hb Hrest.
        exists [], (item :: post). split; [cbn; now rewrite <- Hb, Hrest|].
        split; [constructor|]. constructor; [|exact Hpost].
        now rewrite <- Hb.
      * cbn in Heq. injection Heq as Hb Hrest. subst p.
        exists (best :: item :: pre), post.
        split; [cbn; do 2 f_equal; exact Hrest|]. split; [|exact Hpost].
        apply Forall_cons in Hpre as [Hp Hpre].
        constructor; [exact Hp|]. constructor; [|exact Hpre].
        eapply Qle_lt_trans; eassumption.
Qed.

(** X13. The selected family has the highest held-out accuracy, and among
    families of equal accuracy the one trained first is selected. No family
    is selected only when no family was scored. *)
Theorem best_model_is_first_maximum (model_scores : list (family * Q))
    (name : family) :
  best_model_name model_scores = Some name ->
  exists score pre post,
    model_scores = pre ++ (name, score) :: post /\
    Forall (fun item => snd item < score) pre /\
    Forall (fun item => snd item <= score) post.
Proof.
  destruct model_scores as [|item rest]; [discriminate|].
  cbn. intros H. injection H as <-.
  destruct (max_from_spec rest item) as (pre & post & Heq & Hpre & Hpost).
  destruct (max_from item rest) as [n s] eqn:E.
  exists s, pre, post. cbn in *. auto.
Qed.

Lemma best_model_is_first_maximum_witness :
  exists score pre post,
    [(random_forest, 55 # 100); (gradient_boosting, 60 # 100);
     (logistic_regression, 60 # 100)]
    = pre ++ (gradient_boosting, score) :: post /\
    Forall (fun item => snd item < score) pre.
Proof.
  destruct (best_model_is_first_maximum
              [(random_forest, 55 # 100); (gradient_boosting, 60 # 100);
               (logistic_regression, 60 # 100)] gradient_boosting eq_refl)
    as (score & pre & post & Heq & Hpre & _).
  exists score, pre, post. split; [exact Heq|exact Hpre].
Defined.

Section Training.

Variable Split : Type.
Variable train_test_split :
  list (list fval) -> list Z -> Q -> Z -> Result Split.
Variable fit_scaler : Split -> Result (list fval -> Result (list fval)).
Variable fit_and_score : family -> Split -> Z -> Result Fitted.

(** X14. Without clean rows [train_models] returns at once and leaves the
    predictor as it was; a failure of the split or of the scaler is not
    caught; and when the fit of every family fails the call still returns,
    with the selected model left as it was. *)
Theorem train_models_failures (self : Predictor) (X : list (list fval))
    (y : list Z) (test_size : Q) (random_state : Z) :
  (X = [] ->
     train_models Split train_test_split fit_scaler fit_and_score self X y
       test_size random_state = Ok self) /\
  (forall e, X <> [] ->
     train_test_split X y test_size random_state = Raise e ->
     train_models Split train_test_split fit_scaler fit_and_score self X y
       test_size random_state = Raise e) /\
  (forall split transform, X <> [] ->
     train_test_split X y test_size random_state = Ok split ->
     fit_scaler split = Ok transform ->
     (forall name, is_ok (fit_and_score name split random_state) = false) ->
     exists trained,
       train_models Split train_test_split fit_scaler fit_and_score self X y
         test_size random_state = Ok trained /\
       best trained = best self /\
       feature_importance trained = feature_importance self).
Proof.
  unfold train_models. split; [intros ->; reflexivity|]. split.
  - intros e Hne Hsplit. destruct X; [contradiction|].
    now rewrite Hsplit.
  - intros split transform Hne Hsplit Hscaler Hfail.
    destruct X; [contradiction|]. rewrite Hsplit. cbn [bind].
    rewrite Hscaler. cbn [bind]. eexists. split; [reflexivity|].
    unfold families. cbn [foldl]. unfold train_one.
    pose proof (Hfail random_forest) as H1.
    pose proof (Hfail gradient_boosting) as H2.
    pose proof (Hfail logistic_regression) as H3.
    destruct (fit_and_score random_forest split random_state);
      [discriminate|].
    destruct (fit_and_score gradient_boosting split random_state);
      [discriminate|].
    destruct (fit_and_score logistic_regression split random_state);
      [discriminate|].
    split; reflexivity.
Qed.

End Training.

Lemma train_models_failures_witness :
  train_models unit (fun _ _ _ _ => Raise "too few members of a class")
    (fun _ => Ok (fun X => Ok X)) (fun _ _ _ => Raise "unused")
    (example_predictor [] 1 (7 # 10)) [[Fin 1]] [1%Z] (2 # 10) 42
  = Raise "too few members of a class".
Proof.
  destruct (train_models_failures unit
              (fun _ _ _ _ => Raise "too few members of a class")
              (fun _ => Ok (fun X => Ok X)) (fun _ _ _ => Raise "unused")
              (example_predictor [] 1 (7 # 10)) [[Fin 1]] [1%Z] (2 # 10) 42)
    as (_ & H & _).
  apply H; [discriminate|reflexivity].
Defined.

End TrainingFacts.


Module SelectionFacts.

Import StockPredictor Training NumFacts Examples.

Section Training.

Variable Split : Type.
Variable train_test_split :
  list (list fval) -> list Z -> Q -> Z -> Result Split.
Variable fit_scaler : Split -> Result (list fval -> Result (list fval)).
Variable fit_and_score : family -> Split -> Z -> Result Fitted.

(** X15. The model that [train_models] selects on a fresh predictor is the
    fitted classifier of a family whose fit succeeded, and no family whose
    fit succeeded has a higher held-out accuracy; its feature importances
    are stored exactly when the classifier has them. *)
Theorem train_models_selects_best (self trained : Predictor)
    (X : list (list fval)) (y : list Z) (test_size : Q) (random_state : Z)
    (split : Split) (name : family) (m : Model) :
  best self = None ->
  train_test_split X y test_size random_state = Ok split ->
  train_models Split train_test_split fit_scaler fit_and_score self X y
    test_size random_state = Ok trained ->
  best trained = Some (name, m) ->
  exists f,
    fit_and_score name split random_state = Ok f /\
    fitted_model f = m /\
    (forall other g, fit_and_score other split random_state = Ok g ->
                     fitted_accuracy g <= fitted_accuracy f) /\
    (forall imp, fitted_importances f = Some imp ->
                 feature_importance trained !! family_name name = Some imp).
Proof.
  intros Hfresh Hsplit Htrain Hbest. unfold train_models in Htrain.
  destruct X as [|x X].
  { injection Htrain as <-. congruence. }
  rewrite Hsplit in Htrain. cbn [bind] in Htrain.
  destruct (fit_scaler split) as [transform|]; cbn [bind] in Htrain;
    [|discriminate].
  injection Htrain as <-. cbn [best feature_importance] in *.
  unfold families in Hbest |- *. cbn [foldl] in Hbest |- *.
  unfold train_one in Hbest |- *.
  destruct (fit_and_score random_forest split random_state) as [f1|] eqn:E1;
  destruct (fit_and_score gradient_boosting split random_state) as [f2|] eqn:E2;
  destruct (fit_and_score logistic_regression split random_state) as [f3|] eqn:E3;
    cbn in Hbest |- *;
    repeat match type of Hbest with
           | context [Qgtb ?a ?b] =>
             let E := fresh "Ecmp" in
             destruct (Qgtb a b) eqn:E;
             [apply Qgtb_gt in E|apply Qgtb_le in E]; cbn in Hbest
           end;
    try congruence;
    injection Hbest as <- <-;
    eexists; (split; [eassumption|]); (split; [reflexivity|]);
    (split;
     [ intros other g Hg; destruct other;
       rewrite ?E1, ?E2, ?E3 in Hg; try discriminate;
       injection Hg as <-; lra
     | intros imp Himp; rewrite ?Himp;
       repeat match goal with
              | |- context [match fitted_importances ?f with _ => _ end] =>
                destruct (fitted_importances f)
              end;
       repeat (rewrite lookup_insert_ne by discriminate);
       try (now rewrite lookup_insert_eq); congruence ]).
Qed.

End Training.

Lemma train_models_selects_best_witness :
  exists trained m f,
    train_models unit (fun _ _ _ _ => Ok tt) (fun _ => Ok (fun X => Ok X))
      example_fit (fresh_predictor []) [[Fin 1]] [1%Z] (2 # 10) 42
      = Ok trained /\
    best trained = Some (gradient_boosting, m) /\
    example_fit gradient_boosting tt 42 = Ok f /\
    fitted_model f = m.
Proof.
  eexists _, _.
  destruct (train_models_selects_best unit (fun _ _ _ _ => Ok tt)
              (fun _ => Ok (fun X => Ok X)) example_fit (fresh_predictor [])
              _ [[Fin 1]] [1%Z] (2 # 10) 42 tt gradient_boosting _
              eq_refl eq_refl eq_refl eq_refl) as (f & Hf & Hm & _).
  exists f. split; [reflexivity|]. split; [reflexivity|].
  split; [exact Hf|exact Hm].
Defined.

End SelectionFacts.

Module OrchestrationFacts.

Import StockPredictor AnalysisOrchestrator Examples.

Section Predictive.

Variable create_predictive_model : DataFrame -> Result Predictor.

(** X16. When training leaves the predictor without a selected model, the
    predictive section of the orchestrator is not an error: it is a result
    with the neutral default prediction, no feature importances, an empty
    backtest, the model name "unknown" and a feature count of 0. *)
Theorem untrained_predictor_is_not_an_error (data : DataFrame)
    (predictor : Predictor) :
  (100 <= Frame.len data)%nat ->
  create_predictive_model data = Ok predictor ->
  best predictor = None ->
  _perform_predictive_analysis create_predictive_model data
    = Value (mkPredictiveAnalysis default_prediction ∅ None "unknown" 0).
Proof.
  intros Hlen Hmodel Hbest.
  unfold _perform_predictive_analysis, predictive_analysis_try.
  apply Nat.ltb_ge in Hlen. rewrite Hlen.
  unfold train_and_analyse. rewrite Hmodel. cbn [bind].
  unfold analysis_of_predictor, predict_next_day, get_feature_importance,
    backtest_model.
  rewrite Hbest. reflexivity.
Qed.

End Predictive.

(** A history of 100 identical rows. *)
Lemma untrained_predictor_is_not_an_error_witness :
  _perform_predictive_analysis (fun _ => Ok (fresh_predictor []))
    (Frame.of_records (replicate 100 (mkPriceBar (mkDate 2024 1 2) 1 1 1 1 1 1)))
  = Value (mkPredictiveAnalysis default_prediction ∅ None "unknown" 0).
Proof.
  apply (untrained_predictor_is_not_an_error
           (fun _ => Ok (fresh_predictor []))
           (Frame.of_records
              (replicate 100 (mkPriceBar (mkDate 2024 1 2) 1 1 1 1 1 1)))
           (fresh_predictor [])).
  - unfold Frame.len. cbn [records Frame.of_records].
    rewrite length_replicate. lia.
  - reflexivity.
  - reflexivity.
Defined.

Lemma date_leb_total (a b : Date) : date_leb a b = true \/ date_leb b a = true.
Proof.
  unfold date_leb.
  destruct (Z.ltb_spec (year a) (year b)), (Z.ltb_spec (year b) (year a));
    auto; try lia.
  destruct (Nat.ltb_spec (month a) (month b)),
           (Nat.ltb_spec (month b) (month a)); auto; try lia.
  destruct (Nat.leb_spec (day a) (day b)), (Nat.leb_spec (day b) (day a));
    auto; lia.
Qed.

Lemma date_leb_trans (a b c : Date) :
  date_leb a b = true -> date_leb b c = true -> date_leb a c = true.
Proof.
  unfold date_leb.
  destruct (Z.ltb_spec (year a) (year b)), (Z.ltb_spec (year b) (year a)),
           (Z.ltb_spec (year b) (year c)), (Z.ltb_spec (year c) (year b)),
           (Z.ltb_spec (year a) (year c)), (Z.ltb_spec (year c) (year a));
    try lia; try congruence;
  destruct (Nat.ltb_spec (month a) (month b)),
           (Nat.ltb_spec (month b) (month a)),
           (Nat.ltb_spec (month b) (month c)),
           (Nat.ltb_spec (month c) (month b)),
           (Nat.ltb_spec (month a) (month c)),
           (Nat.ltb_spec (month c) (month a));
    try lia; try congruence;
  destruct (Nat.leb_spec (day a) (day b)), (Nat.leb_spec (day b) (day c)),
           (Nat.leb_spec (day a) (day c)); try lia; congruence.
Qed.

(** [index.min()] is a date of the index that no date of the index
    precedes. *)
Lemma index_min_spec (ds : list Date) :
  forall d,
    index_min d ds ∈ d :: ds /\
    forall x, x ∈ d :: ds -> date_leb (index_min d ds) x = true.
Proof.
  unfold index_min.
  induction ds as [|y ds IH]; intros d.
  - cbn. split; [now left|]. intros x Hx.
    apply list_elem_of_singleton in Hx as ->.
    destruct (date_leb_total d d); assumption.
  - cbn [foldl]. destruct (date_leb d y) eqn:E.
    + destruct (IH d) as [Hin Hle]. split.
      * apply elem_of_cons in Hin as [Hin|Hin]; [rewrite Hin; now left|].
        right. now right.
      * intros x Hx. apply elem_of_cons in Hx as [->|Hx]; [apply Hle; now left|].
        apply elem_of_cons in Hx as [->|Hx].
        -- eapply date_leb_trans; [|exact E]. apply Hle. now left.
        -- apply Hle. now right.
    + assert (E' : date_leb y d = true)
        by (destruct (date_leb_total d y); congruence).
      destruct (IH y) as [Hin Hle]. split.
      * now right.
      * intros x Hx. apply elem_of_cons in Hx as [->|Hx].
        -- eapply date_leb_trans; [|exact E']. apply Hle. now left.
        -- apply Hle. exact Hx.
Qed.

Lemma index_max_spec (ds : list Date) :
  forall d,
    index_max d ds ∈ d :: ds /\
    forall x, x ∈ d :: ds -> date_leb x (index_max d ds) = true.
Proof.
  unfold index_max.
  induction ds as [|y ds IH]; intros d.
  - cbn. split; [now left|]. intros x Hx.
    apply list_elem_of_singleton in Hx as ->.
    destruct (date_leb_total d d); assumption.
  - cbn [foldl]. destruct (date_leb d y) eqn:E.
    + destruct (IH y) as [Hin Hle]. split.
      * now right.
      * intros x Hx. apply elem_of_cons in Hx as [->|Hx].
        -- eapply date_leb_trans; [exact E|]. apply Hle. now left.
        -- apply Hle. exact Hx.
    + assert (E' : date_leb y d = true)
        by (destruct (date_leb_total d y); congruence).
      destruct (IH d) as [Hin Hle]. split.
      * apply elem_of_cons in Hin as [Hin|Hin]; [rewrite Hin; now left|].
        right. now right.
      * intros x Hx. apply elem_of_cons in Hx as [->|Hx]; [apply Hle; now left|].
        apply elem_of_cons in Hx as [->|Hx].
        -- eapply date_leb_trans; [exact E'|]. apply Hle. now left.
        -- apply Hle. now right.
Qed.

Section Comprehensive.

Variable sqrt : Q -> Q.
Variable ta : TechnicalIndicators.TaLibrary.
Variable SeasonalityReport : Type.
Variable get_comprehensive_seasonality_report :
  DataFrame -> Result SeasonalityReport.
Variable create_predictive_model : DataFrame -> Result Predictor.
Variable get_stock_data :
  string -> option Date -> option Date -> Result DataFrame.
Variable analysis_date : string.
Variable Summary : Type.
Variable _generate_analysis_summary :
  Keyed TechnicalAnalysis -> Keyed SeasonalityReport ->
  Keyed PredictiveAnalysis -> Summary.

(** X17. The comprehensive analysis never returns a merged result. It is an
    error dict for every ticker and date range: the message of the store
    when the store fails, the no-data message when the store has no rows
    for the ticker, and otherwise the failure of [date()] on the first date
    of the index, whatever the three analysis steps returned. *)
Theorem comprehensive_analysis_outcome (ticker : string)
    (start_date end_date : option Date) :
  let result :=
    get_comprehensive_analysis sqrt ta SeasonalityReport
      get_comprehensive_seasonality_report create_predictive_model
      get_stock_data analysis_date Summary _generate_analysis_summary
      ticker start_date end_date in
  match get_stock_data ticker start_date end_date with
  | Raise e => result = Error e
  | Ok stock_data =>
    match records stock_data with
    | [] => result = Error (no_data_found ticker)
    | _ :: _ =>
      result = Error "'datetime.date' object has no attribute 'date'"
    end
  end.
Proof.
  cbn zeta. unfold get_comprehensive_analysis.
  destruct (get_stock_data ticker start_date end_date) as [stock_data|e];
    cbn [bind catch]; [|reflexivity].
  destruct (records stock_data) as [|bar bars]; reflexivity.
Qed.

End Comprehensive.

End OrchestrationFacts.

Module BucketFacts.

Import SeasonalityAnalyzer SeasonalForecast PandasFacts NumFacts Examples.

Section Buckets.

Variable sqrt : Q -> Q.

(** The loop of [analyze_monthly_seasonality] over a list of months without
    repetition. *)
Lemma monthly_loop_lookup (rows : list Row) (months : list nat) :
  NoDup months ->
  forall (base : gmap nat MonthlyStats) (m : nat),
    foldl
      (fun monthly_stats m =>
         match month_rows m rows with
         | [] => monthly_stats
         | _ :: _ => <[m := month_stats sqrt m (month_rows m rows)]> monthly_stats
         end)
      base months !! m
    = if bool_decide (m ∈ months) then
        match month_rows m rows with
        | [] => base !! m
        | _ :: _ => Some (month_stats sqrt m (month_rows m rows))
        end
      else base !! m.
Proof.
  induction months as [|k months IH]; intros Hnd base m.
  - cbn. rewrite bool_decide_eq_false_2; [reflexivity|]. apply not_elem_of_nil.
  - apply NoDup_cons in Hnd as [Hk Hnd]. cbn [foldl]. rewrite IH by exact Hnd.
    destruct (decide (m = k)) as [->|Hne].
    + rewrite (bool_decide_eq_false_2 (k ∈ months)) by exact Hk.
      rewrite bool_decide_eq_true_2 by now left.
      destruct (month_rows k rows); [reflexivity|]. now rewrite lookup_insert_eq.
    + assert (Hbase :
        (match month_rows k rows with
         | [] => base
         | _ :: _ => <[k := month_stats sqrt k (month_rows k rows)]> base
         end) !! m = base !! m).
      { destruct (month_rows k rows); [reflexivity|].
        now rewrite lookup_insert_ne by congruence. }
      rewrite Hbase.
      destruct (decide (m ∈ months)) as [Hin|Hnin].
      * rewrite !bool_decide_eq_true_2; [reflexivity|now right|exact Hin].
      * rewrite !bool_decide_eq_false_2; [reflexivity| |exact Hnin].
        intros Hin. apply elem_of_cons in Hin as [?|?]; contradiction.
Qed.

(** The bucket of a month: present exactly when the month is one of 1 to 12
    and some row falls into it, and then computed from those rows. *)
Lemma monthly_lookup (rows : list Row) (m : nat) :
  analyze_monthly_seasonality sqrt rows !! m
  = if bool_decide (m ∈ seq 1 12) then
      match month_rows m rows with
      | [] => None
      | _ :: _ => Some (month_stats sqrt m (month_rows m rows))
      end
    else None.
Proof.
  unfold analyze_monthly_seasonality. destruct rows as [|r rows].
  - rewrite lookup_empty. now destruct (bool_decide (m ∈ seq 1 12)).
  - set (rs := r :: rows).
    pose proof (monthly_loop_lookup rs (seq 1 12) (NoDup_seq 1 12) ∅ m) as H.
    rewrite lookup_empty in H. unfold month_rows in H. exact H.
Qed.

Lemma month_items_total (rows : list Row) (months : list nat) :
  Forall (fun m => m ∈ seq 1 12) months ->
  sum_list_with (fun item => total_days (snd item))
    (omap (fun m => pair m <$> analyze_monthly_seasonality sqrt rows !! m)
          months)
  = sum_list_with (fun m => length (month_rows m rows)) months.
Proof.
  induction months as [|m months IH]; intros Hin; [reflexivity|].
  apply Forall_cons in Hin as [Hm Hin]. simpl.
  rewrite monthly_lookup, bool_decide_eq_true_2 by exact Hm.
  destruct (month_rows m rows) eqn:E; simpl.
  - now apply IH.
  - do 2 f_equal. now apply IH.
Qed.

Lemma count_by_key (rows : list Row) (keys : list nat) :
  NoDup keys ->
  sum_list_with (fun m => length (month_rows m rows)) keys
  = length (filter (fun r => month (row_date r) ∈ keys) rows).
Proof.
  intros Hnd. induction rows as [|r rows IH].
  - cbn. induction keys; cbn; [reflexivity|].
    apply NoDup_cons in Hnd as [_ Hnd]. now rewrite IHkeys.
  - assert (Hstep : sum_list_with (fun m => length (month_rows m (r :: rows))) keys
              = ((if bool_decide (month (row_date r) ∈ keys) then 1 else 0)
                 + sum_list_with (fun m => length (month_rows m rows)) keys)%nat).
    { clear IH. induction keys as [|k keys IHk]; [reflexivity|].
      apply NoDup_cons in Hnd as [Hk Hnd]. cbn [sum_list_with].
      rewrite (IHk Hnd). unfold month_rows at 1. rewrite filter_cons.
      fold (month_rows k rows).
      destruct (decide (month (row_date r) = k)) as [E|E].
      - rewrite (bool_decide_eq_true_2 (month (row_date r) ∈ k :: keys))
          by (rewrite E; now left).
        rewrite (bool_decide_eq_false_2 (month (row_date r) ∈ keys))
          by (rewrite E; exact Hk).
        cbn [length]. lia.
      - destruct (decide (month (row_date r) ∈ keys)) as [Hin|Hnin].
        + rewrite (bool_decide_eq_true_2 (month (row_date r) ∈ k :: keys))
            by now right.
          rewrite (bool_decide_eq_true_2 (month (row_date r) ∈ keys))
            by exact Hin.
          lia.
        + rewrite (bool_decide_eq_false_2 (month (row_date r) ∈ k :: keys)).
          * rewrite (bool_decide_eq_false_2 (month (row_date r) ∈ keys))
              by exact Hnin.
            lia.
          * intros Hin. apply elem_of_cons in Hin as [?|?]; contradiction. }
    rewrite Hstep, IH, filter_cons.
    destruct (decide (month (row_date r) ∈ keys)) as [Hin|Hnin].
    + rewrite bool_decide_eq_true_2 by exact Hin. reflexivity.
    + rewrite bool_decide_eq_false_2 by exact Hnin. reflexivity.
Qed.

Lemma filter_all {A} (P : A -> Prop) `{forall x, Decision (P x)}
    (l : list A) :
  Forall P l -> filter P l = l.
Proof.
  induction l as [|x l IH]; intros Hl; [reflexivity|].
  apply Forall_cons in Hl as [Hx Hl].
  rewrite filter_cons_True by exact Hx. f_equal. now apply IH.
Qed.

Lemma length_shift (n : nat) (s : list fval) : length (shift n s) = length s.
Proof.
  unfold shift. rewrite length_take, length_app, length_replicate. lia.
Qed.

Lemma length_pct_change (n : nat) (s : list fval) :
  length (pct_change n s) = length s.
Proof.
  unfold pct_change.
  rewrite length_map, length_zip_with, length_shift. lia.
Qed.

Lemma zip_rows_dates (bars : list PriceBar) :
  forall rs : list fval,
    length rs = length bars ->
    map row_date
      (zip_with (fun b r => mkRow (date b) (Fin (close b)) (Fin (volume b)) r)
         bars rs)
    = map date bars.
Proof.
  induction bars as [|b bars IH]; intros rs Hrs; [reflexivity|].
  destruct rs as [|x rs]; [discriminate|]. cbn. f_equal.
  apply IH. cbn in Hrs. lia.
Qed.

(** The rows of the analyzer carry the dates of the history, in order. *)
Lemma init_dates (bars : list PriceBar) :
  map row_date (init bars) = map date bars.
Proof.
  unfold init, prepare_data. apply zip_rows_dates.
  now rewrite length_pct_change, length_map.
Qed.

(** X19. The monthly buckets partition the rows of the history: the
    [total_days] of all buckets add up to the number of rows, the first row
    with its undefined return included. A bucket exists exactly for the
    months that occur, and its [total_days] is the number of rows of its
    month. *)
Theorem monthly_buckets_partition (bars : list PriceBar) :
  Forall (fun b => (1 <= month (date b) <= 12)%nat) bars ->
  let monthly_stats := analyze_monthly_seasonality sqrt (init bars) in
  sum_list_with (fun item => total_days (snd item)) (month_items monthly_stats)
    = length bars /\
  (forall m, is_Some (monthly_stats !! m) <->
             exists b, b ∈ bars /\ month (date b) = m) /\
  (forall m st, monthly_stats !! m = Some st ->
     total_days st
     = length (filter (fun b => month (date b) = m) bars)).
Proof.
  intros Hmonths monthly_stats.
  pose proof (init_dates bars) as Hdates'.
  assert (Hcount : forall (P : nat -> Prop) `{forall n, Decision (P n)},
            length (filter (fun r => P (month (row_date r))) (init bars))
            = length (filter (fun b => P (month (date b))) bars)).
  { intros P HP. revert Hdates'. generalize (init bars). intros rows.
    revert rows. clear -bars. induction bars as [|b bars IH]; intros rows Hd.
    - destruct rows; [reflexivity|discriminate].
    - destruct rows as [|r rows]; [discriminate|]. cbn in Hd.
      injection Hd as Hr Hd. rewrite !filter_cons, Hr.
      destruct (decide (P (month (date b)))); cbn; rewrite (IH rows Hd);
        reflexivity. }
  split; [|split].
  - unfold month_items, monthly_stats.
    rewrite month_items_total by (apply Forall_forall; auto).
    rewrite count_by_key by apply NoDup_seq.
    pose proof (Hcount (fun n => n ∈ seq 1 12) _) as Hc12.
    etransitivity; [exact Hc12|].
    f_equal. apply filter_all.
    eapply Forall_impl; [exact Hmonths|]. intros b Hb. cbn beta in Hb.
    apply elem_of_seq. lia.
  - intros m. unfold monthly_stats. rewrite monthly_lookup.
    split.
    + intros [st Hst].
      destruct (decide (m ∈ seq 1 12)) as [Hin|Hnin];
        [rewrite bool_decide_eq_true_2 in Hst by exact Hin
        |rewrite bool_decide_eq_false_2 in Hst by exact Hnin; discriminate].
      assert (Hc : length (month_rows m (init bars))
                   = length (filter (fun b => month (date b) = m) bars))
        by exact (Hcount (fun n => n = m) _).
      destruct (month_rows m (init bars)) as [|r rs]; [discriminate|].
      cbn [length] in Hc.
      destruct (filter (fun b => month (date b) = m) bars) as [|b bs] eqn:E;
        [try rewrite E in Hc; cbn in Hc; discriminate|].
      exists b.
      assert (Hb : b ∈ filter (fun b => month (date b) = m) bars)
        by (rewrite E; now left).
      apply list_elem_of_filter in Hb as [? ?]. auto.
    + intros (b & Hb & Hm).
      assert (Hin : m ∈ seq 1 12).
      { rewrite Forall_forall in Hmonths. specialize (Hmonths b Hb).
        apply elem_of_seq. lia. }
      rewrite bool_decide_eq_true_2 by exact Hin.
      assert (Hc : length (month_rows m (init bars))
                   = length (filter (fun b => month (date b) = m) bars))
        by exact (Hcount (fun n => n = m) _).
      destruct (month_rows m (init bars)) as [|r rs]; [|eauto].
      exfalso. cbn [length] in Hc.
      assert (Hbf : b ∈ filter (fun b => month (date b) = m) bars)
        by (apply list_elem_of_filter; auto).
      destruct (filter (fun b => month (date b) = m) bars) eqn:E;
        [now apply elem_of_nil in Hbf
        |try rewrite E in Hc; cbn in Hc; discriminate].
  - intros m st Hst. unfold monthly_stats in Hst. rewrite monthly_lookup in Hst.
    destruct (bool_decide (m ∈ seq 1 12)); [|discriminate].
    assert (Hc : length (month_rows m (init bars))
                   = length (filter (fun b => month (date b) = m) bars))
        by exact (Hcount (fun n => n = m) _).
    destruct (month_rows m (init bars)) as [|r rs] eqn:E; [discriminate|].
    injection Hst as <-. cbn [total_days month_stats]. exact Hc.
Qed.

End Buckets.

Lemma monthly_buckets_partition_witness :
  sum_list_with (fun item => total_days (snd item))
    (month_items (analyze_monthly_seasonality newton_sqrt
                    (init two_january_bars)))
  = 2%nat.
Proof.
  apply (monthly_buckets_partition newton_sqrt two_january_bars).
  repeat constructor; cbn; lia.
Defined.

End BucketFacts.

Module MonthEndFacts.

Import SeasonalityAnalyzer SeasonalForecast PandasFacts NumFacts Examples.

Lemma zip_rows_returns (bars : list PriceBar) :
  forall rs : list fval,
    length rs = length bars ->
    map Daily_Return
      (zip_with (fun b r => mkRow (date b) (Fin (close b)) (Fin (volume b)) r)
         bars rs)
    = rs.
Proof.
  induction bars as [|b bars IH]; intros rs Hrs.
  - now destruct rs.
  - destruct rs as [|x rs]; [discriminate|]. cbn. f_equal.
    apply IH. cbn in Hrs. lia.
Qed.

(** The column Daily_Return of the analyzer is the percent change of the
    closes. *)
Lemma init_returns (bars : list PriceBar) :
  map Daily_Return (init bars)
  = pct_change 1 (map (fun b => Fin (close b)) bars).
Proof.
  unfold init, prepare_data. apply zip_rows_returns.
  now rewrite BucketFacts.length_pct_change, length_map.
Qed.

(** After a close that is not zero, every percent change is a number. *)
Lemma ratios_defined (qs : list Q) :
  forall p : Q,
    ~ p == 0 ->
    Forall (fun q => ~ q == 0) qs ->
    dropna (map (fun x => fsub x (Fin 1))
              (zip_with fdiv (map Fin qs)
                 (take (length qs) (Fin p :: map Fin qs))))
    = map (fun x => fsub x (Fin 1))
        (zip_with fdiv (map Fin qs) (take (length qs) (Fin p :: map Fin qs))).
Proof.
  induction qs as [|q qs IH]; intros p Hp Hqs; [reflexivity|].
  apply Forall_cons in Hqs as [Hq Hqs].
  cbn [length map take zip_with]. unfold dropna. rewrite filter_cons.
  assert (Hnz : Qeq_bool p 0 = false).
  { destruct (Qeq_bool p 0) eqn:E; [|reflexivity].
    apply Qeq_bool_iff in E. contradiction. }
  cbn [fdiv]. rewrite Hnz. cbn [fsub fneg fadd isnan].
  rewrite decide_True by reflexivity. f_equal. now apply IH.
Qed.

(** The first row has no return; with closes that are never zero every later
    row has one. *)
Lemma defined_returns (bars : list PriceBar) :
  Forall (fun b => ~ close b == 0) bars ->
  length (dropna (map Daily_Return (init bars))) = (length bars - 1)%nat.
Proof.
  intros Hbars. rewrite init_returns.
  destruct bars as [|b bars]; [reflexivity|].
  apply Forall_cons in Hbars as [Hb Hbars].
  unfold pct_change, shift.
  cbn [map length replicate app take zip_with].
  unfold dropna at 1. rewrite filter_cons.
  cbn [fdiv fsub fneg fadd isnan].
  rewrite decide_False by discriminate.
  rewrite length_map.
  assert (Hcl : map (fun b => Fin (close b)) bars = map Fin (map close bars))
    by (now rewrite map_map).
  rewrite Hcl.
  replace (length bars) with (length (map close bars)) at 1
    by apply length_map.
  fold (dropna (map (fun x => fsub x (Fin 1))
                 (zip_with fdiv (map Fin (map close bars))
                    (take (length (map close bars))
                       (Fin (close b) :: map Fin (map close bars)))))).
  rewrite ratios_defined.
  - rewrite length_map, length_zip_with, !length_map, length_take.
    cbn [length]. rewrite !length_map. lia.
  - exact Hb.
  - apply Forall_map. exact Hbars.
Qed.

(** Splitting the rows by a test and dropping the missing returns of each
    part loses no defined return. *)
Lemma dropna_split (f : Row -> bool) (rows : list Row) :
  (length (dropna (map Daily_Return (filter (fun r => f r = true) rows)))
   + length (dropna (map Daily_Return (filter (fun r => f r = false) rows))))%nat
  = length (dropna (map Daily_Return rows)).
Proof.
  induction rows as [|r rows IH]; [reflexivity|].
  rewrite !filter_cons. cbn [map]. unfold dropna in *. rewrite filter_cons.
  destruct (f r) eqn:E.
  - rewrite decide_True by reflexivity. rewrite decide_False by discriminate.
    cbn [map]. rewrite filter_cons.
    destruct (decide (isnan (Daily_Return r) = false)); cbn [length]; lia.
  - rewrite decide_False by discriminate. rewrite decide_True by reflexivity.
    cbn [map]. rewrite filter_cons.
    destruct (decide (isnan (Daily_Return r) = false)); cbn [length]; lia.
Qed.

Lemma count_gt0_le (s : Series) : (count_gt0 s <= length s)%nat.
Proof. unfold count_gt0. apply length_filter. Qed.

Section MonthEnd.

Variable sqrt : Q -> Q.

(** X20. The month-end analysis splits the days with a defined return into the
    last three calendar days of their month and the others: on a history
    whose closes are never zero the two [total_days] add up to one less than
    the number of rows, since the first row has no return and is dropped.
    The positive days of each group are among its days. *)
Theorem month_end_groups_partition (bars : list PriceBar) :
  bars <> [] ->
  Forall (fun b => ~ close b == 0) bars ->
  exists month_end other_days,
    analyze_month_end_effect sqrt (init bars) = Some (month_end, other_days) /\
    (e_total_days month_end + e_total_days other_days = length bars - 1)%nat /\
    (e_positive_days month_end <= e_total_days month_end)%nat /\
    (e_positive_days other_days <= e_total_days other_days)%nat.
Proof.
  intros Hne Hbars.
  pose proof (defined_returns bars Hbars) as Hlen.
  pose proof (BucketFacts.init_dates bars) as Hdates.
  unfold analyze_month_end_effect.
  destruct (init bars) as [|r rows] eqn:E.
  { destruct bars; [contradiction|discriminate]. }
  eexists _, _. split; [reflexivity|].
  cbn [e_total_days e_positive_days effect_stats].
  split; [|split; apply count_gt0_le].
  rewrite <- Hlen.
  apply (dropna_split
           (fun r => (days_in_month (year (row_date r)) (month (row_date r)) - 2
                      <=? day (row_date r))%nat)).
Qed.

End MonthEnd.

Lemma month_end_groups_partition_witness :
  exists month_end other_days,
    analyze_month_end_effect newton_sqrt (init three_bars)
    = Some (month_end, other_days) /\
    (e_total_days month_end + e_total_days other_days = 2)%nat /\
    (e_positive_days month_end <= e_total_days month_end)%nat /\
    (e_positive_days other_days <= e_total_days other_days)%nat.
Proof.
  apply (month_end_groups_partition newton_sqrt three_bars).
  - discriminate.
  - repeat constructor; vm_compute; discriminate.
Defined.

End MonthEndFacts.

Module StrengthFacts.

Import SeasonalityAnalyzer SeasonalForecast PandasFacts NumFacts Examples.

Lemma fadd_nan_r (x : fval) : fadd x NaN = NaN.
Proof. now destruct x. Qed.

Lemma fold_fadd_nan (l : list fval) : fold_left fadd l NaN = NaN.
Proof. induction l as [|x l IH]; [reflexivity|]. exact IH. Qed.

(** A sum with a missing term is missing. *)
Lemma fsum_nan (l : list fval) : NaN ∈ l -> fsum l = NaN.
Proof.
  unfold fsum. generalize (Fin 0). induction l as [|x l IH]; intros a Hin.
  - now apply elem_of_nil in Hin.
  - apply elem_of_cons in Hin as [<-|Hin].
    + cbn [fold_left]. rewrite fadd_nan_r. apply fold_fadd_nan.
    + cbn [fold_left]. now apply IH.
Qed.

Lemma fmean_nan (l : list fval) : NaN ∈ l -> fmean l = NaN.
Proof. intros Hin. unfold fmean. now rewrite fsum_nan. Qed.

Section Strength.

Variable sqrt : Q -> Q.

(** [np.std] does not skip a missing value. *)
Lemma np_std_nan (l : list fval) : NaN ∈ l -> np_std sqrt l = NaN.
Proof.
  intros Hin. unfold np_std. rewrite (fmean_nan l Hin).
  rewrite fmean_nan; [reflexivity|].
  apply list_elem_of_fmap. exists NaN. split; [reflexivity|exact Hin].
Qed.

(** One month whose average return is missing makes the strength "none",
    whatever the other months show. *)
Lemma strength_of_missing_average (monthly_stats : gmap nat MonthlyStats)
    (m : nat) (st : MonthlyStats) :
  (m, st) ∈ month_items monthly_stats ->
  avg_return st = NaN ->
  _calculate_seasonality_strength sqrt monthly_stats = none.
Proof.
  intros Hin Hnan. unfold _calculate_seasonality_strength.
  destruct (month_items monthly_stats) as [|item items] eqn:E.
  - now apply elem_of_nil in Hin.
  - rewrite np_std_nan; [reflexivity|].
    rewrite map_fmap. apply list_elem_of_fmap. exists (m, st).
    split; [cbn; now rewrite Hnan|exact Hin].
Qed.

(** The first row of the analyzer has the date of the first bar and no
    return; the other rows have the dates of the other bars. *)
Lemma init_first_row (b : PriceBar) (bars : list PriceBar) :
  exists r rows,
    init (b :: bars) = r :: rows /\
    row_date r = date b /\ Daily_Return r = NaN /\
    map row_date rows = map date bars.
Proof.
  pose proof (BucketFacts.init_dates (b :: bars)) as Hd.
  pose proof (MonthEndFacts.init_returns (b :: bars)) as Hr.
  destruct (init (b :: bars)) as [|r rows]; [discriminate|].
  exists r, rows. cbn in Hd. injection Hd as Hd0 Hd.
  unfold pct_change, shift in Hr.
  cbn [map length replicate app take zip_with] in Hr.
  injection Hr as Hr0 _.
  repeat split; assumption.
Qed.

Lemma no_row_of_month (m : nat) (bars : list PriceBar) :
  Forall (fun b => month (date b) <> m) bars ->
  forall rows : list Row,
    map row_date rows = map date bars ->
    month_rows m rows = [].
Proof.
  induction 1 as [|b bars Hb Hbars IH]; intros rows Hd.
  - now destruct rows.
  - destruct rows as [|r rows]; [discriminate|].
    cbn in Hd. injection Hd as Hr Hd.
    unfold month_rows. rewrite filter_cons, decide_False by now rewrite Hr.
    now apply IH.
Qed.

(** The bucket of the month of the first bar, when no other bar has its
    month number: one day, with no average return. *)
Lemma lone_first_day_bucket (b : PriceBar) (bars : list PriceBar) :
  (1 <= month (date b) <= 12)%nat ->
  Forall (fun b' => month (date b') <> month (date b)) bars ->
  exists st,
    analyze_monthly_seasonality sqrt (init (b :: bars)) !! month (date b)
    = Some st /\
    avg_return st = NaN /\ SeasonalityAnalyzer.total_days st = 1%nat.
Proof.
  intros Hm Hbars.
  destruct (init_first_row b bars) as (r & rows & Hinit & Hdate & Hret & Hd).
  rewrite BucketFacts.monthly_lookup, Hinit.
  rewrite bool_decide_eq_true_2 by (apply elem_of_seq; lia).
  assert (Hrows : month_rows (month (date b)) (r :: rows) = [r]).
  { unfold month_rows. rewrite filter_cons, decide_True by now rewrite Hdate.
    f_equal. now apply (no_row_of_month _ bars). }
  rewrite Hrows. eexists. split; [reflexivity|].
  cbn [avg_return SeasonalityAnalyzer.total_days month_stats map length].
  rewrite Hret. split; reflexivity.
Qed.

(** X21. When no other row of the history has the month number of its first
    day, in whatever year, the seasonality strength is "none": the first day
    has no return, so the average return of the bucket of its month is
    missing, and the standard deviation of the monthly averages with it.
    (The buckets pool a month over all years: a row of the same month in
    another year gives the bucket a return.) *)
Theorem lone_first_day_hides_seasonality (b : PriceBar)
    (bars : list PriceBar) :
  (1 <= month (date b) <= 12)%nat ->
  Forall (fun b' => month (date b') <> month (date b)) bars ->
  _calculate_seasonality_strength sqrt
    (analyze_monthly_seasonality sqrt (init (b :: bars))) = none.
Proof.
  intros Hm Hbars.
  destruct (lone_first_day_bucket b bars Hm Hbars) as (st & Hst & Hnan & _).
  apply (strength_of_missing_average _ (month (date b)) st); [|exact Hnan].
  unfold month_items. apply list_elem_of_omap.
  exists (month (date b)). split; [apply elem_of_seq; lia|].
  now rewrite Hst.
Qed.

Lemma max_from_nan (m : nat) (rest : list (nat * fval)) :
  max_from (m, NaN) rest = (m, NaN).
Proof.
  induction rest as [|item rest IH]; [reflexivity|].
  cbn [max_from]. replace (fgt (snd item) (snd (m, NaN))) with false
    by (cbn; now destruct (snd item)).
  exact IH.
Qed.

Lemma min_from_nan (m : nat) (rest : list (nat * fval)) :
  min_from (m, NaN) rest = (m, NaN).
Proof.
  induction rest as [|item rest IH]; [reflexivity|].
  cbn [min_from]. replace (flt (snd item) (snd (m, NaN))) with false
    by reflexivity.
  exact IH.
Qed.

Lemma seq_split (a n k : nat) :
  (k < n)%nat ->
  seq a n = seq a k ++ (a + k)%nat :: seq (S (a + k)) (n - S k).
Proof.
  intros Hk. pose proof (seq_app k (S (n - S k)) a) as H.
  replace (k + S (n - S k))%nat with n in H by lia. exact H.
Qed.

Lemma omap_none {A B} (f : A -> option B) (l : list A) :
  Forall (fun x => f x = None) l -> omap f l = [].
Proof.
  induction 1 as [|x l Hx Hl IH]; [reflexivity|]. cbn. now rewrite Hx.
Qed.

(** X22. When the first day of the history is alone in its month and every other
    day falls into a later month of the year, that month is reported both as
    the best and as the worst month, with a missing average: no comparison
    with a missing value replaces the first candidate. *)
Theorem lone_first_day_is_best_and_worst_month (b : PriceBar)
    (bars : list PriceBar) :
  (1 <= month (date b) <= 12)%nat ->
  Forall (fun b' => (month (date b) < month (date b'))%nat) bars ->
  let monthly_stats := analyze_monthly_seasonality sqrt (init (b :: bars)) in
  best_month monthly_stats = Some (month (date b), NaN) /\
  worst_month monthly_stats = Some (month (date b), NaN).
Proof.
  intros Hm Hbars monthly_stats.
  assert (Hne : Forall (fun b' => month (date b') <> month (date b)) bars)
    by (eapply Forall_impl; [exact Hbars|]; cbn; intros; lia).
  destruct (lone_first_day_bucket b bars Hm Hne) as (st & Hst & Hnan & _).
  destruct (init_first_row b bars) as (r & rows & Hinit & Hdate & Hret & Hd).
  set (m := month (date b)) in *.
  assert (Hitems : exists rest,
            month_returns monthly_stats = (m, NaN) :: rest).
  { unfold month_returns, month_items.
    rewrite (seq_split 1 12 (m - 1)) by lia.
    replace (1 + (m - 1))%nat with m by lia.
    rewrite omap_app. rewrite omap_none.
    - rewrite app_nil_l. simpl. fold monthly_stats in Hst. rewrite Hst.
      change (pair m <$> Some st) with (Some (m, st)).
      cbn [map fst snd]. rewrite Hnan. eexists. reflexivity.
    - apply Forall_forall. intros k Hk. apply elem_of_seq in Hk.
      unfold monthly_stats.
      rewrite BucketFacts.monthly_lookup, Hinit.
      destruct (bool_decide (k ∈ seq 1 12)); [|reflexivity].
      unfold month_rows. rewrite filter_cons.
      rewrite decide_False by (rewrite Hdate; fold m; lia).
      fold (month_rows k rows).
      rewrite (no_row_of_month k bars); [reflexivity| |exact Hd].
      eapply Forall_impl; [exact Hbars|]. cbn. intros; lia. }
  destruct Hitems as [rest Hitems].
  unfold best_month, worst_month. rewrite Hitems.
  now rewrite max_from_nan, min_from_nan.
Qed.

End Strength.

Lemma lone_first_day_hides_seasonality_witness :
  _calculate_seasonality_strength newton_sqrt
    (analyze_monthly_seasonality newton_sqrt (init january_then_february))
  = none.
Proof.
  apply (lone_first_day_hides_seasonality newton_sqrt
           (mkPriceBar (mkDate 2024 1 31) 99 101 98 100 100 1000)
           [mkPriceBar (mkDate 2024 2 1) 100 111 100 110 110 1200;
            mkPriceBar (mkDate 2024 2 2) 110 112 98 99 99 900]).
  - cbn. lia.
  - repeat constructor; cbn; lia.
Defined.

Lemma lone_first_day_is_best_and_worst_month_witness :
  best_month
    (analyze_monthly_seasonality newton_sqrt (init january_then_february))
  = Some (1%nat, NaN) /\
  worst_month
    (analyze_monthly_seasonality newton_sqrt (init january_then_february))
  = Some (1%nat, NaN).
Proof.
  apply (lone_first_day_is_best_and_worst_month newton_sqrt
           (mkPriceBar (mkDate 2024 1 31) 99 101 98 100 100 1000)
           [mkPriceBar (mkDate 2024 2 1) 100 111 100 110 110 1200;
            mkPriceBar (mkDate 2024 2 2) 110 112 98 99 99 900]).
  - cbn. lia.
  - repeat constructor; cbn; lia.
Defined.

End StrengthFacts.

Module OutlookFacts.

Import StockPredictor AnalysisOrchestrator AnalysisSummary Examples.

Ltac split_ifs_in H :=
  repeat match type of H with
         | context [if ?c then _ else _] => destruct c
         end.

Ltac split_ifs :=
  repeat match goal with
         | |- context [if ?c then _ else _] => destruct c
         end.

(** The RSI step leaves the sentiment and the confidence alone and adds at
    most one recommendation. *)
Lemma rsi_step_keeps (ti : gmap string (option fval)) (s : Summary) :
  overall_sentiment (rsi_step ti s) = overall_sentiment s /\
  summary_confidence (rsi_step ti s) = summary_confidence s /\
  exists extra,
    recommendations (rsi_step ti s) = recommendations s ++ extra /\
    (length extra <= 1)%nat.
Proof.
  unfold rsi_step.
  destruct (ti !! "rsi") as [[rsi|]|]; split_ifs;
    (split; [reflexivity|split; [reflexivity|]]);
    first [ exists []; split; [now rewrite app_nil_r|cbn; lia]
          | eexists [_]; split; [reflexivity|cbn; lia] ].
Qed.

Lemma moving_average_step_keeps (ti : gmap string (option fval))
    (s s' : Summary) :
  moving_average_step ti s = Ok s' ->
  summary_confidence s' = summary_confidence s /\
  recommendations s' = recommendations s.
Proof.
  unfold moving_average_step.
  destruct (ti !! "price_vs_ma20") as [[v|]|]; cbn [bind]; intros H;
    try discriminate H; split_ifs_in H; injection H as <-;
    split; reflexivity.
Qed.

Lemma technical_step_keeps (technical_analysis : Keyed TechnicalAnalysis)
    (s s' : Summary) :
  technical_step technical_analysis s = Ok s' ->
  summary_confidence s' = summary_confidence s /\
  exists extra,
    recommendations s' = recommendations s ++ extra /\
    (length extra <= 1)%nat.
Proof.
  unfold technical_step.
  set (ti := match technical_analysis with
             | Value t => current_indicators t
             | Error _ => ∅
             end).
  destruct (bool_decide (dom ti = ∅)); intros H.
  - injection H as <-. split; [reflexivity|].
    exists []. split; [now rewrite app_nil_r|cbn; lia].
  - apply moving_average_step_keeps in H as [Hc Hr].
    destruct (rsi_step_keeps ti s) as (_ & Hc' & extra & Hre & Hlen).
    split; [congruence|]. exists extra. split; [congruence|exact Hlen].
Qed.

Lemma seasonality_step_keeps (current_month : nat)
    (seasonality_analysis : SeasonalitySection) (s : Summary) :
  summary_confidence (seasonality_step current_month seasonality_analysis s)
  = summary_confidence s /\
  recommendations (seasonality_step current_month seasonality_analysis s)
  = recommendations s.
Proof.
  unfold seasonality_step.
  destruct seasonality_analysis as [[ss|]|]; try (split; reflexivity).
  cbv zeta. split_ifs; destruct (seasonality_strength ss);
    split; reflexivity.
Qed.

Lemma prediction_step_keeps (predictive_analysis : Keyed PredictiveAnalysis)
    (s : Summary) :
  recommendations (prediction_step predictive_analysis s) = recommendations s /\
  summary_confidence (prediction_step predictive_analysis s)
  = match predictive_analysis with
    | Value p =>
      match confidence (next_day_prediction p) with
      | medium => summary_confidence s
      | c => c
      end
    | Error _ => summary_confidence s
    end.
Proof.
  unfold prediction_step.
  destruct predictive_analysis as [p|]; [|split; reflexivity].
  cbv zeta.
  destruct (prediction (next_day_prediction p)),
           (confidence (next_day_prediction p));
    split_ifs; split; reflexivity.
Qed.

(** A sentiment that is not neutral is changed neither by the seasonality
    nor by the prediction. *)
Lemma seasonality_step_sentiment (current_month : nat)
    (seasonality_analysis : SeasonalitySection) (s : Summary) :
  is_neutral (overall_sentiment s) = false ->
  overall_sentiment (seasonality_step current_month seasonality_analysis s)
  = overall_sentiment s.
Proof.
  intros Hs. unfold seasonality_step.
  destruct seasonality_analysis as [[ss|]|]; try reflexivity.
  cbv zeta. cbn [overall_sentiment add_insight]. rewrite Hs.
  split_ifs; destruct (seasonality_strength ss); reflexivity.
Qed.

Lemma prediction_step_sentiment (predictive_analysis : Keyed PredictiveAnalysis)
    (s : Summary) :
  is_neutral (overall_sentiment s) = false ->
  overall_sentiment (prediction_step predictive_analysis s)
  = overall_sentiment s.
Proof.
  intros Hs. unfold prediction_step.
  destruct predictive_analysis as [p|]; [|reflexivity].
  cbv zeta. rewrite Hs.
  destruct (prediction (next_day_prediction p)),
           (confidence (next_day_prediction p)); reflexivity.
Qed.

Lemma indicators_not_empty (ti : gmap string (option fval)) (key : string)
    (x : option fval) :
  ti !! key = Some x -> bool_decide (dom ti = ∅) = false.
Proof.
  intros Hx. apply bool_decide_eq_false_2. intros Hd.
  assert (Hin : key ∈ dom ti) by (apply elem_of_dom; eauto).
  rewrite Hd in Hin. now apply not_elem_of_empty in Hin.
Qed.

(** The technical step raises only on a distance stored as [None]. *)
Lemma technical_step_ok (technical_analysis : Keyed TechnicalAnalysis)
    (s : Summary) :
  (forall t, technical_analysis = Value t ->
             current_indicators t !! "price_vs_ma20" <> Some None) ->
  exists s', technical_step technical_analysis s = Ok s'.
Proof.
  intros Hd. unfold technical_step.
  destruct technical_analysis as [t|msg].
  - specialize (Hd t eq_refl).
    destruct (bool_decide (dom (current_indicators t) = ∅)); [eauto|].
    unfold moving_average_step.
    destruct (current_indicators t !! "price_vs_ma20") as [[v|]|];
      [|contradiction|]; cbn [bind]; split_ifs; eauto.
  - destruct (bool_decide (dom (∅ : gmap string (option fval)) = ∅)) eqn:E;
      [eauto|].
    apply bool_decide_eq_false_1 in E. exfalso. apply E. apply dom_empty_L.
Qed.

(** The technical summary of the indicator engine stores a float as the
    distance from the 20-day average whenever it has entries at all. *)
Lemma engine_distance_is_a_float (ta : TechnicalIndicators.TaLibrary)
    (self_data : DataFrame) (indicators : gmap string (option fval)) :
  TechnicalIndicators.get_technical_summary ta self_data = Ok indicators ->
  indicators !! "price_vs_ma20" <> Some None.
Proof.
  intros Hs. unfold TechnicalIndicators.get_technical_summary in Hs.
  destruct (Frame.is_empty self_data).
  { injection Hs as <-. now rewrite lookup_empty. }
  repeat match type of Hs with
         | bind ?c _ = Ok _ =>
           let x := fresh "x" in
           destruct c as [x|]; cbn [bind] in Hs; [|discriminate Hs]
         | (let '(_, _) := ?p in _) = Ok _ => destruct p
         end.
  apply (f_equal (fun c => match c with Ok x => x | Raise _ => ∅ end)) in Hs.
  subst indicators. cbn [list_to_map foldr fst snd].
  repeat (rewrite lookup_insert_ne by discriminate).
  rewrite lookup_insert_eq. discriminate.
Qed.

(** X23. The confidence of the overall summary is the confidence of the next-day
    prediction; without a prediction it is "medium". Neither the technical
    indicators nor the seasonality have a say in it. *)
Theorem summary_confidence_follows_prediction (current_month : nat)
    (technical_analysis : Keyed TechnicalAnalysis)
    (seasonality_analysis : SeasonalitySection)
    (predictive_analysis : Keyed PredictiveAnalysis) (s : Summary) :
  _generate_analysis_summary current_month technical_analysis
    seasonality_analysis predictive_analysis = Value s ->
  summary_confidence s
  = match predictive_analysis with
    | Value p => confidence (next_day_prediction p)
    | Error _ => medium
    end.
Proof.
  unfold _generate_analysis_summary.
  destruct (technical_step technical_analysis initial_summary) as [s1|] eqn:E;
    cbn [bind catch]; intros H; [|discriminate H].
  injection H as <-.
  cbn [summary_confidence set_disclaimer add_recommendation].
  destruct (prediction_step_keeps predictive_analysis
              (seasonality_step current_month seasonality_analysis s1))
    as [_ ->].
  destruct (seasonality_step_keeps current_month seasonality_analysis s1)
    as [-> _].
  destruct (technical_step_keeps _ _ _ E) as [-> _].
  destruct predictive_analysis as [p|]; [|reflexivity].
  now destruct (confidence (next_day_prediction p)).
Qed.

(** Every overall summary ends its recommendations with the closing
    recommendation of its final sentiment and confidence, has at most one
    recommendation before it (the one the RSI gives) and carries the
    disclaimer. *)
Theorem summary_closing_recommendation (current_month : nat)
    (technical_analysis : Keyed TechnicalAnalysis)
    (seasonality_analysis : SeasonalitySection)
    (predictive_analysis : Keyed PredictiveAnalysis) (s : Summary) :
  _generate_analysis_summary current_month technical_analysis
    seasonality_analysis predictive_analysis = Value s ->
  exists earlier,
    recommendations s
    = earlier ++ [final_recommendation (overall_sentiment s)
                    (summary_confidence s)] /\
    (length earlier <= 1)%nat /\
    disclaimer s = Some disclaimer_text.
Proof.
  unfold _generate_analysis_summary.
  destruct (technical_step technical_analysis initial_summary) as [s1|] eqn:E;
    cbn [bind catch]; intros H; [|discriminate H].
  injection H as <-.
  cbn [summary_confidence overall_sentiment recommendations disclaimer
       set_disclaimer add_recommendation].
  destruct (prediction_step_keeps predictive_analysis
              (seasonality_step current_month seasonality_analysis s1))
    as [-> _].
  destruct (seasonality_step_keeps current_month seasonality_analysis s1)
    as [_ ->].
  destruct (technical_step_keeps _ _ _ E) as [_ (extra & -> & Hlen)].
  exists extra. cbn [recommendations initial_summary app]. auto.
Qed.

(** X24. A price more than 0.05 away from its 20-day average decides the overall
    sentiment: bullish above, bearish below, whatever the seasonality and
    the next-day prediction say. *)
Theorem technical_sentiment_is_final (current_month : nat)
    (t : TechnicalAnalysis) (seasonality_analysis : SeasonalitySection)
    (predictive_analysis : Keyed PredictiveAnalysis) (v : fval) :
  current_indicators t !! "price_vs_ma20" = Some (Some v) ->
  fgt v (Fin (5 # 100)) = true \/ flt v (Fin (- (5 # 100))) = true ->
  exists s,
    _generate_analysis_summary current_month (Value t) seasonality_analysis
      predictive_analysis = Value s /\
    overall_sentiment s
    = if fgt v (Fin (5 # 100)) then bullish else bearish.
Proof.
  intros Hv Hfar. unfold _generate_analysis_summary, technical_step.
  rewrite (indicators_not_empty _ _ _ Hv).
  unfold moving_average_step. rewrite Hv. cbn [bind].
  assert (Hkeep : forall s1 : Summary,
            is_neutral (overall_sentiment s1) = false ->
            overall_sentiment
              (prediction_step predictive_analysis
                 (seasonality_step current_month seasonality_analysis s1))
            = overall_sentiment s1).
  { intros s1 H1. rewrite prediction_step_sentiment.
    - now apply seasonality_step_sentiment.
    - now rewrite seasonality_step_sentiment. }
  destruct (fgt v (Fin (5 # 100))) eqn:Egt.
  - cbn [bind catch]. eexists. split; [reflexivity|].
    cbn [overall_sentiment set_disclaimer add_recommendation].
    now rewrite Hkeep.
  - destruct Hfar as [Hfar|Hfar]; [discriminate Hfar|]. rewrite Hfar.
    cbn [bind catch]. eexists. split; [reflexivity|].
    cbn [overall_sentiment set_disclaimer add_recommendation].
    now rewrite Hkeep.
Qed.

(** X25. The overall summary is never an error dict when its technical section
    carries the indicators of the indicator engine, whatever the other two
    sections hold. *)
Theorem summary_of_engine_indicators (ta : TechnicalIndicators.TaLibrary)
    (self_data : DataFrame) (indicators : gmap string (option fval))
    (latest_trend : gmap string fval) (rows : list (gmap string fval))
    (current_month : nat) (seasonality_analysis : SeasonalitySection)
    (predictive_analysis : Keyed PredictiveAnalysis) :
  TechnicalIndicators.get_technical_summary ta self_data = Ok indicators ->
  exists s,
    _generate_analysis_summary current_month
      (Value (mkTechnicalAnalysis indicators latest_trend rows))
      seasonality_analysis predictive_analysis = Value s.
Proof.
  intros Hs. unfold _generate_analysis_summary.
  destruct (technical_step_ok
              (Value (mkTechnicalAnalysis indicators latest_trend rows))
              initial_summary) as [s1 ->].
  - intros t Ht. injection Ht as <-. cbn [current_indicators].
    exact (engine_distance_is_a_float ta self_data indicators Hs).
  - cbn [bind catch]. eauto.
Qed.

Lemma summary_confidence_follows_prediction_witness :
  exists s,
    _generate_analysis_summary 3 (Value stretched_technicals)
      (Error "no seasonality") (Value bearish_call) = Value s /\
    summary_confidence s = high.
Proof.
  eexists. split; [vm_compute; reflexivity|].
  apply (summary_confidence_follows_prediction 3 (Value stretched_technicals)
           (Error "no seasonality") (Value bearish_call)).
  vm_compute. reflexivity.
Defined.

Lemma summary_closing_recommendation_witness :
  exists s earlier,
    _generate_analysis_summary 3 (Value stretched_technicals)
      (Error "no seasonality") (Value bearish_call) = Value s /\
    recommendations s
    = earlier ++ [final_recommendation (overall_sentiment s)
                    (summary_confidence s)] /\
    (length earlier <= 1)%nat /\
    disclaimer s = Some disclaimer_text.
Proof.
  eexists.
  assert (H : _generate_analysis_summary 3 (Value stretched_technicals)
                (Error "no seasonality") (Value bearish_call) = Value _)
    by (vm_compute; reflexivity).
  destruct (summary_closing_recommendation _ _ _ _ _ H) as [earlier Hrest].
  exists earlier. split; [exact H|exact Hrest].
Defined.

Lemma technical_sentiment_is_final_witness :
  exists s,
    _generate_analysis_summary 3 (Value stretched_technicals)
      (Error "no seasonality") (Value bearish_call) = Value s /\
    overall_sentiment s = bullish.
Proof.
  apply (technical_sentiment_is_final 3 stretched_technicals
           (Error "no seasonality") (Value bearish_call) (Fin 6)).
  - vm_compute. reflexivity.
  - left. reflexivity.
Defined.

Lemma summary_of_engine_indicators_witness :
  exists indicators s,
    TechnicalIndicators.get_technical_summary blank_ta
      (Frame.of_records three_bars) = Ok indicators /\
    _generate_analysis_summary 3
      (Value (mkTechnicalAnalysis indicators ∅ []))
      (Error "no seasonality") (Value bearish_call) = Value s.
Proof.
  assert (Hok : Outcome.is_ok
                  (TechnicalIndicators.get_technical_summary blank_ta
                     (Frame.of_records three_bars)) = true)
    by (vm_compute; reflexivity).
  remember (TechnicalIndicators.get_technical_summary blank_ta
              (Frame.of_records three_bars)) as c eqn:Hs.
  symmetry in Hs. destruct c as [indicators|]; [|discriminate Hok].
  destruct (summary_of_engine_indicators blank_ta
              (Frame.of_records three_bars) indicators ∅ [] 3
              (Error "no seasonality") (Value bearish_call) Hs) as [s H].
  exists indicators, s. split; [reflexivity|exact H].
Defined.

End OutlookFacts.

Module FeatureFacts.

Import StockPredictor Features PandasFacts NumFacts Examples.

Section Features.

Variable sqrt : Q -> Q.
Variable dayofweek : Date -> nat.

(** The names of the feature table are the feature columns. *)
Lemma feature_table_names (bars : list PriceBar) :
  map fst (feature_table sqrt dayofweek bars) = get_feature_columns.
Proof. reflexivity. Qed.

Lemma length_prepare_features (bars : list PriceBar) :
  length (prepare_features sqrt dayofweek bars) = length bars.
Proof. unfold prepare_features. now rewrite length_map, length_seq. Qed.

Lemma nth_zip_with_NaN (f : fval -> fval -> fval) (a b : Series) (i : nat) :
  (i < length a)%nat -> (i < length b)%nat ->
  nth i (zip_with f a b) NaN = f (nth i a NaN) (nth i b NaN).
Proof.
  revert b i. induction a as [|x a IH]; intros b i Ha Hb; [cbn in Ha; lia|].
  destruct b as [|y b]; [cbn in Hb; lia|].
  destruct i as [|i]; [reflexivity|]. cbn in *. apply IH; lia.
Qed.

Lemma nth_rolling_mean_warm_up (w i : nat) (s : Series) :
  (S i < w)%nat -> nth i (rolling_mean w s) NaN = NaN.
Proof.
  intros Hw. destruct (Nat.lt_ge_cases i (length s)) as [Hi|Hi].
  - pose proof (lookup_rolling_mean w i s Hi) as Hl.
    apply (nth_lookup_Some _ _ NaN) in Hl. rewrite Hl.
    destruct (Nat.ltb_spec (S i) w); [reflexivity|lia].
  - apply nth_overflow. now rewrite length_rolling_mean.
Qed.

(** Before the 50-day average exists, the distance of the close from it is
    missing. *)
Lemma Price_vs_MA50_warm_up (Close : Series) (i : nat) :
  (i < 49)%nat -> nth i (Price_vs_MA 50 Close) NaN = NaN.
Proof.
  intros Hi. unfold Price_vs_MA, sdiv, ssub.
  destruct (Nat.lt_ge_cases i (length Close)) as [Hlen|Hlen].
  - rewrite nth_zip_with_NaN.
    + rewrite nth_rolling_mean_warm_up by lia.
      now destruct (nth i (zip_with fsub Close (rolling_mean 50 Close)) NaN).
    + rewrite length_zip_with, length_rolling_mean. lia.
    + now rewrite length_rolling_mean.
  - apply nth_overflow.
    rewrite !length_zip_with, length_rolling_mean. lia.
Qed.

(** Each of the first 49 rows has a missing feature. *)
Lemma early_rows_incomplete (bars : list PriceBar) (i : nat) (r : Row) :
  prepare_features sqrt dayofweek bars !! i = Some r ->
  (i < 49)%nat ->
  any_isnan (features r) = true.
Proof.
  intros Hr Hi. unfold prepare_features in Hr.
  rewrite map_fmap, list_lookup_fmap in Hr.
  destruct (seq 0 (length bars) !! i) as [j|] eqn:Ej; [|discriminate Hr].
  apply lookup_seq in Ej as [-> _]. cbn [fmap option_fmap option_map] in Hr.
  injection Hr as <-. cbn [features].
  unfold feature_table. cbn [map app snd any_isnan existsb].
  rewrite (Price_vs_MA50_warm_up _ _ Hi). cbn [isnan].
  now rewrite !orb_true_r.
Qed.

Lemma filter_none {A} (P : A -> Prop) `{forall x, Decision (P x)}
    (l : list A) :
  Forall (fun x => ~ P x) l -> filter P l = [].
Proof.
  induction 1 as [|x l Hx Hl IH]; [reflexivity|].
  now rewrite filter_cons_False.
Qed.

(** At most the rows from the 50th on are complete. *)
Lemma complete_rows_bound (bars : list PriceBar) :
  (length (filter (fun r => any_isnan (features r) = false)
             (prepare_features sqrt dayofweek bars))
   <= length bars - 49)%nat.
Proof.
  set (rows := prepare_features sqrt dayofweek bars).
  assert (Hsplit : rows = take 49 rows ++ drop 49 rows)
    by (now rewrite take_drop).
  rewrite Hsplit, filter_app, length_app.
  assert (Hnone : filter (fun r => any_isnan (features r) = false)
                    (take 49 rows) = []).
  { apply filter_none. apply Forall_forall. intros r Hr.
    apply list_elem_of_lookup in Hr as [i Hi].
    apply lookup_take_Some in Hi as [Hi Hlt].
    rewrite (early_rows_incomplete bars i r Hi Hlt). discriminate. }
  rewrite Hnone. cbn [length].
  etransitivity; [apply length_filter|].
  rewrite length_drop. unfold rows. rewrite length_prepare_features. lia.
Qed.

(** X26. On a history that is not empty [prepare_training_data] leaves out
    the first 49 rows, whose distance from the 50-day average is missing:
    there are at most as many training rows as rows from the 50th on, with
    one label each, and every label is 0 or 1. On the empty history it
    raises: the feature columns were never added. *)
Theorem training_data_skip_warm_up (bars : list PriceBar) :
  match prepare_training_data (init sqrt dayofweek bars) with
  | Ok (X, y) =>
    bars <> [] /\
    (length X <= length bars - 49)%nat /\
    length y = length X /\
    Forall (fun label => label = 0%Z \/ label = 1%Z) y
  | Raise e => bars = [] /\ e = "KeyError"
  end.
Proof.
  unfold prepare_training_data, init. cbn [data].
  destruct (prepare_features sqrt dayofweek bars) as [|r0 rows] eqn:Erows.
  { split; [|reflexivity].
    apply (f_equal (@length Row)) in Erows.
    rewrite length_prepare_features in Erows. now destruct bars. }
  rewrite <- Erows. split.
  { intros ->. discriminate Erows. }
  rewrite !length_map. split; [apply complete_rows_bound|].
  split; [reflexivity|].
  apply Forall_map. apply Forall_forall. intros r Hr.
  apply list_elem_of_filter in Hr as [_ Hr].
  unfold prepare_features in Hr. rewrite map_fmap in Hr.
  apply list_elem_of_fmap in Hr as (i & -> & _).
  cbn [StockPredictor.Next_Day_Direction].
  unfold Features.Next_Day_Direction.
  destruct (Nat.lt_ge_cases i
              (length (Next_Day_Return (column close bars)))) as [Hi|Hi].
  - destruct (lookup_lt_is_Some_2 _ _ Hi) as [x Hx].
    erewrite (nth_lookup_Some _ i 0%Z);
      [|rewrite map_fmap, list_lookup_fmap, Hx; reflexivity].
    destruct (fgt x (Fin 0)); auto.
  - left. apply nth_overflow. now rewrite length_map.
Qed.

(** X27. The last row of the feature table is always labelled 0 ("not up"): it
    has no next day, and a comparison with a missing return is false. *)
Theorem last_row_is_labelled_down (bars : list PriceBar) :
  bars <> [] ->
  exists r,
    last (prepare_features sqrt dayofweek bars) = Some r /\
    StockPredictor.Next_Day_Direction r = 0%Z.
Proof.
  intros Hne.
  assert (Hlen : (0 < length bars)%nat)
    by (destruct bars; [contradiction|cbn; lia]).
  rewrite last_lookup, length_prepare_features.
  unfold prepare_features. rewrite map_fmap, list_lookup_fmap.
  rewrite lookup_seq_lt by lia. cbn [fmap option_fmap option_map].
  eexists. split; [reflexivity|]. cbn [StockPredictor.Next_Day_Direction].
  unfold Features.Next_Day_Direction, Next_Day_Return, minus_one, sdiv.
  set (Close := column close bars).
  assert (HC : length Close = length bars) by apply length_map.
  rewrite map_map.
  set (n := Nat.pred (length bars)).
  assert (Hn : (n < length bars)%nat) by (unfold n; lia).
  assert (Hcell : exists c, zip_with fdiv (shift_back 1 Close) Close !! n
                            = Some (fdiv NaN c)).
  { assert (Hb : shift_back 1 Close !! n = Some NaN).
    { unfold shift_back. rewrite lookup_app_r by (rewrite length_drop; lia).
      rewrite length_drop. apply lookup_replicate_2. unfold n. lia. }
    destruct (lookup_lt_is_Some_2 Close n) as [c Hc]; [lia|].
    exists c. now rewrite lookup_zip_with, Hb, Hc. }
  destruct Hcell as [c Hcell].
  erewrite (nth_lookup_Some _ n 0%Z);
    [|rewrite map_fmap, list_lookup_fmap, Hcell; reflexivity].
  reflexivity.
Qed.

Variable Split : Type.
Variable train_test_split :
  list (list fval) -> list Z -> Q -> Z -> Result Split.
Variable fit_scaler : Split -> Result (list fval -> Result (list fval)).
Variable fit_and_score : family -> Split -> Z -> Result Training.Fitted.

(** X28. On a history of fewer than 50 rows no model is trained, whatever
    the scikit-learn calls would do. When the history is not empty the
    predictor is returned without a model, and its next-day prediction is
    the default: neutral, probability 0.5, low confidence. On the empty
    history the call raises the [KeyError] of [prepare_training_data]. *)
Theorem short_history_predicts_default (bars : list PriceBar) :
  (length bars < 50)%nat ->
  match bars with
  | [] =>
    create_predictive_model sqrt dayofweek Split train_test_split fit_scaler
      fit_and_score bars = Raise "KeyError"
  | _ :: _ =>
    exists predictor,
      create_predictive_model sqrt dayofweek Split train_test_split
        fit_scaler fit_and_score bars = Ok predictor /\
      best predictor = None /\
      predict_next_day predictor = Ok default_prediction
  end.
Proof.
  intros Hshort. destruct bars as [|b bars]; [reflexivity|].
  unfold create_predictive_model.
  unfold prepare_training_data, init at 2. cbn [data].
  destruct (prepare_features sqrt dayofweek (b :: bars)) as [|r0 rows] eqn:E.
  { apply (f_equal (@length Row)) in E.
    rewrite length_prepare_features in E. discriminate E. }
  rewrite <- E. cbn [bind].
  pose proof (complete_rows_bound (b :: bars)) as Hrows.
  destruct (filter (fun r => any_isnan (features r) = false)
              (prepare_features sqrt dayofweek (b :: bars))) as [|r rs];
    [|cbn [length] in Hrows, Hshort; lia].
  exists (init sqrt dayofweek (b :: bars)). repeat split.
Qed.

End Features.

Lemma short_history_predicts_default_witness :
  exists predictor,
    create_predictive_model newton_sqrt (fun _ => 0%nat) unit
      (fun _ _ _ _ => Ok tt) (fun _ => Ok (fun X => Ok X)) example_fit
      three_bars = Ok predictor /\
    best predictor = None /\
    predict_next_day predictor = Ok default_prediction.
Proof.
  apply (short_history_predicts_default newton_sqrt (fun _ => 0%nat) unit
           (fun _ _ _ _ => Ok tt) (fun _ => Ok (fun X => Ok X)) example_fit
           three_bars).
  cbn. lia.
Defined.

Lemma last_row_is_labelled_down_witness :
  exists r,
    last (prepare_features newton_sqrt (fun _ => 0%nat) three_bars) = Some r /\
    StockPredictor.Next_Day_Direction r = 0%Z.
Proof.
  apply (last_row_is_labelled_down newton_sqrt (fun _ => 0%nat) three_bars).
  discriminate.
Defined.

End FeatureFacts.

Module ForecastFacts.

Import SeasonalityAnalyzer SeasonalForecast PandasFacts NumFacts Examples.

Section Quarters.

Variable sqrt : Q -> Q.

(** The loop of [analyze_quarterly_seasonality] over a list of quarters
    without repetition. *)
Lemma quarterly_loop_lookup (rows : list Row) (quarters : list nat) :
  NoDup quarters ->
  forall (base : gmap nat QuarterlyStats) (q : nat),
    foldl
      (fun quarterly_stats q =>
         match quarter_rows q rows with
         | [] => quarterly_stats
         | _ :: _ =>
           <[q := quarter_stats sqrt q (quarter_rows q rows)]> quarterly_stats
         end)
      base quarters !! q
    = if bool_decide (q ∈ quarters) then
        match quarter_rows q rows with
        | [] => base !! q
        | _ :: _ => Some (quarter_stats sqrt q (quarter_rows q rows))
        end
      else base !! q.
Proof.
  induction quarters as [|k quarters IH]; intros Hnd base q.
  - cbn. rewrite bool_decide_eq_false_2; [reflexivity|]. apply not_elem_of_nil.
  - apply NoDup_cons in Hnd as [Hk Hnd]. cbn [foldl]. rewrite IH by exact Hnd.
    destruct (decide (q = k)) as [->|Hne].
    + rewrite (bool_decide_eq_false_2 (k ∈ quarters)) by exact Hk.
      rewrite bool_decide_eq_true_2 by now left.
      destruct (quarter_rows k rows); [reflexivity|].
      now rewrite lookup_insert_eq.
    + assert (Hbase :
        (match quarter_rows k rows with
         | [] => base
         | _ :: _ => <[k := quarter_stats sqrt k (quarter_rows k rows)]> base
         end) !! q = base !! q).
      { destruct (quarter_rows k rows); [reflexivity|].
        now rewrite lookup_insert_ne by congruence. }
      rewrite Hbase.
      destruct (decide (q ∈ quarters)) as [Hin|Hnin].
      * rewrite !bool_decide_eq_true_2; [reflexivity|now right|exact Hin].
      * rewrite !bool_decide_eq_false_2; [reflexivity| |exact Hnin].
        intros Hin. apply elem_of_cons in Hin as [?|?]; contradiction.
Qed.

(** The bucket of a quarter: present exactly when the quarter is one of 1 to
    4 and some row falls into it, and then computed from those rows. *)
Lemma quarterly_lookup (rows : list Row) (q : nat) :
  analyze_quarterly_seasonality sqrt rows !! q
  = if bool_decide (q ∈ seq 1 4) then
      match quarter_rows q rows with
      | [] => None
      | _ :: _ => Some (quarter_stats sqrt q (quarter_rows q rows))
      end
    else None.
Proof.
  unfold analyze_quarterly_seasonality. destruct rows as [|r rows].
  - rewrite lookup_empty. now destruct (bool_decide (q ∈ seq 1 4)).
  - set (rs := r :: rows).
    pose proof (quarterly_loop_lookup rs (seq 1 4) (NoDup_seq 1 4) ∅ q) as H.
    rewrite lookup_empty in H. unfold quarter_rows in H. exact H.
Qed.

Lemma quarter_in_range (d : Date) :
  (1 <= month d <= 12)%nat -> quarter_of d ∈ seq 1 4.
Proof.
  intros Hm. apply elem_of_seq. unfold quarter_of.
  assert ((month d - 1) / 3 < 4)%nat
    by (apply Nat.Div0.div_lt_upper_bound; lia).
  lia.
Qed.

(** Rows and bars of one quarter are equally many. *)
Lemma quarter_rows_count (bars : list PriceBar) (q : nat) :
  length (quarter_rows q (init bars))
  = length (filter (fun b => quarter_of (date b) = q) bars).
Proof.
  pose proof (BucketFacts.init_dates bars) as Hd. unfold quarter_rows.
  revert Hd. generalize (init bars). intros rows. revert rows.
  induction bars as [|b bars IH]; intros rows Hd.
  - destruct rows; [reflexivity|discriminate].
  - destruct rows as [|r rows]; [discriminate|]. cbn in Hd.
    injection Hd as Hr Hd. rewrite !filter_cons, Hr.
    destruct (decide (quarter_of (date b) = q)); cbn [length];
      rewrite (IH rows Hd); reflexivity.
Qed.

(** X29. The quarterly buckets pool the rows of a calendar quarter over all
    years: a bucket exists exactly for the quarters that occur, its
    [total_days] is the number of rows of its quarter, and a bucket of a
    single row has the total return 0. *)
Theorem quarterly_buckets_cover (bars : list PriceBar) :
  Forall (fun b => (1 <= month (date b) <= 12)%nat) bars ->
  let quarterly_stats := analyze_quarterly_seasonality sqrt (init bars) in
  (forall b, b ∈ bars ->
     is_Some (quarterly_stats !! quarter_of (date b))) /\
  (forall q st, quarterly_stats !! q = Some st ->
     (1 <= q <= 4)%nat /\
     q_total_days st
     = length (filter (fun b => quarter_of (date b) = q) bars) /\
     (0 < q_total_days st)%nat /\
     (q_total_days st = 1%nat -> q_total_return st = Fin 0)).
Proof.
  intros Hmonths quarterly_stats. split.
  - intros b Hb. unfold quarterly_stats. rewrite quarterly_lookup.
    rewrite Forall_forall in Hmonths.
    rewrite bool_decide_eq_true_2 by (apply quarter_in_range; auto).
    pose proof (quarter_rows_count bars (quarter_of (date b))) as Hc.
    destruct (quarter_rows (quarter_of (date b)) (init bars)); [|eauto].
    exfalso.
    assert (Hbf : b ∈ filter (fun b' => quarter_of (date b')
                                        = quarter_of (date b)) bars)
      by (apply list_elem_of_filter; auto).
    destruct (filter (fun b' => quarter_of (date b') = quarter_of (date b))
                bars);
      [now apply elem_of_nil in Hbf|cbn in Hc; discriminate].
  - intros q st Hst. unfold quarterly_stats in Hst.
    rewrite quarterly_lookup in Hst.
    destruct (decide (q ∈ seq 1 4)) as [Hin|Hnin];
      [rewrite bool_decide_eq_true_2 in Hst by exact Hin
      |rewrite bool_decide_eq_false_2 in Hst by exact Hnin; discriminate].
    pose proof (quarter_rows_count bars q) as Hc.
    destruct (quarter_rows q (init bars)) as [|r rs] eqn:E; [discriminate|].
    injection Hst as <-. cbn [q_total_days q_total_return quarter_stats].
    apply elem_of_seq in Hin.
    split; [lia|]. split; [exact Hc|]. split; [cbn; lia|].
    intros Hone. destruct rs; [reflexivity|discriminate].
Qed.

(** X30. The forecast for a month in which the history has no row: no monthly
    statistics, and the recommendation "neutral" with confidence "low". *)
Theorem forecast_for_absent_month (bars : list PriceBar)
    (target_month : nat) (target_quarter : option nat) :
  bars <> [] ->
  Forall (fun b => month (date b) <> target_month) bars ->
  let forecast :=
    get_seasonal_forecast (analyze_monthly_seasonality sqrt (init bars))
      (analyze_quarterly_seasonality sqrt (init bars))
      target_month target_quarter in
  month_forecast forecast = None /\
  forecast_recommendation forecast = neutral /\
  forecast_confidence forecast = low.
Proof.
  intros _ Habsent forecast. unfold forecast, get_seasonal_forecast.
  rewrite BucketFacts.monthly_lookup.
  rewrite (StrengthFacts.no_row_of_month target_month bars Habsent)
    by apply BucketFacts.init_dates.
  destruct (bool_decide (target_month ∈ seq 1 12)); repeat split.
Qed.

End Quarters.

(** A seasonal forecast is bullish or bearish only for a month with
    statistics whose average return and win rate are both beyond their
    thresholds; the confidence "low" comes only with "neutral". *)
Theorem forecast_direction_needs_evidence
    (monthly_stats : gmap nat MonthlyStats)
    (quarterly_stats : gmap nat QuarterlyStats)
    (target_month : nat) (target_quarter : option nat) :
  let forecast :=
    get_seasonal_forecast monthly_stats quarterly_stats target_month
      target_quarter in
  (forecast_recommendation forecast = bullish ->
   exists st, monthly_stats !! target_month = Some st /\
     fgt (avg_return st) (Fin (1 # 1000)) = true /\
     fgt (win_rate st) (Fin (55 # 100)) = true) /\
  (forecast_recommendation forecast = bearish ->
   exists st, monthly_stats !! target_month = Some st /\
     flt (avg_return st) (Fin (- (1 # 1000))) = true /\
     flt (win_rate st) (Fin (45 # 100)) = true) /\
  (forecast_confidence forecast = low ->
   forecast_recommendation forecast = neutral).
Proof.
  cbv zeta. unfold get_seasonal_forecast.
  destruct (monthly_stats !! target_month) as [st|];
    [|repeat split; try discriminate].
  unfold recommend.
  destruct (fgt (avg_return st) (Fin (1 # 1000))) eqn:E1,
           (fgt (win_rate st) (Fin (55 # 100))) eqn:E2;
    cbn [andb];
    try (destruct (flt (avg_return st) (Fin (- (1 # 1000)))) eqn:E3,
                  (flt (win_rate st) (Fin (45 # 100))) eqn:E4;
         cbn [andb]);
    cbn [forecast_recommendation forecast_confidence];
    repeat split; intros H; try discriminate H; eauto;
    repeat match type of H with
           | context [if ?c then _ else _] => destruct c
           end;
    try discriminate H; reflexivity.
Qed.

Lemma quarterly_buckets_cover_witness :
  is_Some (analyze_quarterly_seasonality newton_sqrt (init three_bars)
           !! 1%nat).
Proof.
  destruct (quarterly_buckets_cover newton_sqrt three_bars) as [H _].
  - repeat constructor; cbn; lia.
  - apply (H (mkPriceBar (mkDate 2024 1 2) 99 101 98 100 100 1000)).
    now left.
Defined.

Lemma forecast_for_absent_month_witness :
  forecast_recommendation
    (get_seasonal_forecast
       (analyze_monthly_seasonality newton_sqrt (init three_bars))
       (analyze_quarterly_seasonality newton_sqrt (init three_bars))
       7 None) = neutral.
Proof.
  destruct (forecast_for_absent_month newton_sqrt three_bars 7 None)
    as (_ & H & _).
  - discriminate.
  - repeat constructor; cbn; lia.
  - exact H.
Defined.

End ForecastFacts.
